(** * LSTM flood model: a shallow embedding of [backend/ml/lstm_flood_model.py]

    The development follows the Python class [LSTMFloodModel]:
    - methods are computations in a state-and-exception monad over the
      object ([self]);
    - numpy arrays are lists (a matrix is a list of rows), Python integers
      are [Z], Python floats are exact rationals [Q] (rounding, NaN and
      infinities are not represented);
    - the Keras runtime is a record of operations the model is parametric
      in; the scikit-learn scaler and the Keras training loop are written
      out from their description in the specification. *)

From Stdlib Require Import ZArith QArith Qminmax Qround Lia Lqa Ascii.
From stdpp Require Import base option list gmap strings.

Open Scope Z_scope.

(** ** Python: exceptions, results, objects with state *)

Module Py.

Inductive exn : Type :=
| ValueError
| IndexError
| NotFittedError
| NameError
| TypeError
| OSError
| KeyError
| FileNotFoundError.

Inductive result (A : Type) : Type :=
| Ok (a : A)
| Raise (e : exn).
Arguments Ok {A} a.
Arguments Raise {A} e.

Definition rbind {A B} (r : result A) (k : A -> result B) : result B :=
  match r with
  | Ok a => k a
  | Raise e => Raise e
  end.

Fixpoint rmapM {A B} (f : A -> result B) (l : list A) : result (list B) :=
  match l with
  | [] => Ok []
  | x :: l' => rbind (f x) (fun y => rbind (rmapM f l') (fun ys => Ok (y :: ys)))
  end.

(** A method of an object of type [S]: it may mutate the object and either
    returns a value or raises; the object survives an exception with the
    mutations made so far. *)
Definition M (S A : Type) : Type := S -> result A * S.

Definition ret {S A} (a : A) : M S A := fun s => (Ok a, s).
Definition raise {S A} (e : exn) : M S A := fun s => (Raise e, s).
Definition bind {S A B} (c : M S A) (k : A -> M S B) : M S B :=
  fun s => match c s with
           | (Ok a, s') => k a s'
           | (Raise e, s') => (Raise e, s')
           end.
Definition get {S} : M S S := fun s => (Ok s, s).
Definition modify {S} (f : S -> S) : M S unit := fun s => (Ok tt, f s).
Definition lift {S A} (r : result A) : M S A := fun s => (r, s).

(** [range(lo, hi)] *)
Definition range (lo hi : Z) : list Z :=
  map (fun k => lo + Z.of_nat k) (seq 0 (Z.to_nat (hi - lo))).

(** Bound of a slice: negative bounds count from the end, everything is
    clamped into [0, n]. *)
Definition slice_bound (n i : Z) : Z :=
  if i <? 0 then Z.max (i + n) 0 else Z.min i n.

(** [l[a:b]] *)
Definition slice {A} (l : list A) (a b : Z) : list A :=
  let n := Z.of_nat (length l) in
  let a' := slice_bound n a in
  let b' := slice_bound n b in
  take (Z.to_nat (b' - a')) (drop (Z.to_nat a') l).

(** [l[a:]] and [l[:b]] *)
Definition slice_from {A} (l : list A) (a : Z) : list A :=
  slice l a (Z.of_nat (length l)).
Definition slice_to {A} (l : list A) (b : Z) : list A :=
  slice l 0 b.

(** [l[i]]: negative indices count from the end, out of range raises. *)
Definition index {A} (l : list A) (i : Z) : result A :=
  let n := Z.of_nat (length l) in
  let j := if i <? 0 then i + n else i in
  if (0 <=? j) && (j <? n)
  then match l !! Z.to_nat j with
       | Some x => Ok x
       | None => Raise IndexError
       end
  else Raise IndexError.

(** [s.replace(old, new)] for a non-empty [old]: occurrences are replaced
    left to right, without overlap. [skip] counts the characters of a
    match still to be dropped. *)
Fixpoint replace_go (old new : string) (skip : nat) (s : string) : string :=
  match s with
  | EmptyString => EmptyString
  | String c s' =>
      match skip with
      | S k => replace_go old new k s'
      | O =>
          if String.prefix old s
          then String.append new (replace_go old new (Nat.pred (String.length old)) s')
          else String c (replace_go old new O s')
      end
  end.

Definition replace (s old new : string) : string := replace_go old new O s.

Fixpoint drop_while {A} (f : A -> bool) (l : list A) : list A :=
  match l with
  | [] => []
  | x :: l' => if f x then drop_while f l' else l
  end.

Definition is_slash (c : Ascii.ascii) : bool := Ascii.eqb c "/"%char.

(** [os.path.dirname(p)] of [posixpath]: what stands before the last
    slash, slash included, and then without its trailing slashes unless
    it is made of slashes only. *)
Definition dirname (p : string) : string :=
  let head := drop_while (fun c => negb (is_slash c))
                (rev (String.list_ascii_of_string p)) in
  String.string_of_list_ascii
    (rev (match drop_while is_slash head with
          | [] => head
          | stripped => stripped
          end)).

End Py.

Import Py.

Notation "'let*' x ':=' c1 'in' c2" := (Py.bind c1 (fun x => c2))
  (at level 10, x pattern, c1 at level 100, c2 at level 200).

(** ** numpy on lists of rationals *)

Module Np.

(** A two-dimensional array is the list of its rows. *)
Abbreviation matrix := (list (list Q)).

(** [np.column_stack([a, b])] of two one-dimensional arrays. *)
Definition column_stack (a b : list Q) : result matrix :=
  if decide (length a = length b)
  then Ok (zip_with (fun x y => [x; y]) a b)
  else Raise ValueError.

Definition total (xs : list Q) : Q := foldr Qplus 0%Q xs.

Definition mean (xs : list Q) : Q :=
  (total xs / inject_Z (Z.of_nat (length xs)))%Q.

(** [np.var]: the population variance. *)
Definition var (xs : list Q) : Q :=
  let mu := mean xs in
  mean (map (fun x => ((x - mu) * (x - mu))%Q) xs).

(** [np.clip(a, lo, hi)] on one entry: [minimum(maximum(a, lo), hi)]. *)
Definition clip (a lo hi : Q) : Q := Qmin (Qmax a lo) hi.

End Np.

Import Np.

(** ** The feature scaler *)

Module MinMaxScaler.

(** Modelled from the spec: the FeatureScaler. The source instantiates
    [sklearn.preprocessing.MinMaxScaler], which is not part of the
    repository; its state is the per-feature [{min, max}] pair fitted from
    a matrix, [transform] maps every feature linearly so that the fitted
    bounds go to 0 and 1, a constant column is scaled by 1 instead of being
    divided by zero, and [inverse_transform] undoes [transform]. An
    unfitted scaler refuses to transform, and a matrix without rows or of
    the wrong width is refused.

    The arithmetic is the exact one of the rationals. The library
    evaluates the same expressions in double precision, where a result is
    off by a rounding error: the inverse is the algebraic inverse and not
    the bit-for-bit one, and a transformed maximum can come out one unit
    in the last place above 1. No property below bounds a transformed
    value by 0 or 1. *)
Inductive t : Type :=
| Unfitted
| Fitted (bounds : list (Q * Q)).

Definition handle_zeros (r : Q) : Q := if Qeq_bool r 0 then 1%Q else r.

Definition scale_ (b : Q * Q) : Q := (1 / handle_zeros (snd b - fst b))%Q.

Definition min_ (b : Q * Q) : Q := (0 - fst b * scale_ b)%Q.

Definition has_width (n : nat) (X : matrix) : bool :=
  forallb (fun row => Nat.eqb (length row) n) X.

Definition widen (acc : list (Q * Q)) (row : list Q) : list (Q * Q) :=
  zip_with (fun b x => (Qmin (fst b) x, Qmax (snd b) x)) acc row.

Definition column_bounds (row0 : list Q) (rows : matrix) : list (Q * Q) :=
  foldl widen (map (fun x => (x, x)) row0) rows.

Definition transform_row (bounds : list (Q * Q)) (row : list Q) : list Q :=
  zip_with (fun b x => (x * scale_ b + min_ b)%Q) bounds row.

Definition inverse_row (bounds : list (Q * Q)) (row : list Q) : list Q :=
  zip_with (fun b x => ((x - min_ b) / scale_ b)%Q) bounds row.

(** [fit] forgets the previous parameters before it looks at the data. *)
Definition fit (X : matrix) : M t unit :=
  fun _ =>
    match X with
    | [] => (Raise ValueError, Unfitted)
    | row0 :: rows =>
        if has_width (length row0) rows
        then (Ok tt, Fitted (column_bounds row0 rows))
        else (Raise ValueError, Unfitted)
    end.

Definition transform (X : matrix) : M t matrix :=
  fun sc =>
    match sc with
    | Unfitted => (Raise NotFittedError, sc)
    | Fitted bounds =>
        match X with
        | [] => (Raise ValueError, sc)
        | _ :: _ =>
            if has_width (length bounds) X
            then (Ok (map (transform_row bounds) X), sc)
            else (Raise ValueError, sc)
        end
    end.

Definition fit_transform (X : matrix) : M t matrix :=
  let* _ := fit X in transform X.

Definition inverse_transform (X : matrix) : M t matrix :=
  fun sc =>
    match sc with
    | Unfitted => (Raise NotFittedError, sc)
    | Fitted bounds =>
        match X with
        | [] => (Raise ValueError, sc)
        | _ :: _ =>
            if has_width (length bounds) X
            then (Ok (map (inverse_row bounds) X), sc)
            else (Raise ValueError, sc)
        end
    end.

End MinMaxScaler.

(** ** The Keras runtime *)

Module Keras.

(** A batch of windows, and a batch together with its targets. *)
Abbreviation batch := (list matrix).
Abbreviation dataset := (list matrix * list Q)%type.

(** What the class asks of Keras, for a compiled network of type [W]
    (architecture, weights): [predict w X j] is entry [j] of
    [model.predict(X)]; [call_training k w X j] is entry [j] of the [k]-th
    stochastic pass [model(X, training=True)]; [train_epoch] runs one epoch
    of the optimiser at a learning rate and returns the new weights with
    the epoch's training loss; [evaluate] returns [(loss, mae)].

    A network does not answer every batch: [predict_raises w X] and
    [call_raises w X] are the exceptions that [model.predict(X)] and
    [model(X, training=True)] raise on a batch they refuse (windows of
    another shape than the input layer, an empty batch), [None] when
    they answer.

    Nor does it train on every data: [fit_raises training validating] is
    the exception that [model.fit] raises before the first epoch for data
    it refuses (no window to train on, windows of another shape), [None]
    when it trains.

    [train_mae] is the mean absolute error an epoch logs beside its loss,
    and [lr_name] the name under which the plateau callback logs the
    learning rate (["lr"] or ["learning_rate"], by the version of Keras).

    [save p] is [model.save(p)] and the write of a checkpoint at [p], and
    [checkpoint p] the construction of [ModelCheckpoint(p, ...)]: they
    return, or raise for a name Keras refuses or a place it cannot write
    to. [load w] is what [keras.models.load_model] makes of a file that
    was written for the network [w], and [load_error] what it raises for
    a name at which it finds no model. *)
Record Backend (W : Type) : Type := {
  build : Z -> Z -> list Z -> Q -> W;
  predict : W -> batch -> nat -> Q;
  predict_raises : W -> batch -> option exn;
  call_training : nat -> W -> batch -> nat -> Q;
  call_raises : W -> batch -> option exn;
  fit_raises : dataset -> dataset -> option exn;
  train_epoch : nat -> Q -> Z -> dataset -> W -> W * Q;
  train_mae : nat -> Q -> Z -> dataset -> W -> Q;
  evaluate : W -> dataset -> Q * Q;
  lr_name : string;
  save : string -> result unit;
  checkpoint : string -> result unit;
  load : W -> result W;
  load_error : exn
}.
Arguments build {W} _ _ _ _ _.
Arguments predict {W} _ _ _ _.
Arguments predict_raises {W} _ _ _.
Arguments call_training {W} _ _ _ _ _.
Arguments call_raises {W} _ _ _.
Arguments fit_raises {W} _ _ _.
Arguments train_epoch {W} _ _ _ _ _ _.
Arguments train_mae {W} _ _ _ _ _ _.
Arguments evaluate {W} _ _ _.
Arguments lr_name {W} _.
Arguments save {W} _ _.
Arguments checkpoint {W} _ _.
Arguments load {W} _ _.
Arguments load_error {W} _.

Section Fit.

Context {W : Type} (K : Backend W).

Record EarlyStopping : Type := {
  patience : nat;
  restore_best_weights : bool;
  wait : nat;
  best : option Q;
  best_weights : option W
}.

Record ReduceLROnPlateau : Type := {
  factor : Q;
  lr_patience : nat;
  min_lr : Q;
  lr_wait : nat;
  lr_best : option Q
}.

(** The loop's state; [loss], [mae], [val_loss], [val_mae] and [lr_log]
    are the logs of the epochs that ran, and [epoch_weights] is a ghost
    log of the weights at the end of each of them. *)
Record FitState : Type := {
  weights : W;
  learning_rate : Q;
  stopper : EarlyStopping;
  plateau : ReduceLROnPlateau;
  loss : list Q;
  val_loss : list Q;
  epoch_weights : list W;
  mae : list Q;
  val_mae : list Q;
  lr_log : list Q
}.

(** A monitored loss improves when it is strictly below the best one. *)
Definition improves (current : Q) (b : option Q) : bool :=
  match b with
  | None => true
  | Some v => negb (Qle_bool v current)
  end.

(** Modelled from the spec: early stopping, the [EarlyStopping] callback
    of Keras, which is not part of the repository: an improving epoch
    records its loss and weights and resets the count, any other epoch
    counts, and training halts once [patience] epochs in a row have
    counted. *)
Definition early_stopping_epoch_end (cb : EarlyStopping) (w : W) (current : Q)
  : EarlyStopping * bool :=
  if improves current (best cb)
  then ({| patience := patience cb;
           restore_best_weights := restore_best_weights cb;
           wait := 0;
           best := Some current;
           best_weights := Some w |}, false)
  else ({| patience := patience cb;
           restore_best_weights := restore_best_weights cb;
           wait := S (wait cb);
           best := best cb;
           best_weights := best_weights cb |},
        Nat.leb (patience cb) (S (wait cb))).

(** Modelled from the spec: learning-rate plateau reduction, the
    [ReduceLROnPlateau] callback of Keras: after [lr_patience] epochs
    without improvement the rate is multiplied by [factor], never below
    [min_lr]. *)
Definition plateau_epoch_end (cb : ReduceLROnPlateau) (lr current : Q)
  : ReduceLROnPlateau * Q :=
  if improves current (lr_best cb)
  then ({| factor := factor cb; lr_patience := lr_patience cb;
           min_lr := min_lr cb; lr_wait := 0; lr_best := Some current |}, lr)
  else if Nat.leb (lr_patience cb) (S (lr_wait cb))
  then ({| factor := factor cb; lr_patience := lr_patience cb;
           min_lr := min_lr cb; lr_wait := 0; lr_best := lr_best cb |},
        Qmax (lr * factor cb) (min_lr cb))
  else ({| factor := factor cb; lr_patience := lr_patience cb;
           min_lr := min_lr cb; lr_wait := S (lr_wait cb);
           lr_best := lr_best cb |}, lr).

(** One epoch: optimise, measure the validation loss, run the callbacks.
    The boolean asks the loop to stop. *)
Definition run_epoch (batch_size : Z) (train val : dataset) (epoch : nat)
    (st : FitState) : FitState * bool :=
  let '(w, l) := train_epoch K epoch (learning_rate st) batch_size train (weights st) in
  let v := fst (evaluate K w val) in
  let '(es, stop) := early_stopping_epoch_end (stopper st) w v in
  let '(rl, lr) := plateau_epoch_end (plateau st) (learning_rate st) v in
  ({| weights := w;
      learning_rate := lr;
      stopper := es;
      plateau := rl;
      loss := loss st ++ [l];
      val_loss := val_loss st ++ [v];
      epoch_weights := epoch_weights st ++ [w];
      mae := mae st ++ [train_mae K epoch (learning_rate st) batch_size train
                          (weights st)];
      val_mae := val_mae st ++ [snd (evaluate K w val)];
      lr_log := lr_log st ++ [learning_rate st] |}, stop).

Fixpoint fit_loop (batch_size : Z) (train val : dataset) (remaining epoch : nat)
    (st : FitState) : FitState :=
  match remaining with
  | O => st
  | S r =>
      let '(st', stop) := run_epoch batch_size train val epoch st in
      if stop then st' else fit_loop batch_size train val r (S epoch) st'
  end.

(** Modelled from the spec: the best-observed weights are restored before
    the loop returns. *)
Definition on_train_end (st : FitState) : W :=
  if restore_best_weights (stopper st)
  then match best_weights (stopper st) with
       | Some w => w
       | None => weights st
       end
  else weights st.

(** Modelled from the spec: [model.fit] of Keras with the two callbacks:
    at most [epochs] epochs, one validation measurement per epoch. *)
Definition fit (w0 : W) (lr0 : Q) (train val : dataset) (epochs batch_size : Z)
    (es : EarlyStopping) (rl : ReduceLROnPlateau) : FitState :=
  let st :=
    fit_loop batch_size train val (Z.to_nat epochs) O
      {| weights := w0; learning_rate := lr0; stopper := es; plateau := rl;
         loss := []; val_loss := []; epoch_weights := [];
         mae := []; val_mae := []; lr_log := [] |} in
  {| weights := on_train_end st;
     learning_rate := learning_rate st;
     stopper := stopper st;
     plateau := plateau st;
     loss := loss st;
     val_loss := val_loss st;
     epoch_weights := epoch_weights st;
     mae := mae st;
     val_mae := val_mae st;
     lr_log := lr_log st |}.

(** Modelled from the spec and from the library: [history.history] of
    the run, the epoch history that [train] returns. It holds the logs of
    the epochs by name: the loss and the metric of [compile], their
    validation counterparts, and the learning rate that the plateau
    callback logs. A name comes with its first epoch, so a run without an
    epoch has none. *)
Definition history (st : FitState) : gmap string (list Q) :=
  match loss st with
  | [] => ∅
  | _ :: _ =>
      <["val_mae" := val_mae st]>
        (<["val_loss" := val_loss st]>
           (<["mae" := mae st]>
              (<["loss" := loss st]>
                 (<[lr_name K := lr_log st]> ∅))))
  end.

End Fit.

End Keras.

(** ** The class [LSTMFloodModel] *)

(** Values of the metadata document. *)
Inductive json : Type :=
| JString (s : string)
| JFloat (q : Q)
| JInt (z : Z)
| JIntList (l : list Z).

(** What the process finds around it: the two availability flags set by
    the guarded imports, the clock ([datetime.now().isoformat()]) and the
    draws of [np.random.normal(0, 0.05, size)] of the call under study,
    [random_normal i] being the draw for entry [i]. *)
Record Runtime : Type := {
  TF_AVAILABLE : bool;
  SKLEARN_AVAILABLE : bool;
  now_isoformat : string;
  random_normal : nat -> Q
}.

(** What the operating system answers a write: [makedirs name] is
    [os.makedirs(name, exist_ok=True)] for a non-empty name, and
    [create p] the opening of [p] for writing, by [open(p, "w")] or by
    [joblib.dump]; each returns or raises, and a file is replaced by a
    write that returns. *)
Record Storage : Type := {
  makedirs : string -> result unit;
  create : string -> result unit
}.

(** [os.makedirs(name, exist_ok=True)]: the empty name is no directory. *)
Definition os_makedirs (D : Storage) (name : string) : result unit :=
  if String.eqb name "" then Raise FileNotFoundError else makedirs D name.

(** What [predict] returns: the forecasts and the confidences, or [None]
    in their place. *)
Abbreviation prediction := (list Q * option (list Q))%type.

Section LSTM.

Context {W : Type} (K : Keras.Backend W) (R : Runtime) (D : Storage).

(** A file on disk, by what it can be loaded as. *)
Inductive artifact : Type :=
| SavedModel (w : W)
| ScalerDump (sc : MinMaxScaler.t)
| JsonDocument (d : gmap string json)
| OtherFile.

Record LSTMFloodModel : Type := {
  sequence_length : Z;
  n_features : Z;
  lstm_units : list Z;
  dropout_rate : Q;
  model : option W;
  scaler : option MinMaxScaler.t;
  is_trained : bool;
  training_history : option (gmap string (list Q));
  model_metadata : gmap string json
}.

Definition set_model (v : option W) (self : LSTMFloodModel) : LSTMFloodModel :=
  {| sequence_length := sequence_length self; n_features := n_features self;
     lstm_units := lstm_units self; dropout_rate := dropout_rate self;
     model := v; scaler := scaler self; is_trained := is_trained self;
     training_history := training_history self;
     model_metadata := model_metadata self |}.

Definition set_scaler (v : option MinMaxScaler.t) (self : LSTMFloodModel)
  : LSTMFloodModel :=
  {| sequence_length := sequence_length self; n_features := n_features self;
     lstm_units := lstm_units self; dropout_rate := dropout_rate self;
     model := model self; scaler := v; is_trained := is_trained self;
     training_history := training_history self;
     model_metadata := model_metadata self |}.

Definition set_is_trained (v : bool) (self : LSTMFloodModel) : LSTMFloodModel :=
  {| sequence_length := sequence_length self; n_features := n_features self;
     lstm_units := lstm_units self; dropout_rate := dropout_rate self;
     model := model self; scaler := scaler self; is_trained := v;
     training_history := training_history self;
     model_metadata := model_metadata self |}.

Definition set_training_history (v : option (gmap string (list Q)))
    (self : LSTMFloodModel) : LSTMFloodModel :=
  {| sequence_length := sequence_length self; n_features := n_features self;
     lstm_units := lstm_units self; dropout_rate := dropout_rate self;
     model := model self; scaler := scaler self; is_trained := is_trained self;
     training_history := v;
     model_metadata := model_metadata self |}.

Definition set_model_metadata (v : gmap string json) (self : LSTMFloodModel)
  : LSTMFloodModel :=
  {| sequence_length := sequence_length self; n_features := n_features self;
     lstm_units := lstm_units self; dropout_rate := dropout_rate self;
     model := model self; scaler := scaler self; is_trained := is_trained self;
     training_history := training_history self;
     model_metadata := v |}.

(** A call of a method of [self.scaler]; the callers have checked that
    the scaler is there. *)
Definition with_scaler {A} (c : M MinMaxScaler.t A) : M LSTMFloodModel A :=
  fun self =>
    match scaler self with
    | Some sc => let '(r, sc') := c sc in (r, set_scaler (Some sc') self)
    | None => (Raise TypeError, self)
    end.

(** *** Model building *)

Definition _build_model : M LSTMFloodModel unit :=
  if negb (TF_AVAILABLE R) then ret tt
  else
    let* self := get in
    modify (set_model
      (Some (Keras.build K (sequence_length self) (n_features self)
                         (lstm_units self) (dropout_rate self)))).

(** *** Data preparation *)

Definition fit_scaler_default : bool := true.

(** The body of the [for] loop over the window ends [i], with the two
    accumulators [X] and [y]. *)
Fixpoint sequences_loop (s : Z) (features : matrix) (ends : list Z)
    (X : list matrix) (y : list Q) : result (list matrix * list Q) :=
  match ends with
  | [] => Ok (X, y)
  | i :: rest =>
      rbind (Py.index features (i + 1)) (fun row =>
      rbind (Py.index row 1) (fun target =>
      sequences_loop s features rest
        (X ++ [Py.slice features (i - s) i]) (y ++ [target])))
  end.

(** The first half of [prepare_sequences]: the stacked and, when there is
    a scaler, normalized feature matrix. *)
Definition scaled_features (rainfall river_level : list Q) (fit_scaler : bool)
  : M LSTMFloodModel matrix :=
  let* features := lift (column_stack rainfall river_level) in
  let* self := get in
  match scaler self with
  | Some _ =>
      if fit_scaler
      then with_scaler (MinMaxScaler.fit_transform features)
      else with_scaler (MinMaxScaler.transform features)
  | None => ret features
  end.

Definition prepare_sequences (rainfall river_level : list Q) (fit_scaler : bool)
  : M LSTMFloodModel (list matrix * list Q) :=
  let* features := scaled_features rainfall river_level fit_scaler in
  let* self := get in
  lift (sequences_loop (sequence_length self) features
          (Py.range (sequence_length self) (Z.of_nat (length features) - 1))
          [] []).

(** *** Training *)

Definition _simulate_training : M LSTMFloodModel (gmap string (list Q)) :=
  let* _ := modify (set_is_trained true) in
  let* _ := modify (set_model_metadata
    (<["mae" := JFloat 2.5]>
       (<["mode" := JString "simulated"]>
          (<["trained_at" := JString (now_isoformat R)]> ∅)))) in
  ret (<["val_loss" := [0.12%Q]]> (<["loss" := [0.1%Q]]> ∅)).

(** The learning rate the network is compiled with in [_build_model]. *)
Definition compiled_learning_rate : Q := 0.001.

(** [X_val is None]: the last tenth of the training data, in order, is
    held out; [int(len(X_train) * 0.9)] is the integer quotient of
    [9 * len] by 10. The result is [(X_train, y_train, X_val, y_val)]. *)
Definition validation_split (X_train : Keras.batch) (y_train : list Q)
    (validation : option Keras.dataset) : Keras.dataset * Keras.dataset :=
  match validation with
  | Some (X_val, y_val) => ((X_train, y_train), (X_val, y_val))
  | None =>
      let split := (Z.of_nat (length X_train) * 9) / 10 in
      ((Py.slice_to X_train split, Py.slice_to y_train split),
       (Py.slice_from X_train split, Py.slice_from y_train split))
  end.

(** [EarlyStopping(monitor="val_loss", patience=15, restore_best_weights=True)] *)
Definition early_stopping : @Keras.EarlyStopping W :=
  {| Keras.patience := 15; Keras.restore_best_weights := true;
     Keras.wait := 0; Keras.best := None; Keras.best_weights := None |}.

(** [ReduceLROnPlateau(monitor="val_loss", factor=0.5, patience=5, min_lr=1e-6)] *)
Definition reduce_lr_on_plateau : Keras.ReduceLROnPlateau :=
  {| Keras.factor := 0.5; Keras.lr_patience := 5; Keras.min_lr := 1 # 1000000;
     Keras.lr_wait := 0; Keras.lr_best := None |}.

(** [if model_save_path:] the directory of the path is created and the
    checkpoint callback constructed; the answer says whether there is a
    checkpoint. *)
Definition checkpoint_setup (model_save_path : option string) : result bool :=
  match model_save_path with
  | Some p =>
      if String.eqb p "" then Ok false
      else rbind (os_makedirs D (Py.dirname p)) (fun _ =>
           rbind (Keras.checkpoint K p) (fun _ => Ok true))
  | None => Ok false
  end.

(** Modelled from the spec: checkpointing, the [ModelCheckpoint] callback
    of Keras ([save_best_only=True], on the validation loss). It writes at
    the end of every epoch that improves on the best loss so far, and the
    first epoch does. A write that raises ends [model.fit] there, with
    the weights of that epoch in the model. *)
Definition checkpoint_raises (checkpointing : bool) (model_save_path : option string)
    (run : @Keras.FitState W) : option (exn * W) :=
  match checkpointing, model_save_path, Keras.epoch_weights run with
  | true, Some p, w1 :: _ =>
      match Keras.save K p with
      | Raise e => Some (e, w1)
      | Ok _ => None
      end
  | _, _, _ => None
  end.

(** [train] without [verbose]; [validation] is the pair [(X_val, y_val)].
    The file system is no part of the object: what the checkpoint leaves
    on disk is [train_files] below. *)
Definition train (X_train : Keras.batch) (y_train : list Q)
    (validation : option Keras.dataset) (epochs batch_size : Z)
    (model_save_path : option string)
  : M LSTMFloodModel (gmap string (list Q)) :=
  let* self := get in
  match TF_AVAILABLE R, model self with
  | true, Some w =>
      let '(training, validating) := validation_split X_train y_train validation in
      let* checkpointing := lift (checkpoint_setup model_save_path) in
      let* _ :=
        match Keras.fit_raises K training validating with
        | Some e => raise e
        | None => ret tt
        end in
      let run :=
        Keras.fit K w compiled_learning_rate training validating epochs batch_size
          early_stopping reduce_lr_on_plateau in
      let* _ :=
        match checkpoint_raises checkpointing model_save_path run with
        | Some (e, w1) => let* _ := modify (set_model (Some w1)) in raise e
        | None => ret tt
        end in
      let* _ := modify (set_model (Some (Keras.weights run))) in
      let* _ := modify (set_is_trained true) in
      let history := Keras.history K run in
      let* _ := modify (set_training_history (Some history)) in
      let train_metrics := Keras.evaluate K (Keras.weights run) training in
      let val_metrics := Keras.evaluate K (Keras.weights run) validating in
      let* losses :=
        match history !! "loss" with
        | Some losses => ret losses
        | None => raise KeyError
        end in
      let* _ := modify (set_model_metadata
        (<["lstm_units" := JIntList (lstm_units self)]>
        (<["sequence_length" := JInt (sequence_length self)]>
        (<["val_mae" := JFloat (snd val_metrics)]>
        (<["val_loss" := JFloat (fst val_metrics)]>
        (<["train_mae" := JFloat (snd train_metrics)]>
        (<["train_loss" := JFloat (fst train_metrics)]>
        (<["epochs" := JInt (Z.of_nat (length losses))]>
        (<["trained_at" := JString (now_isoformat R)]> ∅))))))))) in
      ret history
  | _, _ => _simulate_training
  end.

(** The file system after [train] has returned: with a checkpoint and at
    least one epoch, [model_save_path] holds the weights of the last
    epoch that improved the validation loss. *)
Definition train_files (X_train : Keras.batch) (y_train : list Q)
    (validation : option Keras.dataset) (epochs batch_size : Z)
    (model_save_path : option string) (self : LSTMFloodModel)
    (fs : gmap string artifact) : gmap string artifact :=
  match TF_AVAILABLE R, model self, model_save_path, checkpoint_setup model_save_path with
  | true, Some w, Some p, Ok true =>
      let '(training, validating) := validation_split X_train y_train validation in
      let run :=
        Keras.fit K w compiled_learning_rate training validating epochs batch_size
          early_stopping reduce_lr_on_plateau in
      match Keras.fit_raises K training validating,
            Keras.best_weights (Keras.stopper run) with
      | None, Some best => <[p := SavedModel best]> fs
      | _, _ => fs
      end
  | _, _, _, _ => fs
  end.

(** *** Prediction *)

Definition _simulate_prediction (X : Keras.batch) : M LSTMFloodModel prediction :=
  let* last := lift (rmapM (fun window =>
                 rbind (Py.index window (-1)) (fun row => Py.index row 1)) X) in
  let preds := imap (fun i v => (v * (1 + random_normal R i))%Q) last in
  let confidence := map (fun _ => (1 * 0.75)%Q) preds in
  ret (preds, Some confidence).

Definition n_samples_default : nat := 10.

Definition _calculate_confidence (X : Keras.batch) (n_samples : nat)
  : M LSTMFloodModel (list Q) :=
  let* self := get in
  match model self with
  | None => raise TypeError
  | Some w =>
      let* _ :=
        match n_samples, Keras.call_raises K w X with
        | S _, Some e => raise e
        | _, _ => ret tt
        end in
      let preds :=
        map (fun k => map (Keras.call_training K k w X) (seq 0 (length X)))
            (seq 0 n_samples) in
      let variance :=
        map (fun j => var (map (fun p => nth j p 0%Q) preds)) (seq 0 (length X)) in
      let confidence := map (fun v => (1 / (1 + v))%Q) variance in
      ret (map (fun c => clip c 0.5 0.95) confidence)
  end.

Definition predict (X : Keras.batch) (return_confidence : bool)
  : M LSTMFloodModel prediction :=
  let* self := get in
  match TF_AVAILABLE R, model self with
  | true, Some w =>
      let* _ :=
        match Keras.predict_raises K w X with
        | Some e => raise e
        | None => ret tt
        end in
      let preds_scaled := map (Keras.predict K w X) (seq 0 (length X)) in
      let* preds :=
        match scaler self with
        | Some _ =>
            let dummy := map (fun v => [0%Q; v]) preds_scaled in
            let* inverse := with_scaler (MinMaxScaler.inverse_transform dummy) in
            lift (rmapM (fun row => Py.index row 1) inverse)
        | None => ret preds_scaled
        end in
      let* confidence :=
        if return_confidence
        then let* c := _calculate_confidence X n_samples_default in ret (Some c)
        else ret None in
      ret (preds, confidence)
  | _, _ => _simulate_prediction X
  end.

(** *** Persistence: saving *)

(** [save_model], as a method of the file system for the object it saves
    (the object is only read). Each of the four steps can raise, and the
    files written before it stay: the directory, the weights, the scaler,
    the metadata. *)
Definition save_model (path : string) (self : LSTMFloodModel)
  : M (gmap string artifact) unit :=
  let directory := Py.dirname path in
  let* _ := lift (os_makedirs D (if String.eqb directory "" then "." else directory)) in
  let* _ :=
    match TF_AVAILABLE R, model self with
    | true, Some w =>
        let* _ := lift (Keras.save K path) in
        modify (insert path (SavedModel w))
    | _, _ => ret tt
    end in
  let* _ :=
    match scaler self with
    | Some sc =>
        if SKLEARN_AVAILABLE R
        then let* _ := lift (create D (Py.replace path ".h5" "_scaler.joblib")) in
             modify (insert (Py.replace path ".h5" "_scaler.joblib") (ScalerDump sc))
        else raise NameError
    | None => ret tt
    end in
  let* _ := lift (create D (Py.replace path ".h5" "_metadata.json")) in
  modify (insert (Py.replace path ".h5" "_metadata.json")
                 (JsonDocument (model_metadata self))).

(** *** Persistence: loading *)

Definition path_exists (fs : gmap string artifact) (p : string) : bool :=
  bool_decide (is_Some (fs !! p)).

(** Modelled from the spec: the weights artifact of BundlePersistence,
    read by [keras.models.load_model], which is not part of the
    repository. Of a file that Keras wrote for a network it makes what
    the runtime says ([Keras.load]: the network again, or an exception
    when this Keras cannot read its own file back); any other file, and
    no file, holds no model. *)
Definition keras_load_model (fs : gmap string artifact) (p : string) : result W :=
  match fs !! p with
  | Some (SavedModel w) => Keras.load K w
  | _ => Raise (Keras.load_error K)
  end.

(** [joblib] is only imported together with scikit-learn. *)
Definition joblib_load (fs : gmap string artifact) (p : string) : result MinMaxScaler.t :=
  if negb (SKLEARN_AVAILABLE R) then Raise NameError
  else match fs !! p with
       | Some (ScalerDump sc) => Ok sc
       | _ => Raise ValueError
       end.

Definition json_load (fs : gmap string artifact) (p : string) : result (gmap string json) :=
  match fs !! p with
  | Some (JsonDocument d) => Ok d
  | _ => Raise ValueError
  end.

Definition load_model (fs : gmap string artifact) (path : string) : M LSTMFloodModel unit :=
  let* _ :=
    if TF_AVAILABLE R && path_exists fs path
    then let* w := lift (keras_load_model fs path) in
         let* _ := modify (set_model (Some w)) in
         modify (set_is_trained true)
    else ret tt in
  let scaler_path := Py.replace path ".h5" "_scaler.joblib" in
  let* _ :=
    if path_exists fs scaler_path
    then let* sc := lift (joblib_load fs scaler_path) in
         modify (set_scaler (Some sc))
    else ret tt in
  let meta_path := Py.replace path ".h5" "_metadata.json" in
  if path_exists fs meta_path
  then let* d := lift (json_load fs meta_path) in
       modify (set_model_metadata d)
  else ret tt.

(** *** Construction *)

Definition __init__ (fs : gmap string artifact) (sequence_length n_features : Z)
    (lstm_units : list Z) (dropout_rate : Q) (model_path : option string)
  : result unit * LSTMFloodModel :=
  let self :=
    {| sequence_length := sequence_length; n_features := n_features;
       lstm_units := lstm_units; dropout_rate := dropout_rate;
       model := None;
       scaler := if SKLEARN_AVAILABLE R then Some MinMaxScaler.Unfitted else None;
       is_trained := false;
       training_history := None;
       model_metadata := ∅ |} in
  match model_path with
  | Some p =>
      if negb (String.eqb p "") && path_exists fs p
      then load_model fs p self
      else if TF_AVAILABLE R then _build_model self else (Ok tt, self)
  | None => if TF_AVAILABLE R then _build_model self else (Ok tt, self)
  end.

End LSTM.

(** ** The rule-based backend ([backend/simple_backend.py]) *)

Module SimpleBackend.

(** A JSON value as Python holds it: [None], [bool], number, [str],
    [list], and a [dict] as the list of its entries. *)
#[warnings="-register-all"]
Inductive value : Type :=
| Null
| Bool (b : bool)
| Number (q : Q)
| Str (s : string)
| Array (items : list value)
| Object (entries : list (string * value)).

Inductive error : Type :=
| AttributeError
| TypeError
| IndexError
| KeyError
| JSONDecodeError.

Inductive outcome (A : Type) : Type :=
| Done (a : A)
| Fail (e : error).
Arguments Done {A} a.
Arguments Fail {A} e.

Definition and_then {A B} (r : outcome A) (k : A -> outcome B) : outcome B :=
  match r with
  | Done a => k a
  | Fail e => Fail e
  end.

(** The entry of a key in a [dict]. *)
Fixpoint entry (key : string) (entries : list (string * value)) : option value :=
  match entries with
  | [] => None
  | (k, v) :: rest => if String.eqb k key then Some v else entry key rest
  end.

(** [d.get(key, default)]; only a [dict] has the method. *)
Definition get (d : value) (key : string) (default : value) : outcome value :=
  match d with
  | Object entries =>
      Done (match entry key entries with
            | Some v => v
            | None => default
            end)
  | _ => Fail AttributeError
  end.

(** The number that an order comparison with a float reads; [bool] is a
    kind of [int], anything else does not compare. *)
Definition number (v : value) : outcome Q :=
  match v with
  | Number q => Done q
  | Bool b => Done (if b then 1%Q else 0%Q)
  | _ => Fail TypeError
  end.

(** [bool(v)] *)
Definition truthy (v : value) : bool :=
  match v with
  | Null => false
  | Bool b => b
  | Number q => negb (Qeq_bool q 0)
  | Str s => negb (String.eqb s "")
  | Array items => match items with [] => false | _ => true end
  | Object entries => match entries with [] => false | _ => true end
  end.

Definition gt (a b : Q) : bool := negb (Qle_bool a b).
Definition lt (a b : Q) : bool := negb (Qle_bool b a).
Definition ge (a b : Q) : bool := Qle_bool b a.

(** [round(x)] to the nearest integer, ties to the even one. *)
Definition round_half_even (q : Q) : Z :=
  let f := Qfloor q in
  match (q - inject_Z f ?= 1 # 2)%Q with
  | Lt => f
  | Gt => f + 1
  | Eq => if Z.even f then f else f + 1
  end.

(** [round(x, 1)] *)
Definition round1 (q : Q) : Q := (inject_Z (round_half_even (q * 10)) / 10)%Q.

(** [min(x, 10)]: the first argument unless the second is smaller. *)
Definition min10 (q : Q) : Q := if lt 10 q then 10%Q else q.

(** The scores that [calculate_risk] accumulates in its local variables. *)
Record scores : Type := {
  risk_score : Q;
  storm_risk : Q;
  fire_risk : Q;
  flood_risk : Q
}.

(** The body of [calculate_risk] on the four readings, statement by
    statement. *)
Definition accumulate (temp humidity wind_speed pressure : Q) : scores :=
  let risk_score := 3.0%Q in
  let risk_score :=
    if gt temp 35 || lt temp 5 then (risk_score + 2)%Q
    else if gt temp 30 || lt temp 10 then (risk_score + 1)%Q
    else risk_score in
  let storm_risk := 2.0%Q in
  let '(storm_risk, risk_score) :=
    if gt wind_speed 20 then (8.0%Q, (risk_score + 2)%Q)
    else if gt wind_speed 15 then (6.0%Q, (risk_score + 1)%Q)
    else if gt wind_speed 10 then (4.0%Q, risk_score)
    else (storm_risk, risk_score) in
  let fire_risk := 2.0%Q in
  let '(fire_risk, risk_score) :=
    if lt humidity 30 then (7.0%Q, (risk_score + 1.5)%Q)
    else if lt humidity 50 then (4.0%Q, risk_score)
    else (fire_risk, risk_score) in
  let flood_risk := 2.0%Q in
  let '(flood_risk, risk_score) :=
    if gt humidity 80 then (6.0%Q, (risk_score + 1)%Q)
    else if gt humidity 70 then (4.0%Q, risk_score)
    else (flood_risk, risk_score) in
  let '(risk_score, storm_risk) :=
    if lt pressure 1000 then ((risk_score + 1.5)%Q, (storm_risk + 2)%Q)
    else (risk_score, storm_risk) in
  {| risk_score := risk_score; storm_risk := storm_risk;
     fire_risk := fire_risk; flood_risk := flood_risk |}.

Definition overall_risk (risk_score : Q) : string :=
  if ge risk_score 8 then "critical"
  else if ge risk_score 6 then "high"
  else if ge risk_score 4 then "moderate"
  else "low".

(** [calculate_risk(weather_data)]; [uniform] is the draw of
    [random.uniform(1, 3)]. All four readings are fetched before the first
    of them is compared. *)
Definition calculate_risk (uniform : Q) (weather_data : value)
  : outcome (list (string * value)) :=
  and_then (get weather_data "main" (Object [])) (fun main =>
  and_then (get main "temp" (Number 25)) (fun temp =>
  and_then (get weather_data "main" (Object [])) (fun main =>
  and_then (get main "humidity" (Number 60)) (fun humidity =>
  and_then (get weather_data "wind" (Object [])) (fun wind =>
  and_then (get wind "speed" (Number 10)) (fun wind_speed =>
  and_then (get weather_data "main" (Object [])) (fun main =>
  and_then (get main "pressure" (Number 1013)) (fun pressure =>
  and_then (number temp) (fun temp =>
  and_then (number wind_speed) (fun wind_speed =>
  and_then (number humidity) (fun humidity =>
  and_then (number pressure) (fun pressure =>
  let s := accumulate temp humidity wind_speed pressure in
  Done [("overall_risk", Str (overall_risk (risk_score s)));
        ("risk_score", Number (min10 (round1 (risk_score s))));
        ("flood_risk", Number (min10 (round1 (flood_risk s))));
        ("fire_risk", Number (min10 (round1 (fire_risk s))));
        ("earthquake_risk", Number (round1 uniform));
        ("storm_risk", Number (min10 (round1 (storm_risk s))));
        ("confidence", Number 0.85)])))))))))))).

(** *** The routes

    A route is modelled on what [requests.get] gave it: no response (the
    request raised), or a response with its status code and its body, [None]
    when the body is not JSON and [response.json()] raises. *)
Inductive fetched : Type :=
| Unreachable
| Responded (status_code : Z) (body : option value).

(** What a route does: it returns a dictionary, raises [HTTPException], or
    lets another exception escape. *)
Inductive reply : Type :=
| Returned (body : list (string * value))
| HTTPException (status_code : Z)
| Uncaught (e : error).

(** What the routes read from the process: the clock, as the text of
    [datetime.now().isoformat()] for the reply, for the onset and for the
    expiry of the [i]-th alert; the text of a value in an f-string; the
    text of an exception. *)
Record Process : Type := {
  timestamp : string;
  onset : nat -> string;
  expires : nat -> string;
  format : value -> string;
  describe : error -> string
}.

Definition location (lat lon : Q) : value :=
  Object [("latitude", Number lat); ("longitude", Number lon)].

(** [v[0]] *)
Definition first_item (v : value) : outcome value :=
  match v with
  | Array (x :: _) => Done x
  | Array [] => Fail IndexError
  | Str (String c _) => Done (Str (String c EmptyString))
  | Str EmptyString => Fail IndexError
  | Object _ => Fail KeyError
  | _ => Fail TypeError
  end.

(** [len(v)] *)
Definition len (v : value) : outcome Z :=
  match v with
  | Array items => Done (Z.of_nat (length items))
  | Str s => Done (Z.of_nat (String.length s))
  | Object entries => Done (Z.of_nat (length entries))
  | _ => Fail TypeError
  end.

(** [v[:n]]; a [dict] cannot be sliced. *)
Definition prefix (n : nat) (v : value) : outcome value :=
  match v with
  | Array items => Done (Array (take n items))
  | Str s => Done (Str (String.substring 0 n s))
  | _ => Fail TypeError
  end.

(** The body that the guarded fetch of a route leaves in its variable:
    the JSON of a 200 response, and [None] in every other case. *)
Definition fetched_json (r : fetched) : value :=
  match r with
  | Responded status_code (Some data) => if status_code =? 200 then data else Null
  | _ => Null
  end.

(** [get_weather]; [decode_is_request_error] says whether the installed
    [requests] makes its JSON decoding error a [RequestException]. *)
Definition get_weather (P : Process) (decode_is_request_error : bool)
    (lat lon : Q) (r : fetched) : reply :=
  match r with
  | Unreachable => HTTPException 503
  | Responded status_code body =>
      if status_code =? 200
      then
        match body with
        | None =>
            if decode_is_request_error then HTTPException 503
            else Uncaught JSONDecodeError
        | Some data =>
            let weather :=
              and_then (get data "main" (Object [])) (fun main =>
              and_then (get main "temp" (Number 0)) (fun temperature =>
              and_then (get data "main" (Object [])) (fun main =>
              and_then (get main "feels_like" (Number 0)) (fun feels_like =>
              and_then (get data "main" (Object [])) (fun main =>
              and_then (get main "humidity" (Number 0)) (fun humidity =>
              and_then (get data "main" (Object [])) (fun main =>
              and_then (get main "pressure" (Number 0)) (fun pressure =>
              and_then (get data "wind" (Object [])) (fun wind =>
              and_then (get wind "speed" (Number 0)) (fun wind_speed =>
              and_then (get data "wind" (Object [])) (fun wind =>
              and_then (get wind "deg" (Number 0)) (fun wind_direction =>
              and_then (get data "weather" (Array [Object []])) (fun conditions =>
              and_then (first_item conditions) (fun condition =>
              and_then (get condition "description" (Str "Unknown")) (fun description =>
              and_then (get data "clouds" (Object [])) (fun cloud_cover =>
              and_then (get cloud_cover "all" (Number 0)) (fun clouds =>
              and_then (get data "visibility" (Number 10000)) (fun visibility =>
              Done (Object
                [("temperature", temperature);
                 ("feels_like", feels_like);
                 ("humidity", humidity);
                 ("pressure", pressure);
                 ("wind_speed", wind_speed);
                 ("wind_direction", wind_direction);
                 ("description", description);
                 ("clouds", clouds);
                 ("visibility", visibility)]))))))))))))))))))) in
            match weather with
            | Done w =>
                Returned [("success", Bool true);
                          ("is_real", Bool true);
                          ("source", Str "OpenWeatherMap");
                          ("location", location lat lon);
                          ("weather", w);
                          ("timestamp", Str (timestamp P))]
            | Fail e => Uncaught e
            end
        end
      else HTTPException status_code
  end.

(** [predict_disaster_risk] *)
Definition predict_disaster_risk (P : Process) (uniform : Q) (lat lon : Q)
    (r : fetched) : reply :=
  let weather_data := fetched_json r in
  if truthy weather_data
  then
    match calculate_risk uniform weather_data with
    | Done risk =>
        Returned ([("success", Bool true); ("is_real", Bool true)]
                  ++ risk
                  ++ [("location_analyzed", location lat lon);
                      ("model_version", Str "RuleBased-v1");
                      ("timestamp", Str (timestamp P))])
    | Fail e => HTTPException 500
    end
  else
    Returned [("success", Bool true);
              ("is_real", Bool false);
              ("overall_risk", Str "moderate");
              ("risk_score", Number 4.5);
              ("flood_risk", Number 3.2);
              ("fire_risk", Number 2.8);
              ("earthquake_risk", Number 1.5);
              ("storm_risk", Number 4.1);
              ("confidence", Number 0.75);
              ("location_analyzed", location lat lon);
              ("model_version", Str "fallback");
              ("timestamp", Str (timestamp P))].

(** An entry of the list [earthquakes] of [get_active_alerts]. *)
Record quake : Type := {
  quake_id : value;
  magnitude : value;
  place : value;
  time : value
}.

(** The loop over the features: the first feature that raises ends it,
    with the earthquakes appended so far. *)
Fixpoint collect_quakes (features : list value) (earthquakes : list quake)
  : list quake :=
  match features with
  | [] => earthquakes
  | feature :: rest =>
      match
        and_then (get feature "properties" (Object [])) (fun props =>
        and_then (get feature "id" Null) (fun id =>
        and_then (get props "mag" Null) (fun mag =>
        and_then (get props "place" Null) (fun place =>
        and_then (get props "time" Null) (fun time =>
        Done {| quake_id := id; magnitude := mag; place := place; time := time |})))))
      with
      | Done eq => collect_quakes rest (earthquakes ++ [eq])
      | Fail _ => earthquakes
      end
  end.

(** The guarded first half of [get_active_alerts]. *)
Definition recent_quakes (r : fetched) : list quake :=
  match r with
  | Responded status_code (Some data) =>
      if status_code =? 200
      then
        match and_then (get data "features" (Array [])) (prefix 5) with
        | Done (Array features) => collect_quakes features []
        | Done (Str s) =>
            collect_quakes (map (fun c => Str (String c EmptyString)) (String.list_ascii_of_string s)) []
        | _ => []
        end
      else []
  | _ => []
  end.

Definition alert (P : Process) (i : nat) (eq : quake) : outcome value :=
  and_then (number (magnitude eq)) (fun m =>
  Done (Object
    [("id", Str (String.append "eq-" (format P (quake_id eq))));
     ("title", Str (String.append "Earthquake Alert - M" (format P (magnitude eq))));
     ("description", Str (String.append "Earthquake detected: " (format P (place eq))));
     ("severity", Str (if ge m 5.0 then "Severe" else "Moderate"));
     ("urgency", Str (if ge m 5.0 then "Immediate" else "Expected"));
     ("event", Str "Earthquake");
     ("areas", Array [place eq]);
     ("onset", Str (onset P i));
     ("expires", Str (expires P i))])).

Fixpoint alerts_loop (P : Process) (i : nat) (earthquakes : list quake)
  : outcome (list value) :=
  match earthquakes with
  | [] => Done []
  | eq :: rest =>
      and_then (alert P i eq) (fun a =>
      and_then (alerts_loop P (S i) rest) (fun others => Done (a :: others)))
  end.

(** [get_active_alerts] *)
Definition get_active_alerts (P : Process) (lat lon : Q) (r : fetched) : reply :=
  let earthquakes := recent_quakes r in
  match alerts_loop P 0 earthquakes with
  | Done alerts =>
      Returned [("alerts", Array alerts);
                ("count", Number (inject_Z (Z.of_nat (length alerts))));
                ("source", Str "Alert_Aid_System");
                ("is_real", Bool (0 <? Z.of_nat (length earthquakes)));
                ("location", location lat lon);
                ("timestamp", Str (timestamp P))]
  | Fail e =>
      Returned [("alerts", Array []);
                ("count", Number 0);
                ("source", Str "Alert_Aid_System");
                ("is_real", Bool false);
                ("error", Str (describe P e))]
  end.

(** [get_external_data] *)
Definition get_external_data (P : Process) (lat lon : Q)
    (weather_response quake_response : fetched) : reply :=
  let weather := fetched_json weather_response in
  let earthquakes :=
    match quake_response with
    | Responded status_code (Some data) =>
        if status_code =? 200
        then match and_then (get data "features" (Array [])) (prefix 10) with
             | Done features => features
             | Fail _ => Array []
             end
        else Array []
    | _ => Array []
    end in
  match len earthquakes with
  | Done count =>
      Returned [("success", Bool true);
                ("location", location lat lon);
                ("weather",
                 Object [("available",
                          Bool (match weather with Null => false | _ => true end));
                         ("data", if truthy weather then weather else Null)]);
                ("earthquakes",
                 Object [("count", Number (inject_Z count));
                         ("data", earthquakes)]);
                ("timestamp", Str (timestamp P));
                ("sources", Array [Str "OpenWeatherMap"; Str "USGS"])]
  | Fail e => HTTPException 500
  end.

(** [get_earthquakes]; [days] has passed the validation of the query. *)
Definition get_earthquakes (P : Process) (decode_is_request_error : bool)
    (lat lon : Q) (days : Z) (min_magnitude : Q) (r : fetched) : reply :=
  match r with
  | Unreachable => HTTPException 503
  | Responded status_code body =>
      if status_code =? 200
      then
        match body with
        | None =>
            if decode_is_request_error then HTTPException 503
            else Uncaught JSONDecodeError
        | Some data =>
            match
              and_then (get data "features" (Array [])) (fun features =>
              and_then (get data "features" (Array [])) (fun counted =>
              and_then (len counted) (fun count => Done (features, count))))
            with
            | Done (features, count) =>
                Returned [("success", Bool true);
                          ("is_real", Bool true);
                          ("source", Str "USGS");
                          ("earthquakes", features);
                          ("count", Number (inject_Z count));
                          ("query_params",
                           Object [("latitude", Number lat);
                                   ("longitude", Number lon);
                                   ("days", Number (inject_Z days));
                                   ("min_magnitude", Number min_magnitude)]);
                          ("timestamp", Str (timestamp P))]
            | Fail e => Uncaught e
            end
        end
      else HTTPException status_code
  end.

End SimpleBackend.

(** * Vocabulary of the properties *)

(** A method that leaves the object alone, whatever it returns. *)
Definition readonly {S A} (c : M S A) : Prop := forall s, snd (c s) = s.

(** The river level (column 1) of row [j], when there is one. *)
Definition river_level_at (features : matrix) (j : nat) : option Q :=
  features !! j ≫= (fun row => row !! 1%nat).

(** The river level of the last row of a window. *)
Definition last_river_level (window : matrix) : option Q :=
  last window ≫= (fun row => row !! 1%nat).

(** Epoch [b] (counted from 0) is where the validation loss stopped
    improving: its loss [vb] is strictly below every earlier one, and no
    later one is below it. *)
Definition best_at_with (vs : list Q) (b : nat) (vb : Q) : Prop :=
  vs !! b = Some vb
  /\ (forall j v, (j < b)%nat -> vs !! j = Some v -> (vb < v)%Q)
  /\ (forall j v, (b < j)%nat -> vs !! j = Some v -> (vb <= v)%Q).

Definition best_at (vs : list Q) (b : nat) : Prop := exists vb, best_at_with vs b vb.

(** The same, as a check that runs. *)
Definition best_atb (vs : list Q) (b : nat) : bool :=
  match vs !! b with
  | Some vb =>
      forallb (fun v => negb (Qle_bool v vb)) (take b vs)
      && forallb (fun v => Qle_bool vb v) (drop (S b) vs)
  | None => false
  end.

Section Vocabulary.

Context {W : Type} (K : Keras.Backend W) (R : Runtime).
Implicit Types self : @LSTMFloodModel W.

(** The scaler is usable for this call: it is missing (scikit-learn is not
    installed), or about to be fitted, or fitted on two features. *)
Definition scaler_ready self (fit_scaler : bool) : Prop :=
  match scaler self with
  | None => True
  | Some sc =>
      fit_scaler = true
      \/ exists bounds, sc = MinMaxScaler.Fitted bounds /\ length bounds = 2%nat
  end.

(** The same object configured with another [n_features]. *)
Definition with_n_features (v : Z) self : LSTMFloodModel :=
  {| sequence_length := sequence_length self; n_features := v;
     lstm_units := lstm_units self; dropout_rate := dropout_rate self;
     model := model self; scaler := scaler self; is_trained := is_trained self;
     training_history := training_history self;
     model_metadata := model_metadata self |}.

(** A file that the loader reading it accepts. *)
Definition loadable_scaler (a : option (@artifact W)) : Prop :=
  match a with
  | None => True
  | Some (ScalerDump _) => SKLEARN_AVAILABLE R = true
  | Some _ => False
  end.

Definition loadable_metadata (a : option (@artifact W)) : Prop :=
  match a with
  | None | Some (JsonDocument _) => True
  | Some _ => False
  end.

(** No backend to predict or train with. *)
Definition simulation_mode self : Prop :=
  TF_AVAILABLE R = false \/ model self = None.

(** The confidences of the learned path: Monte-Carlo passes, variance per
    window, [1 / (1 + variance)], clipped. *)
Definition mc_confidence (w : W) (X : Keras.batch) (n_samples : nat) : list Q :=
  map (fun c => clip c 0.5 0.95)
    (map (fun v => (1 / (1 + v))%Q)
       (map (fun j => var (map (fun p => nth j p 0%Q)
                            (map (fun k => map (Keras.call_training K k w X)
                                              (seq 0 (length X)))
                                 (seq 0 n_samples))))
            (seq 0 (length X)))).

(** What the loop maintains: the callback remembers the best validation
    loss so far, the weights of that epoch, and the number of epochs since. *)
Definition tracking (p : nat) (st : @Keras.FitState W) : Prop :=
  Keras.patience (Keras.stopper st) = p
  /\ Keras.restore_best_weights (Keras.stopper st) = true
  /\ length (Keras.epoch_weights st) = length (Keras.val_loss st)
  /\ length (Keras.loss st) = length (Keras.val_loss st)
  /\ ((Keras.val_loss st = []
       /\ Keras.best (Keras.stopper st) = None
       /\ Keras.best_weights (Keras.stopper st) = None
       /\ Keras.wait (Keras.stopper st) = 0%nat)
      \/ exists b vb wb,
          best_at_with (Keras.val_loss st) b vb
          /\ Keras.best (Keras.stopper st) = Some vb
          /\ Keras.best_weights (Keras.stopper st) = Some wb
          /\ Keras.epoch_weights st !! b = Some wb
          /\ (b + 1 + Keras.wait (Keras.stopper st))%nat = length (Keras.val_loss st)).

End Vocabulary.

(** ** Vocabulary of the further properties *)

(** [old in s] *)
Fixpoint occurs (old s : string) : bool :=
  String.prefix old s
  || match s with
     | EmptyString => false
     | String _ s' => occurs old s'
     end.

Section Variance.

Context {W : Type} (K : Keras.Backend W).

(** The variance of the stochastic passes for window [j]. *)
Definition mc_variance (w : W) (X : Keras.batch) (n_samples j : nat) : Q :=
  var (map (fun k => Keras.call_training K k w X j) (seq 0 n_samples)).

End Variance.

Section Checkpoints.

Context {W : Type} (K : Keras.Backend W) (D : Storage).

(** The checkpoint of [train] can be set up and written: there is none,
    or the directory of its path can be made, Keras takes the name, and
    the write returns. *)
Definition checkpoint_allowed (model_save_path : option string) : Prop :=
  match model_save_path with
  | Some p =>
      p = EmptyString
      \/ (os_makedirs D (Py.dirname p) = Ok tt
          /\ Keras.checkpoint K p = Ok tt
          /\ Keras.save K p = Ok tt)
  | None => True
  end.

End Checkpoints.

(** Payloads of the rule-based backend. *)
Module Payload.
Import SimpleBackend.

(** One reading of the weather payload, as [calculate_risk] takes it. *)
Definition reading (weather_data : value) (section key : string) (default : Q)
  : outcome Q :=
  and_then (get weather_data section (Object [])) (fun s =>
  and_then (get s key (Number default)) number).

(** The dictionary that [calculate_risk] returns for the accumulated
    scores. *)
Definition report (uniform : Q) (s : scores) : list (string * value) :=
  [("overall_risk", Str (overall_risk (risk_score s)));
   ("risk_score", Number (min10 (round1 (risk_score s))));
   ("flood_risk", Number (min10 (round1 (flood_risk s))));
   ("fire_risk", Number (min10 (round1 (fire_risk s))));
   ("earthquake_risk", Number (round1 uniform));
   ("storm_risk", Number (min10 (round1 (storm_risk s))));
   ("confidence", Number 0.85)].

(** A section of the payload that [get] can be called on: a dictionary,
    or absent (the default is one). *)
Definition section_ok (weather_data : value) (name : string) : bool :=
  match get weather_data name (Object []) with
  | Done (Object _) => true
  | _ => false
  end.

Definition sections_ok (weather_data : value) : bool :=
  section_ok weather_data "main" && section_ok weather_data "wind".

(** A value that an order comparison with a number accepts. *)
Definition numeric (v : value) : bool :=
  match v with
  | Number _ | Bool _ => true
  | _ => false
  end.

(** The value of a reading in well-formed sections, or its default. *)
Definition reading_value (weather_data : value) (section key : string)
    (default : Q) : value :=
  match get weather_data section (Object []) with
  | Done s =>
      match get s key (Number default) with
      | Done v => v
      | Fail _ => Null
      end
  | Fail _ => Null
  end.

(** The four readings in the order of their first comparison. *)
Definition readings_numeric (weather_data : value) : bool :=
  numeric (reading_value weather_data "main" "temp" 25)
  && numeric (reading_value weather_data "wind" "speed" 10)
  && numeric (reading_value weather_data "main" "humidity" 60)
  && numeric (reading_value weather_data "main" "pressure" 1013).

(** The reply of [predict_disaster_risk] when it has no weather to score. *)
Definition fallback_reply (P : Process) (lat lon : Q) : reply :=
  Returned [("success", Bool true);
            ("is_real", Bool false);
            ("overall_risk", Str "moderate");
            ("risk_score", Number 4.5);
            ("flood_risk", Number 3.2);
            ("fire_risk", Number 2.8);
            ("earthquake_risk", Number 1.5);
            ("storm_risk", Number 4.1);
            ("confidence", Number 0.75);
            ("location_analyzed", location lat lon);
            ("model_version", Str "fallback");
            ("timestamp", Str (timestamp P))].

(** The reply of [get_active_alerts] after an exception. *)
Definition failed_alerts (P : Process) (e : error) : reply :=
  Returned [("alerts", Array []);
            ("count", Number 0);
            ("source", Str "Alert_Aid_System");
            ("is_real", Bool false);
            ("error", Str (describe P e))].

(** A feature that the loop of [get_active_alerts] can read: a dictionary
    whose "properties", when present, is a dictionary. *)
Definition readable_feature (feature : value) : bool :=
  match feature with
  | Object entries =>
      match entry "properties" entries with
      | None | Some (Object _) => true
      | Some _ => false
      end
  | _ => false
  end.

(** The entry of a key in a dictionary, [None] when it is missing. *)
Definition field (v : value) (key : string) : value :=
  match v with
  | Object entries =>
      match entry key entries with
      | Some x => x
      | None => Null
      end
  | _ => Null
  end.

(** The earthquake that the loop records for a readable feature. *)
Definition quake_of (feature : value) : quake :=
  let props :=
    match feature with
    | Object entries =>
        match entry "properties" entries with
        | Some p => p
        | None => Object []
        end
    | _ => Object []
    end in
  {| quake_id := field feature "id";
     magnitude := field props "mag";
     place := field props "place";
     time := field props "time" |}.

End Payload.

(** * Objects for the worked examples *)

(** A small backend: the weights are an epoch counter, the validation loss
    is the distance of the counter to 5, the deterministic forecast is 2,
    and the ten stochastic passes spread around it with variance 1/3; it
    answers every batch, writes wherever it is asked to, and reads its
    own files back. *)
Definition dropout_samples : list Q :=
  [5 # 3; -1 # 3; -1 # 3; -1 # 3; -1 # 3; -1 # 3; 0; 0; 0; 0]%Q.

Definition toy : Keras.Backend Z :=
  {| Keras.build := fun _ _ _ _ => 0;
     Keras.predict := fun _ _ _ => 2%Q;
     Keras.predict_raises := fun _ _ => None;
     Keras.call_training := fun k _ _ _ => nth k dropout_samples 0%Q;
     Keras.call_raises := fun _ _ => None;
     Keras.fit_raises := fun _ _ => None;
     Keras.train_epoch := fun _ _ _ _ w => (w + 1, inject_Z (Z.abs (w + 1 - 5)));
     Keras.train_mae := fun _ _ _ _ w => inject_Z (Z.abs (w + 1 - 5));
     Keras.evaluate := fun w _ => (inject_Z (Z.abs (w - 5)), inject_Z (Z.abs (w - 5)));
     Keras.lr_name := "learning_rate";
     Keras.save := fun _ => Ok tt;
     Keras.checkpoint := fun _ => Ok tt;
     Keras.load := fun w => Ok w;
     Keras.load_error := ValueError |}.

(** A disk that takes every write. *)
Definition disk : Storage :=
  {| makedirs := fun _ => Ok tt; create := fun _ => Ok tt |}.

Definition with_tensorflow : Runtime :=
  {| TF_AVAILABLE := true; SKLEARN_AVAILABLE := true;
     now_isoformat := "2024-01-01T00:00:00"; random_normal := fun _ => 0%Q |}.

Definition without_tensorflow : Runtime :=
  {| TF_AVAILABLE := false; SKLEARN_AVAILABLE := true;
     now_isoformat := "2024-01-01T00:00:00"; random_normal := fun _ => 0%Q |}.

Definition no_files : gmap string (@artifact Z) := ∅.

(** [LSTMFloodModel()] with the default arguments, in the two runtimes. *)
Definition fresh : @LSTMFloodModel Z :=
  snd (__init__ toy with_tensorflow no_files 7 2 [64; 32] 0.2 None).
Definition fresh_simulated : @LSTMFloodModel Z :=
  snd (__init__ toy without_tensorflow no_files 7 2 [64; 32] 0.2 None).

(** A series of 20 steps. *)
Definition rain20 : list Q := map (fun k => inject_Z (Z.of_nat k)) (seq 0 20).
Definition river20 : list Q := map (fun k => inject_Z (Z.of_nat (k * k))) (seq 0 20).

(** Only the scaler and the metadata were saved. *)
Definition side_files : gmap string (@artifact Z) :=
  <["models/flood_metadata.json" := JsonDocument (<["mode" := JString "simulated"]> ∅)]>
    (<["models/flood_scaler.joblib" := ScalerDump (MinMaxScaler.Fitted [(0, 10); (1, 3)]%Q)]> ∅).

(** A batch of one window whose last river level is 2, and a model whose
    scaler was fitted on the unit square. *)
Definition one_window : Keras.batch := [[[0; 1]; [0; 2]]%Q].
Definition trained : @LSTMFloodModel Z :=
  snd (prepare_sequences [0; 1]%Q [0; 1]%Q true fresh).

(** A model that prepared its training series, and the same model after
    it prepared a later series with the default arguments. *)
Definition prepared_once : @LSTMFloodModel Z :=
  snd (prepare_sequences [0; 5; 10]%Q [1; 2; 3]%Q true fresh).
Definition prepared_again : @LSTMFloodModel Z :=
  snd (prepare_sequences [0; 1; 2]%Q [7; 8; 9]%Q fit_scaler_default prepared_once).

(** Two misconfigured models: five features announced, and a window longer
    than the series it will be given. *)
Definition five_features : @LSTMFloodModel Z :=
  snd (__init__ toy with_tensorflow no_files 1 5 [64; 32] 0.2 None).
Definition long_window : @LSTMFloodModel Z :=
  snd (__init__ toy with_tensorflow no_files 7 2 [64; 32] 0.2 None).

(** Training without TensorFlow. *)
Definition toy_simulated_training
  : result (gmap string (list Q)) * @LSTMFloodModel Z :=
  train toy without_tensorflow disk [] [] None 100 32 None fresh_simulated.

(** Ten windows of one row each, with their targets. *)
Definition ten_windows : Keras.batch :=
  map (fun k => [[0; inject_Z (Z.of_nat k)]%Q]) (seq 0 10).
Definition ten_targets : list Q := map (fun k => inject_Z (Z.of_nat k)) (seq 0 10).

(** The training run of [fresh] on them, for 100 epochs: nine windows to
    train on and one held out. *)
Definition toy_run : @Keras.FitState Z :=
  Keras.fit toy 0 compiled_learning_rate
    (fst (validation_split ten_windows ten_targets None))
    (snd (validation_split ten_windows ten_targets None)) 100 32
    early_stopping reduce_lr_on_plateau.

(** ** Objects for the further examples *)

(** A bundle path, and a path without ".h5" in it. *)
Definition flood_h5 : string := "models/flood.h5".
Definition flood_keras : string := "models/flood.keras".

(** The files after [trained] was saved at one and at the other. *)
Definition flood_bundle : gmap string (@artifact Z) :=
  snd (save_model toy with_tensorflow disk flood_h5 trained no_files).
Definition flood_collision : gmap string (@artifact Z) :=
  snd (save_model toy with_tensorflow disk flood_keras trained no_files).

(** A network of seven steps and two features refuses every other batch,
    and the empty one. *)
Definition refuses_shape (X : Keras.batch) : option exn :=
  if negb (Nat.eqb (length X) 0)
     && forallb (fun window =>
                   Nat.eqb (length window) 7
                   && forallb (fun row => Nat.eqb (length row) 2) window) X
  then None else Some ValueError.

(** [toy] with that input layer, and with a Keras that cannot read its
    own files back. *)
Definition strict : Keras.Backend Z :=
  {| Keras.build := Keras.build toy;
     Keras.predict := Keras.predict toy;
     Keras.predict_raises := fun _ X => refuses_shape X;
     Keras.call_training := Keras.call_training toy;
     Keras.call_raises := fun _ X => refuses_shape X;
     Keras.fit_raises := fun training _ => refuses_shape (fst training);
     Keras.train_epoch := Keras.train_epoch toy;
     Keras.train_mae := Keras.train_mae toy;
     Keras.evaluate := Keras.evaluate toy;
     Keras.lr_name := Keras.lr_name toy;
     Keras.save := Keras.save toy;
     Keras.checkpoint := Keras.checkpoint toy;
     Keras.load := fun _ => Raise ValueError;
     Keras.load_error := ValueError |}.

(** A window of seven steps. *)
Definition week_window : Keras.batch :=
  [map (fun k => [0; inject_Z (Z.of_nat k)]%Q) (seq 0 7)].

(** What the learned path answers for [one_window]: the forecast and the
    confidence of [trained], and the confidences alone. *)
Definition toy_prediction : prediction :=
  match fst (predict toy with_tensorflow one_window true trained) with
  | Ok p => p
  | Raise _ => ([], None)
  end.
Definition toy_confidence : list Q :=
  match fst (_calculate_confidence toy one_window 10 trained) with
  | Ok c => c
  | Raise _ => []
  end.

(** Three epochs of training on the ten windows with a checkpoint, and a
    training of no epoch. *)
Definition short_training : result (gmap string (list Q)) * @LSTMFloodModel Z :=
  train toy with_tensorflow disk ten_windows ten_targets None 3 32 (Some flood_h5) fresh.
Definition no_training : result (gmap string (list Q)) * @LSTMFloodModel Z :=
  train toy with_tensorflow disk ten_windows ten_targets None 0 32 None fresh.

(** A model constructed with a negative sequence length. *)
Definition backwards : @LSTMFloodModel Z :=
  snd (__init__ toy with_tensorflow no_files (-5) 2 [64; 32] 0.2 None).

(** Payloads and replies of the two services. *)
Module Samples.
Import SimpleBackend Payload.

Definition clock : Process :=
  {| timestamp := "2024-01-01T12:00:00";
     onset := fun _ => "2024-01-01T12:00:00";
     expires := fun _ => "2024-01-01T18:00:00";
     format := fun v => match v with Str s => s | _ => "None" end;
     describe := fun _ => "'>=' not supported between instances of 'NoneType' and 'float'" |}.

(** 38 degrees, 20 percent humidity, wind 25 and 990 hPa, and its report
    for an earthquake draw of 2. *)
Definition heatwave : value :=
  Object [("main", Object [("temp", Number 38); ("humidity", Number 20);
                           ("pressure", Number 990)]);
          ("wind", Object [("speed", Number 25)])].
Definition heatwave_report : list (string * value) :=
  [("overall_risk", Str "critical"); ("risk_score", Number 10.0);
   ("flood_risk", Number 2.0); ("fire_risk", Number 7.0);
   ("earthquake_risk", Number 2.0); ("storm_risk", Number 10.0);
   ("confidence", Number 0.85)].

(** An ordinary day. *)
Definition mild : value :=
  Object [("main", Object [("temp", Number 20); ("humidity", Number 60);
                           ("pressure", Number 1013)]);
          ("wind", Object [("speed", Number 5)])].

(** A temperature sent as text, and a "main" section sent as a list. *)
Definition textual : value :=
  Object [("main", Object [("temp", Str "hot")])].
Definition listed : value := Object [("main", Array [])].

(** A payload with none of the entries the routes read, and one with an
    empty list of conditions. *)
Definition bare : list (string * value) := [("name", Str "Delhi")].
Definition no_conditions : list (string * value) := [("weather", Array [])].

(** Features of the earthquake feed: a complete one, and one without a
    magnitude. *)
Definition complete_feature : value :=
  Object [("id", Str "us1");
          ("properties", Object [("mag", Number 5.5); ("place", Str "Nepal");
                                 ("time", Number 1700000000000)])].
Definition unrated_feature : value :=
  Object [("id", Str "us2"); ("properties", Object [("place", Str "Tibet")])].
Definition broken_feed : list (string * value) :=
  [("features", Array ([complete_feature] ++ Null :: [unrated_feature]))].
Definition unrated_feed : fetched :=
  Responded 200 (Some (Object [("features", Array [complete_feature; unrated_feature])])).
Definition counted_feed : value :=
  Object [("features", Array [complete_feature; unrated_feature])].

End Samples.

(** * Properties *)

(** ** Python lists *)

Lemma map_fmap {A B} (f : A -> B) (l : list A) : map f l = f <$> l.
Proof. induction l as [|x l IH]; [reflexivity | simpl; by rewrite IH]. Qed.

Lemma range_length (lo hi : Z) : length (Py.range lo hi) = Z.to_nat (hi - lo).
Proof. unfold Py.range. by rewrite length_map, length_seq. Qed.

Lemma range_lookup (lo hi : Z) (k : nat) :
  (k < Z.to_nat (hi - lo))%nat -> Py.range lo hi !! k = Some (lo + Z.of_nat k).
Proof.
  intros Hk. unfold Py.range.
  rewrite map_fmap, list_lookup_fmap, lookup_seq_lt by done. reflexivity.
Qed.

Lemma range_empty (lo hi : Z) : hi <= lo -> Py.range lo hi = [].
Proof.
  intros H. unfold Py.range. replace (Z.to_nat (hi - lo)) with 0%nat by lia.
  reflexivity.
Qed.

Lemma range_shift (lo hi : Z) :
  Py.range lo hi = (fun k : nat => lo + Z.of_nat k) <$> seq 0 (Z.to_nat (hi - lo)).
Proof. unfold Py.range. apply map_fmap. Qed.

Lemma index_nonneg {A} (l : list A) (j : nat) (x : A) :
  l !! j = Some x -> Py.index l (Z.of_nat j) = Ok x.
Proof.
  intros Hj. pose proof (lookup_lt_Some _ _ _ Hj) as Hlt.
  unfold Py.index.
  destruct (Z.ltb_spec (Z.of_nat j) 0) as [?|_]; [lia|].
  destruct (Z.leb_spec 0 (Z.of_nat j)) as [_|?]; [|lia].
  destruct (Z.ltb_spec (Z.of_nat j) (Z.of_nat (length l))) as [_|?]; [|lia].
  simpl. by rewrite Nat2Z.id, Hj.
Qed.

Lemma slice_window {A} (l : list A) (a n : nat) :
  (a + n <= length l)%nat ->
  Py.slice l (Z.of_nat a) (Z.of_nat (a + n)) = take n (drop a l).
Proof.
  intros Hle. unfold Py.slice, Py.slice_bound.
  destruct (Z.ltb_spec (Z.of_nat a) 0) as [?|_]; [lia|].
  destruct (Z.ltb_spec (Z.of_nat (a + n)) 0) as [?|_]; [lia|].
  rewrite !Z.min_l by lia.
  replace (Z.to_nat (Z.of_nat (a + n) - Z.of_nat a)) with n by lia.
  by rewrite Nat2Z.id.
Qed.

(** ** The scaler keeps the shape of the matrix *)

Lemma has_width_Forall (n : nat) (X : matrix) :
  MinMaxScaler.has_width n X = true <-> Forall (fun row => length row = n) X.
Proof.
  unfold MinMaxScaler.has_width. rewrite forallb_forall, Forall_forall.
  split; intros H row Hin.
  - apply Nat.eqb_eq, H. by apply list_elem_of_In.
  - apply Nat.eqb_eq, H. by apply list_elem_of_In.
Qed.

Lemma widen_length (acc : list (Q * Q)) (row : list Q) :
  length row = length acc -> length (MinMaxScaler.widen acc row) = length acc.
Proof. intros H. unfold MinMaxScaler.widen. rewrite length_zip_with. lia. Qed.

Lemma column_bounds_length (row0 : list Q) (rows : matrix) :
  Forall (fun row => length row = length row0) rows ->
  length (MinMaxScaler.column_bounds row0 rows) = length row0.
Proof.
  unfold MinMaxScaler.column_bounds.
  assert (Hgen : forall acc, length acc = length row0 ->
            Forall (fun row => length row = length row0) rows ->
            length (foldl MinMaxScaler.widen acc rows) = length row0).
  { induction rows as [|row rows IH]; intros acc Hacc Hall; [done|].
    inversion Hall; subst. simpl. apply IH; [|done].
    rewrite widen_length; congruence. }
  intros Hall. apply Hgen; [by rewrite length_map | done].
Qed.

Lemma transform_row_length (bounds : list (Q * Q)) (row : list Q) :
  length row = length bounds ->
  length (MinMaxScaler.transform_row bounds row) = length bounds.
Proof. intros H. unfold MinMaxScaler.transform_row. rewrite length_zip_with. lia. Qed.

Lemma transform_rows_width (bounds : list (Q * Q)) (X : matrix) :
  Forall (fun row => length row = length bounds) X ->
  Forall (fun row => length row = length bounds)
         (map (MinMaxScaler.transform_row bounds) X).
Proof.
  intros H. rewrite map_fmap. apply Forall_fmap.
  eapply Forall_impl; [exact H|]. intros row Hrow. simpl.
  by apply transform_row_length.
Qed.

Lemma transform_fitted (bounds : list (Q * Q)) (X : matrix) :
  X <> [] -> Forall (fun row => length row = length bounds) X ->
  MinMaxScaler.transform X (MinMaxScaler.Fitted bounds)
  = (Ok (map (MinMaxScaler.transform_row bounds) X), MinMaxScaler.Fitted bounds).
Proof.
  intros Hne Hall. unfold MinMaxScaler.transform.
  destruct X as [|row X']; [done|].
  apply has_width_Forall in Hall. by rewrite Hall.
Qed.

Lemma fit_transform_rows (row0 : list Q) (rows : matrix) (sc : MinMaxScaler.t) :
  Forall (fun row => length row = length row0) rows ->
  MinMaxScaler.fit_transform (row0 :: rows) sc
  = (Ok (map (MinMaxScaler.transform_row (MinMaxScaler.column_bounds row0 rows))
             (row0 :: rows)),
     MinMaxScaler.Fitted (MinMaxScaler.column_bounds row0 rows)).
Proof.
  intros Hall. unfold MinMaxScaler.fit_transform, Py.bind, MinMaxScaler.fit.
  pose proof (proj2 (has_width_Forall _ _) Hall) as Hw. rewrite Hw.
  apply transform_fitted; [done|].
  rewrite column_bounds_length by done. by constructor.
Qed.

Lemma column_stack_shape (a b : list Q) (features : matrix) :
  column_stack a b = Ok features ->
  length a = length b /\ length features = length a
  /\ Forall (fun row => length row = 2%nat) features
  /\ features = zip_with (fun x y => [x; y]) a b.
Proof.
  unfold column_stack. destruct (decide (length a = length b)) as [Heq|]; [|done].
  intros [= <-]. repeat split; [done | rewrite length_zip_with; lia | ].
  clear Heq. revert b. induction a as [|x a IH]; intros [|y b]; simpl; constructor; auto.
Qed.

Section Sequences.

Context {W : Type}.
Implicit Types self : @LSTMFloodModel W.

(** ** Sequence preparation *)

Lemma scaled_features_unfold self (rainfall river_level : list Q) (fit_scaler : bool) :
  scaled_features rainfall river_level fit_scaler self
  = match column_stack rainfall river_level with
    | Raise e => (Raise e, self)
    | Ok features =>
        match scaler self with
        | None => (Ok features, self)
        | Some sc =>
            let '(r, sc') :=
              (if fit_scaler then MinMaxScaler.fit_transform features
               else MinMaxScaler.transform features) sc in
            (r, set_scaler (Some sc') self)
        end
    end.
Proof.
  unfold scaled_features, Py.bind, Py.lift, Py.get, Py.ret, with_scaler.
  destruct (column_stack rainfall river_level) as [features|e]; [|done].
  destruct (scaler self) as [sc|] eqn:Hsc; [|done].
  destruct fit_scaler; rewrite Hsc; reflexivity.
Qed.

Lemma scaled_features_shape self self' rainfall river_level fit_scaler features :
  scaled_features rainfall river_level fit_scaler self = (Ok features, self') ->
  length features = length rainfall
  /\ Forall (fun row => length row = 2%nat) features
  /\ sequence_length self' = sequence_length self.
Proof.
  rewrite scaled_features_unfold.
  destruct (column_stack rainfall river_level) as [stacked|e] eqn:Hstack; [|done].
  apply column_stack_shape in Hstack as (_ & Hlen & Hw & _).
  destruct (scaler self) as [sc|]; [|by intros [= <- <-]].
  destruct fit_scaler.
  - destruct stacked as [|row0 rows]; [done|].
    inversion Hw as [|? ? Hrow0 Hrows]; subst.
    rewrite fit_transform_rows
      by (eapply Forall_impl; [exact Hrows | intros; simpl in *; congruence]).
    assert (Hb : length (MinMaxScaler.column_bounds row0 rows) = 2%nat).
    { rewrite column_bounds_length; [done|].
      eapply Forall_impl; [exact Hrows | intros; simpl in *; congruence]. }
    pose proof (transform_rows_width (MinMaxScaler.column_bounds row0 rows)
                  (row0 :: rows)) as Hwidth.
    rewrite Hb in Hwidth. specialize (Hwidth Hw).
    intros [= <- <-]. split; [|by split].
    simpl. rewrite length_map. exact Hlen.
  - unfold MinMaxScaler.transform. destruct sc as [|bounds]; [done|].
    destruct stacked as [|row0 rows]; [done|].
    destruct (MinMaxScaler.has_width (length bounds) (row0 :: rows)) eqn:Hhw; [|done].
    apply has_width_Forall in Hhw.
    assert (Hb : length bounds = 2%nat).
    { inversion Hhw; inversion Hw; subst. congruence. }
    pose proof (transform_rows_width bounds (row0 :: rows) Hhw) as Hwidth.
    rewrite Hb in Hwidth.
    intros [= <- <-]. split; [|by split].
    simpl. rewrite length_map. exact Hlen.
Qed.

Lemma scaled_features_ready self rainfall river_level fit_scaler :
  length rainfall = length river_level ->
  rainfall <> [] ->
  scaler_ready self fit_scaler ->
  exists features self',
    scaled_features rainfall river_level fit_scaler self = (Ok features, self').
Proof.
  intros Hlen Hne Hready. rewrite scaled_features_unfold.
  unfold column_stack. destruct (decide _) as [_|?]; [|done].
  unfold scaler_ready in Hready.
  destruct (scaler self) as [sc|]; [|eauto].
  destruct rainfall as [|x rainfall]; [done|].
  destruct river_level as [|z river_level]; [done|]. cbn [zip_with].
  assert (Hw : Forall (fun row : list Q => length row = 2%nat)
                 (zip_with (fun x y => [x; y]) rainfall river_level)).
  { clear. revert river_level.
    induction rainfall as [|a r IH]; intros [|b l]; simpl; constructor; auto. }
  destruct fit_scaler.
  - rewrite fit_transform_rows by done. eauto.
  - destruct Hready as [?|(bounds & -> & Hb)]; [done|].
    rewrite transform_fitted; [eauto | done |].
    rewrite Hb. by constructor.
Qed.

Lemma sequences_loop_ok (s : Z) (features : matrix) (ends : list Z)
    (X : list matrix) (y : list Q) :
  Forall (fun row => length row = 2%nat) features ->
  Forall (fun i => 0 <= i + 1 < Z.of_nat (length features)) ends ->
  exists targets,
    sequences_loop s features ends X y
    = Ok (X ++ ((fun i => Py.slice features (i - s) i) <$> ends), y ++ targets)
    /\ Forall2 (fun i t => river_level_at features (Z.to_nat (i + 1)) = Some t)
               ends targets.
Proof.
  intros Hw. revert X y.
  induction ends as [|i ends IH]; intros X y Hends.
  - exists []. simpl. by rewrite !app_nil_r.
  - inversion Hends as [|? ? Hi Hrest]; subst.
    destruct (lookup_lt_is_Some_2 features (Z.to_nat (i + 1))) as [row Hrow]; [lia|].
    assert (Hrow2 : length row = 2%nat).
    { rewrite Forall_forall in Hw. apply Hw. eapply list_elem_of_lookup_2, Hrow. }
    destruct (lookup_lt_is_Some_2 row 1%nat) as [t Ht]; [lia|].
    destruct (IH (X ++ [Py.slice features (i - s) i]) (y ++ [t]) Hrest)
      as (targets & Hloop & Hall).
    exists (t :: targets). split.
    + simpl. replace (i + 1) with (Z.of_nat (Z.to_nat (i + 1))) by lia.
      rewrite (index_nonneg _ _ _ Hrow). simpl.
      change 1 with (Z.of_nat 1). rewrite (index_nonneg _ _ _ Ht). simpl.
      rewrite Hloop. by rewrite <- !app_assoc.
    + constructor; [|done]. unfold river_level_at. cbv beta. rewrite Hrow. exact Ht.
Qed.

Lemma range_Forall (lo hi : Z) (P : Z -> Prop) :
  (forall i, lo <= i < hi -> P i) -> Forall P (Py.range lo hi).
Proof.
  intros H. rewrite range_shift. apply Forall_fmap, Forall_forall.
  intros k Hk%elem_of_seq. simpl. apply H. lia.
Qed.

Lemma prepare_sequences_unfold self self' rainfall river_level fit_scaler features :
  scaled_features rainfall river_level fit_scaler self = (Ok features, self') ->
  prepare_sequences rainfall river_level fit_scaler self
  = (sequences_loop (sequence_length self') features
       (Py.range (sequence_length self') (Z.of_nat (length features) - 1)) [] [],
     self').
Proof.
  intros Hsf. unfold prepare_sequences, Py.bind. rewrite Hsf. reflexivity.
Qed.

(** C1. For an N-row series and a sequence length s with N >= s + 2,
    sequence preparation returns exactly N - s - 1 windows and as many
    targets; window k is the s consecutive rows k, ..., k + s - 1 of the
    normalized feature matrix (those just before its end index k + s), and
    its target is the river-level feature of row k + s + 1, two rows after
    the window's last one. *)
Theorem prepare_sequences_windows self (rainfall river_level : list Q)
    (fit_scaler : bool) (N s : nat) :
  length rainfall = N -> length river_level = N ->
  sequence_length self = Z.of_nat s ->
  (s + 2 <= N)%nat ->
  scaler_ready self fit_scaler ->
  exists features self' X y,
    scaled_features rainfall river_level fit_scaler self = (Ok features, self')
    /\ length features = N
    /\ prepare_sequences rainfall river_level fit_scaler self = (Ok (X, y), self')
    /\ length X = (N - s - 1)%nat
    /\ length y = (N - s - 1)%nat
    /\ forall k, (k < N - s - 1)%nat ->
         X !! k = Some (take s (drop k features))
         /\ length (take s (drop k features)) = s
         /\ exists target,
              river_level_at features (k + s + 1) = Some target
              /\ y !! k = Some target.
Proof.
  intros Hr Hl Hs HN Hready.
  destruct (scaled_features_ready self rainfall river_level fit_scaler)
    as (features & self' & Hsf); [congruence | by destruct rainfall; simpl in *; [lia|] | done |].
  destruct (scaled_features_shape _ _ _ _ _ _ Hsf) as (Hlen & Hw & Hseq).
  rewrite Hr in Hlen.
  destruct (sequences_loop_ok (Z.of_nat s) features
              (Py.range (Z.of_nat s) (Z.of_nat N - 1)) [] [] Hw)
    as (targets & Hloop & Htargets).
  { apply range_Forall. lia. }
  simpl in Hloop.
  exists features, self',
    ((fun i => Py.slice features (i - Z.of_nat s) i)
       <$> Py.range (Z.of_nat s) (Z.of_nat N - 1)), targets.
  split; [done|]. split; [done|]. split.
  { rewrite (prepare_sequences_unfold _ _ _ _ _ _ Hsf), Hseq, Hs, Hlen.
    by rewrite Hloop. }
  pose proof (Forall2_length _ _ _ Htargets) as Hlt.
  rewrite range_length in Hlt.
  split; [rewrite length_fmap, range_length; lia|].
  split; [lia|].
  intros k Hk.
  assert (Hrk : Py.range (Z.of_nat s) (Z.of_nat N - 1) !! k
                = Some (Z.of_nat s + Z.of_nat k)) by (apply range_lookup; lia).
  split; [|split].
  - rewrite list_lookup_fmap, Hrk. simpl. f_equal.
    replace (Z.of_nat s + Z.of_nat k - Z.of_nat s) with (Z.of_nat k) by lia.
    replace (Z.of_nat s + Z.of_nat k) with (Z.of_nat (k + s)) by lia.
    apply slice_window. lia.
  - rewrite length_take, length_drop. lia.
  - destruct (Forall2_lookup_l _ _ _ _ _ Htargets Hrk) as (target & Hy & Hriver).
    exists target. split; [|done].
    replace (k + s + 1)%nat with (Z.to_nat (Z.of_nat s + Z.of_nat k + 1)) by lia.
    exact Hriver.
Qed.

End Sequences.

(** ** Methods that leave the object alone *)

Lemma readonly_ret {S A} (a : A) : readonly (@Py.ret S A a).
Proof. by intros s. Qed.

Lemma readonly_raise {S A} (e : exn) : readonly (@Py.raise S A e).
Proof. by intros s. Qed.

Lemma readonly_lift {S A} (r : result A) : readonly (@Py.lift S A r).
Proof. by intros s. Qed.

Lemma readonly_get {S} : readonly (@Py.get S).
Proof. by intros s. Qed.

Lemma readonly_bind {S A B} (c : M S A) (k : A -> M S B) :
  readonly c -> (forall a, readonly (k a)) -> readonly (Py.bind c k).
Proof.
  intros Hc Hk s. unfold Py.bind. specialize (Hc s).
  destruct (c s) as [[a|e] s']; simpl in *; subst; [apply Hk | done].
Qed.

Create HintDb readonly.
#[local] Hint Resolve readonly_ret readonly_raise readonly_lift readonly_get : readonly.

Lemma transform_readonly (X : matrix) : readonly (MinMaxScaler.transform X).
Proof.
  intros [|bounds]; [done|]. unfold MinMaxScaler.transform.
  destruct X; [done|]. by destruct (MinMaxScaler.has_width _ _).
Qed.

Lemma inverse_transform_readonly (X : matrix) :
  readonly (MinMaxScaler.inverse_transform X).
Proof.
  intros [|bounds]; [done|]. unfold MinMaxScaler.inverse_transform.
  destruct X; [done|]. by destruct (MinMaxScaler.has_width _ _).
Qed.

Lemma fit_transform_state (X : matrix) (sc : MinMaxScaler.t) :
  snd (MinMaxScaler.fit_transform X sc) = snd (MinMaxScaler.fit X sc).
Proof.
  unfold MinMaxScaler.fit_transform, Py.bind.
  destruct (MinMaxScaler.fit X sc) as [[[]|e] sc']; [|done].
  apply transform_readonly.
Qed.

Section State.

Context {W : Type} (K : Keras.Backend W) (R : Runtime).
Implicit Types self : @LSTMFloodModel W.

Lemma set_scaler_same self sc : scaler self = Some sc -> set_scaler (Some sc) self = self.
Proof. destruct self; simpl; by intros ->. Qed.

Lemma with_scaler_readonly {A} (c : M MinMaxScaler.t A) :
  readonly c -> readonly (@with_scaler W A c).
Proof.
  intros Hc self. unfold with_scaler.
  destruct (scaler self) as [sc|] eqn:Hsc; [|done].
  specialize (Hc sc). destruct (c sc) as [r sc']; simpl in *; subst.
  by apply set_scaler_same.
Qed.

Lemma scaled_features_state self rainfall river_level fit_scaler :
  exists sc, snd (scaled_features rainfall river_level fit_scaler self) = set_scaler sc self
        /\ (fit_scaler = false -> sc = scaler self).
Proof.
  rewrite scaled_features_unfold.
  assert (Hself : set_scaler (scaler self) self = self) by by destruct self.
  destruct (column_stack rainfall river_level) as [features|e];
    [|exists (scaler self); by rewrite Hself].
  destruct (scaler self) as [sc|] eqn:Hsc; [|exists None; by rewrite Hself].
  destruct fit_scaler.
  - destruct (MinMaxScaler.fit_transform features sc) as [r sc']. by exists (Some sc').
  - pose proof (transform_readonly features sc) as Hro.
    destruct (MinMaxScaler.transform features sc) as [r sc']; simpl in *; subst.
    by exists (Some sc).
Qed.

Lemma prepare_sequences_state self rainfall river_level fit_scaler :
  snd (prepare_sequences rainfall river_level fit_scaler self)
  = snd (scaled_features rainfall river_level fit_scaler self).
Proof.
  unfold prepare_sequences, Py.bind.
  by destruct (scaled_features rainfall river_level fit_scaler self) as [[f|e] self'].
Qed.

Lemma _simulate_prediction_readonly (X : Keras.batch) :
  readonly (_simulate_prediction R X : M (@LSTMFloodModel W) _).
Proof. unfold _simulate_prediction. apply readonly_bind; auto with readonly. Qed.

Lemma _calculate_confidence_readonly (X : Keras.batch) (n : nat) :
  readonly (_calculate_confidence K X n).
Proof.
  unfold _calculate_confidence. apply readonly_bind; [auto with readonly|].
  intros self. destruct (model self) as [w|]; [|auto with readonly].
  apply readonly_bind; [|auto with readonly].
  destruct n, (Keras.call_raises K w X); auto with readonly.
Qed.

Lemma predict_readonly (X : Keras.batch) (return_confidence : bool) :
  readonly (predict K R X return_confidence).
Proof.
  unfold predict. apply readonly_bind; [auto with readonly|]. intros self.
  destruct (TF_AVAILABLE R); [|apply _simulate_prediction_readonly].
  destruct (model self) as [w|]; [|apply _simulate_prediction_readonly].
  apply readonly_bind; [destruct (Keras.predict_raises K w X); auto with readonly|].
  intros _. apply readonly_bind.
  - destruct (scaler self); [|auto with readonly].
    apply readonly_bind; [|auto with readonly].
    apply with_scaler_readonly, inverse_transform_readonly.
  - intros preds. apply readonly_bind; [|auto with readonly].
    destruct return_confidence; [|auto with readonly].
    apply readonly_bind; [apply _calculate_confidence_readonly | auto with readonly].
Qed.

(** C2, as the code has it. Transforming and inverse-transforming never
    change the fitted parameters, and neither does [predict]; sequence
    preparation leaves the scaler alone when it is called with
    [fit_scaler = False], and with [fit_scaler = True], which is the
    default, it refits the scaler on the series it is given. *)
Theorem scaler_frozen_unless_refit self (rainfall river_level : list Q)
    (X : Keras.batch) (return_confidence : bool) (A : matrix)
    (sc : MinMaxScaler.t) :
  snd (MinMaxScaler.transform A sc) = sc
  /\ snd (MinMaxScaler.inverse_transform A sc) = sc
  /\ snd (predict K R X return_confidence self) = self
  /\ scaler (snd (prepare_sequences rainfall river_level false self)) = scaler self
  /\ scaler (snd (prepare_sequences rainfall river_level true self))
     = match scaler self, column_stack rainfall river_level with
       | Some sc0, Ok features => Some (snd (MinMaxScaler.fit features sc0))
       | _, _ => scaler self
       end.
Proof.
  split; [apply transform_readonly|].
  split; [apply inverse_transform_readonly|].
  split; [apply predict_readonly|].
  split.
  - rewrite prepare_sequences_state.
    destruct (scaled_features_state self rainfall river_level false) as (o & -> & Ho).
    rewrite Ho by done. by destruct self.
  - rewrite prepare_sequences_state, scaled_features_unfold.
    destruct (column_stack rainfall river_level) as [features|e];
      [|simpl; by destruct (scaler self)].
    destruct (scaler self) as [sc0|] eqn:Hsc; [|done].
    rewrite <- fit_transform_state.
    by destruct (MinMaxScaler.fit_transform features sc0).
Qed.

End State.

Section Errors.

Context {W : Type} (K : Keras.Backend W) (R : Runtime).
Implicit Types self : @LSTMFloodModel W.

Lemma prepare_sequences_cases self rainfall river_level fit_scaler :
  fst (prepare_sequences rainfall river_level fit_scaler self)
  = match fst (scaled_features rainfall river_level fit_scaler self) with
    | Ok features =>
        sequences_loop (sequence_length self) features
          (Py.range (sequence_length self) (Z.of_nat (length features) - 1)) [] []
    | Raise e => Raise e
    end.
Proof.
  destruct (scaled_features_state self rainfall river_level fit_scaler) as (o & Ho & _).
  unfold prepare_sequences, Py.bind.
  destruct (scaled_features rainfall river_level fit_scaler self) as [[f|e] self'];
    simpl in *; [|done].
  subst self'. reflexivity.
Qed.

Lemma scaled_features_n_features self rainfall river_level fit_scaler (v : Z) :
  fst (scaled_features rainfall river_level fit_scaler (with_n_features v self))
  = fst (scaled_features rainfall river_level fit_scaler self).
Proof.
  rewrite !scaled_features_unfold.
  destruct (column_stack rainfall river_level) as [features|e]; [|done].
  change (scaler (with_n_features v self)) with (scaler self).
  destruct (scaler self) as [sc|]; [|done].
  by destruct ((if fit_scaler then MinMaxScaler.fit_transform features
                else MinMaxScaler.transform features) sc).
Qed.

Lemma scaled_features_errors self rainfall river_level fit_scaler (e : exn) :
  fst (scaled_features rainfall river_level fit_scaler self) = Raise e ->
  e = ValueError \/ e = NotFittedError.
Proof.
  rewrite scaled_features_unfold. unfold column_stack.
  destruct (decide _); [|simpl; intros [= <-]; by left].
  destruct (scaler self) as [sc|]; [|done].
  destruct fit_scaler.
  - unfold MinMaxScaler.fit_transform, Py.bind, MinMaxScaler.fit.
    destruct (zip_with _ rainfall river_level) as [|row0 rows];
      [simpl; intros [= <-]; by left|].
    destruct (MinMaxScaler.has_width (length row0) rows);
      [|simpl; intros [= <-]; by left].
    unfold MinMaxScaler.transform.
    destruct (MinMaxScaler.has_width _ _); simpl; [done | intros [= <-]; by left].
  - unfold MinMaxScaler.transform. destruct sc as [|bounds];
      [simpl; intros [= <-]; by right|].
    destruct (zip_with _ rainfall river_level) as [|row0 rows];
      [simpl; intros [= <-]; by left|].
    destruct (MinMaxScaler.has_width _ _); simpl; [done | intros [= <-]; by left].
Qed.

(** C3, as the code has it. Sequence preparation validates nothing about
    its configuration: [n_features] is never consulted, and a sequence
    length that the series cannot fill (sequence_length >= N - 1) yields
    no window and no target, without an error. With a non-negative
    sequence length, the only exceptions that reach the caller are the
    [ValueError] of series of different lengths or of a matrix the scaler
    refuses, and the scaler's [NotFittedError]. *)
Theorem prepare_sequences_unvalidated self (rainfall river_level : list Q)
    (fit_scaler : bool) (width : Z) :
  fst (prepare_sequences rainfall river_level fit_scaler (with_n_features width self))
  = fst (prepare_sequences rainfall river_level fit_scaler self)
  /\ (length rainfall = length river_level -> rainfall <> [] ->
      scaler_ready self fit_scaler ->
      Z.of_nat (length rainfall) - 1 <= sequence_length self ->
      fst (prepare_sequences rainfall river_level fit_scaler self) = Ok ([], []))
  /\ (0 <= sequence_length self ->
      forall e, fst (prepare_sequences rainfall river_level fit_scaler self) = Raise e ->
           e = ValueError \/ e = NotFittedError).
Proof.
  split; [|split].
  - rewrite !prepare_sequences_cases, scaled_features_n_features. reflexivity.
  - intros Hlen Hne Hready Hs.
    destruct (scaled_features_ready self _ _ _ Hlen Hne Hready) as (f & self' & Hsf).
    destruct (scaled_features_shape _ _ _ _ _ _ Hsf) as (Hf & _ & _).
    rewrite prepare_sequences_cases, Hsf. simpl.
    rewrite range_empty by lia. reflexivity.
  - intros Hs e. rewrite prepare_sequences_cases.
    destruct (scaled_features rainfall river_level fit_scaler self) as [[f|e'] self'] eqn:Hsf;
      simpl.
    + destruct (scaled_features_shape _ _ _ _ _ _ Hsf) as (_ & Hw & _).
      destruct (sequences_loop_ok (sequence_length self) f
                  (Py.range (sequence_length self) (Z.of_nat (length f) - 1)) [] [] Hw)
        as (targets & Hloop & _); [apply range_Forall; lia|].
      rewrite Hloop. done.
    + intros [= ->]. apply (scaled_features_errors self rainfall river_level fit_scaler).
      by rewrite Hsf.
Qed.

(** ** Loading *)

Lemma path_exists_None (fs : gmap string (@artifact W)) (p : string) :
  fs !! p = None -> path_exists fs p = false.
Proof.
  intros H. unfold path_exists. apply bool_decide_eq_false. rewrite H.
  by intros [? ?].
Qed.

Lemma path_exists_Some (fs : gmap string (@artifact W)) (p : string) a :
  fs !! p = Some a -> path_exists fs p = true.
Proof.
  intros H. unfold path_exists. apply bool_decide_eq_true. rewrite H. eauto.
Qed.

(** C4, as the code has it. Loading keeps the current scaler when the
    scaler artifact is missing and the current metadata when the metadata
    artifact is missing, and a missing weights artifact is tolerated in
    the same way: the model and the trained flag stay as they are and, if
    the other artifacts are absent or readable, the call returns normally;
    with all three artifacts missing, loading changes nothing at all. *)
Theorem load_model_missing_artifacts (fs : gmap string (@artifact W)) (path : string) self :
  let scaler_path := Py.replace path ".h5" "_scaler.joblib" in
  let meta_path := Py.replace path ".h5" "_metadata.json" in
  let r := load_model K R fs path self in
  (fs !! scaler_path = None -> scaler (snd r) = scaler self)
  /\ (fs !! meta_path = None -> model_metadata (snd r) = model_metadata self)
  /\ (fs !! path = None ->
      model (snd r) = model self /\ is_trained (snd r) = is_trained self)
  /\ (fs !! path = None ->
      loadable_scaler R (fs !! scaler_path) -> loadable_metadata (fs !! meta_path) ->
      fst r = Ok tt)
  /\ (fs !! path = None -> fs !! scaler_path = None -> fs !! meta_path = None ->
      r = (Ok tt, self)).
Proof.
  intros scaler_path meta_path r. subst r.
  unfold load_model, Py.bind, Py.lift, Py.modify, Py.ret.
  fold scaler_path. fold meta_path.
  unfold keras_load_model, joblib_load, json_load, loadable_scaler, loadable_metadata.
  split; [|split; [|split; [|split]]].
  - intros Hs. rewrite (path_exists_None _ _ Hs).
    destruct (TF_AVAILABLE R && path_exists fs path);
      repeat (case_match; simpl in *; simplify_eq; try done).
  - intros Hm. rewrite (path_exists_None _ _ Hm).
    destruct (TF_AVAILABLE R && path_exists fs path);
      repeat (case_match; simpl in *; simplify_eq; try done).
  - intros Hp. rewrite (path_exists_None _ _ Hp), andb_false_r.
    split; repeat (case_match; simpl in *; simplify_eq; try done).
  - intros Hp. rewrite (path_exists_None _ _ Hp), andb_false_r.
    unfold path_exists.
    intros Hsc Hmd.
    repeat (case_match; simpl in *; simplify_eq; try done);
      repeat match goal with
             | H : bool_decide _ = false |- _ => apply bool_decide_eq_false in H
             | H : ¬ is_Some (Some _) |- _ => destruct H; eauto
             | H : negb ?b = true, H' : ?b = true |- _ => rewrite H' in H; done
             end.
  - intros Hp Hs Hm.
    rewrite (path_exists_None _ _ Hp), (path_exists_None _ _ Hs),
      (path_exists_None _ _ Hm), andb_false_r.
    reflexivity.
Qed.

End Errors.

(** ** The scaler: inverse after transform *)

Lemma handle_zeros_nonzero (r : Q) : ~ (MinMaxScaler.handle_zeros r == 0)%Q.
Proof.
  unfold MinMaxScaler.handle_zeros.
  destruct (Qeq_bool r 0) eqn:Hr; [discriminate|].
  by apply Qeq_bool_neq.
Qed.

Lemma scale_nonzero (b : Q * Q) : ~ (MinMaxScaler.scale_ b == 0)%Q.
Proof.
  unfold MinMaxScaler.scale_. intros H.
  pose proof (handle_zeros_nonzero (snd b - fst b)) as Hz.
  assert (H1 : (1 / MinMaxScaler.handle_zeros (snd b - fst b)
                * MinMaxScaler.handle_zeros (snd b - fst b) == 1)%Q)
    by (field; exact Hz).
  rewrite H in H1. revert H1. rewrite Qmult_0_l. discriminate.
Qed.

Lemma inverse_row_transform_row (bounds : list (Q * Q)) (row : list Q) :
  length row = length bounds ->
  Forall2 Qeq (MinMaxScaler.inverse_row bounds (MinMaxScaler.transform_row bounds row)) row.
Proof.
  revert row. induction bounds as [|b bounds IH]; intros [|x row] Hlen;
    simpl in Hlen; try lia.
  - constructor.
  - constructor; [|apply IH; lia].
    pose proof (scale_nonzero b) as Hs. field. exact Hs.
Qed.

(** C6. For a fitted scaler and a feature matrix of its width, the
    transform succeeds, the inverse transform of its result succeeds, and
    it gives back the matrix entry by entry: the inverse transform is the
    exact algebraic inverse of the min-max transform. *)
Theorem inverse_transform_transform (bounds : list (Q * Q)) (X : matrix) :
  X <> [] ->
  Forall (fun row => length row = length bounds) X ->
  exists T X',
    MinMaxScaler.transform X (MinMaxScaler.Fitted bounds)
      = (Ok T, MinMaxScaler.Fitted bounds)
    /\ MinMaxScaler.inverse_transform T (MinMaxScaler.Fitted bounds)
      = (Ok X', MinMaxScaler.Fitted bounds)
    /\ Forall2 (Forall2 Qeq) X' X.
Proof.
  intros Hne Hw.
  exists (map (MinMaxScaler.transform_row bounds) X),
    (map (MinMaxScaler.inverse_row bounds) (map (MinMaxScaler.transform_row bounds) X)).
  split; [by apply transform_fitted|]. split.
  - pose proof (transform_rows_width bounds X Hw) as Hw'.
    apply has_width_Forall in Hw'.
    unfold MinMaxScaler.inverse_transform. destruct X as [|row X]; [done|].
    simpl in *. by rewrite Hw'.
  - clear Hne. induction Hw as [|row X Hrow _ IH]; simpl; constructor; [|exact IH].
    by apply inverse_row_transform_row.
Qed.

Section Prediction.

Context {W : Type} (K : Keras.Backend W) (R : Runtime).
Implicit Types self : @LSTMFloodModel W.

(** ** Prediction *)

Lemma index_last {A} (l : list A) (x : A) : last l = Some x -> Py.index l (-1) = Ok x.
Proof.
  rewrite last_lookup. intros Hx.
  pose proof (lookup_lt_Some _ _ _ Hx) as Hlt.
  unfold Py.index. simpl.
  destruct (Z.leb_spec 0 (-1 + Z.of_nat (length l))) as [_|?]; [|lia].
  destruct (Z.ltb_spec (-1 + Z.of_nat (length l)) (Z.of_nat (length l))) as [_|?]; [|lia].
  simpl. replace (Z.to_nat (-1 + Z.of_nat (length l))) with (pred (length l)) by lia.
  by rewrite Hx.
Qed.

Lemma last_column_ok (X : Keras.batch) (lasts : list Q) :
  Forall2 (fun window v => last_river_level window = Some v) X lasts ->
  rmapM (fun window => rbind (Py.index window (-1)) (fun row => Py.index row 1)) X
  = Ok lasts.
Proof.
  induction 1 as [|window v X lasts Hv _ IH]; [done|].
  simpl. rewrite IH. unfold last_river_level in Hv.
  destruct (last window) as [row|] eqn:Hrow; [|done]. simpl in Hv.
  rewrite (index_last _ _ Hrow). simpl.
  change 1 with (Z.of_nat 1). by rewrite (index_nonneg _ _ _ Hv).
Qed.

Lemma predict_simulation self (X : Keras.batch) (return_confidence : bool) :
  simulation_mode R self ->
  predict K R X return_confidence self = _simulate_prediction R X self.
Proof.
  intros Hsim. unfold predict, Py.bind, Py.get.
  destruct Hsim as [-> | ->]; [done|]. by destruct (TF_AVAILABLE R).
Qed.

Lemma _simulate_prediction_result self (X : Keras.batch) :
  fst (_simulate_prediction R X self)
  = match rmapM (fun window =>
            rbind (Py.index window (-1)) (fun row => Py.index row 1)) X with
    | Ok lasts =>
        let preds := imap (fun i v => (v * (1 + random_normal R i))%Q) lasts in
        Ok (preds, Some (map (fun _ => (1 * 0.75)%Q) preds))
    | Raise e => Raise e
    end.
Proof.
  unfold _simulate_prediction, Py.bind, Py.lift, Py.ret.
  by destruct (rmapM _ X).
Qed.

Lemma _calculate_confidence_result self (w : W) (X : Keras.batch) (n : nat) :
  model self = Some w ->
  _calculate_confidence K X n self
  = (match n, Keras.call_raises K w X with
     | S _, Some e => Raise e
     | _, _ => Ok (mc_confidence K w X n)
     end, self).
Proof.
  intros Hw. unfold _calculate_confidence, Py.bind, Py.get. rewrite Hw.
  by destruct n, (Keras.call_raises K w X).
Qed.

Lemma predict_learned self (w : W) (X : Keras.batch) (return_confidence : bool)
    (preds : list Q) (conf : option (list Q)) :
  TF_AVAILABLE R = true -> model self = Some w ->
  fst (predict K R X return_confidence self) = Ok (preds, conf) ->
  conf = if return_confidence then Some (mc_confidence K w X n_samples_default) else None.
Proof.
  intros HTF Hw.
  unfold predict, with_scaler, Py.bind, Py.get, Py.ret, Py.lift, Py.raise.
  rewrite HTF, Hw.
  destruct (Keras.predict_raises K w X); [done|].
  destruct (scaler self) as [sc|] eqn:Hsc.
  - rewrite Hsc.
    destruct (MinMaxScaler.inverse_transform _ sc) as [[inverse|e] sc']; [|done].
    destruct (rmapM _ inverse) as [p|e]; [|done].
    destruct return_confidence; [|by intros [= _ <-]].
    rewrite (_calculate_confidence_result _ w) by done. unfold n_samples_default.
    destruct (Keras.call_raises K w X); [done|]. by intros [= _ <-].
  - destruct return_confidence; [|by intros [= _ <-]].
    rewrite (_calculate_confidence_result _ w) by done. unfold n_samples_default.
    destruct (Keras.call_raises K w X); [done|]. by intros [= _ <-].
Qed.

Lemma clip_bounds (c lo hi : Q) : (lo <= hi -> lo <= clip c lo hi <= hi)%Q.
Proof.
  intros H. unfold clip. split.
  - apply Q.min_glb; [apply Q.le_max_r | exact H].
  - apply Q.le_min_r.
Qed.

Lemma mc_confidence_range (w : W) (X : Keras.batch) (n : nat) :
  Forall (fun c => (0.5 <= c <= 0.95)%Q) (mc_confidence K w X n).
Proof.
  unfold mc_confidence. rewrite (map_fmap (fun c => clip c 0.5 0.95)).
  apply Forall_fmap, Forall_forall. intros v _. simpl.
  apply clip_bounds. discriminate.
Qed.

(** C7. Every confidence value that [predict] returns lies in
    [0.5, 0.95]: on the learned path it is [1 / (1 + variance)] over the
    Monte-Carlo passes, clipped to that interval, and on the simulation
    path it is 0.75. *)
Theorem predict_confidence_range self (X : Keras.batch) (return_confidence : bool)
    (preds conf : list Q) :
  fst (predict K R X return_confidence self) = Ok (preds, Some conf) ->
  Forall (fun c => (0.5 <= c <= 0.95)%Q) conf
  /\ (TF_AVAILABLE R = true -> forall w, model self = Some w ->
      conf = mc_confidence K w X n_samples_default).
Proof.
  intros Hp.
  destruct (TF_AVAILABLE R) eqn:HTF; [destruct (model self) as [w|] eqn:Hw|].
  - pose proof (predict_learned _ _ _ _ _ _ HTF Hw Hp) as Hc.
    destruct return_confidence; [|done]. injection Hc as ->.
    split; [apply mc_confidence_range|]. by intros _ w' [= <-].
  - rewrite predict_simulation, _simulate_prediction_result in Hp by (by right).
    destruct (rmapM _ X) as [lasts|e]; [|done]. simpl in Hp.
    injection Hp as _ <-. split; [|done].
    rewrite map_fmap. apply Forall_fmap, Forall_forall. intros v _. simpl.
    split; discriminate.
  - rewrite predict_simulation, _simulate_prediction_result in Hp by (by left).
    destruct (rmapM _ X) as [lasts|e]; [|done]. simpl in Hp.
    injection Hp as _ <-. split; [|done].
    rewrite map_fmap. apply Forall_fmap, Forall_forall. intros v _. simpl.
    split; discriminate.
Qed.

(** C10. Without a numeric backend, [predict] ignores
    [return_confidence]: for windows that have a last row with a river
    level it returns one confidence of 0.75 per window whatever the flag
    says; on the learned path, [return_confidence = False] returns [None]
    in place of the confidences. *)
Theorem predict_return_confidence_flag self (X : Keras.batch) :
  (simulation_mode R self ->
   predict K R X false self = predict K R X true self
   /\ forall lasts,
        Forall2 (fun window v => last_river_level window = Some v) X lasts ->
        exists preds conf,
          fst (predict K R X false self) = Ok (preds, Some conf)
          /\ length conf = length X
          /\ Forall (fun c => (c == 0.75)%Q) conf)
  /\ (TF_AVAILABLE R = true -> model self <> None ->
      forall preds conf,
        fst (predict K R X false self) = Ok (preds, conf) -> conf = None).
Proof.
  split.
  - intros Hsim. split; [by rewrite !predict_simulation|].
    intros lasts Hlasts.
    rewrite predict_simulation, _simulate_prediction_result by done.
    rewrite (last_column_ok _ _ Hlasts). simpl. eexists _, _. split; [done|].
    split.
    + rewrite length_map, length_imap. symmetry. by eapply Forall2_length.
    + rewrite map_fmap. apply Forall_fmap, Forall_forall. by intros v _.
  - intros HTF Hw preds conf Hp.
    destruct (model self) as [w|] eqn:Hm; [|done].
    by apply (predict_learned _ _ _ _ _ _ HTF Hm Hp).
Qed.

(** C5, as the code has it. A simulated prediction carries no tag: the
    simulation backend returns the bare pair of the forecasts, each the
    last river level of its window times one plus a random draw, and of
    the confidences, each 0.75, which is the kind of pair the learned path
    returns too, and it records nothing on the object. *)
Theorem simulated_prediction_shape self (X : Keras.batch) (return_confidence : bool)
    (lasts : list Q) :
  simulation_mode R self ->
  Forall2 (fun window v => last_river_level window = Some v) X lasts ->
  predict K R X return_confidence self
  = (Ok (imap (fun i v => (v * (1 + random_normal R i))%Q) lasts,
         Some (map (fun _ => (1 * 0.75)%Q) lasts)),
     self).
Proof.
  intros Hsim Hlasts.
  pose proof (predict_readonly K R X return_confidence self) as Hself.
  destruct (predict K R X return_confidence self) as [r self'] eqn:Hp.
  simpl in Hself. subst self'. f_equal.
  change r with (fst (r, self)). rewrite <- Hp.
  rewrite predict_simulation, _simulate_prediction_result by done.
  rewrite (last_column_ok _ _ Hlasts). simpl. do 3 f_equal.
  rewrite !map_fmap. apply list_eq. intros i.
  rewrite !list_lookup_fmap, list_lookup_imap. by destruct (lasts !! i).
Qed.

(** ** Training without a backend *)

(** C9. When the numeric backend is unavailable, [train] does not raise:
    it returns the epoch history of the simulation backend and records,
    in the metadata, [mode = "simulated"] and the fabricated metric
    [mae = 2.5]. *)
Theorem train_without_backend self (D : Storage) (X_train : Keras.batch)
    (y_train : list Q) (validation : option Keras.dataset) (epochs batch_size : Z)
    (model_save_path : option string) :
  simulation_mode R self ->
  let r := train K R D X_train y_train validation epochs batch_size
             model_save_path self in
  r = _simulate_training R self
  /\ (exists history,
        fst r = Ok history
        /\ history !! "loss" = Some [0.1%Q]
        /\ history !! "val_loss" = Some [0.12%Q])
  /\ model_metadata (snd r) !! "mode" = Some (JString "simulated")
  /\ model_metadata (snd r) !! "mae" = Some (JFloat 2.5)
  /\ model_metadata (snd r) !! "trained_at" = Some (JString (now_isoformat R))
  /\ is_trained (snd r) = true.
Proof.
  intros Hsim r.
  assert (Hr : r = _simulate_training R self).
  { subst r. unfold train, Py.bind, Py.get.
    destruct Hsim as [-> | ->]; [done|]. by destruct (TF_AVAILABLE R). }
  split; [exact Hr|]. rewrite Hr.
  unfold _simulate_training, Py.bind, Py.modify, Py.ret. simpl.
  split; [eexists; split; [reflexivity|]; split; by simplify_map_eq|].
  repeat split; by simplify_map_eq.
Qed.

End Prediction.

(** ** Early stopping *)

Lemma best_at_unique (vs : list Q) (b b' : nat) :
  best_at vs b -> best_at vs b' -> b = b'.
Proof.
  intros (vb & Hb & Hlo & Hhi) (vb' & Hb' & Hlo' & Hhi').
  destruct (Nat.lt_trichotomy b b') as [Hlt|[Heq|Hgt]]; [|done|].
  - pose proof (Hlo' _ _ Hlt Hb). pose proof (Hhi _ _ Hlt Hb'). lra.
  - pose proof (Hlo _ _ Hgt Hb'). pose proof (Hhi' _ _ Hgt Hb). lra.
Qed.

Lemma improves_Some (v vb : Q) : Keras.improves v (Some vb) = true <-> (v < vb)%Q.
Proof.
  unfold Keras.improves. rewrite negb_true_iff, <- not_true_iff_false, Qle_bool_iff.
  split; [apply Qnot_le_lt | apply Qlt_not_le].
Qed.

Lemma best_at_first (v : Q) : best_at_with [v] 0 v.
Proof.
  split; [done|]. split; [intros; lia|].
  intros [|j] v' Hj; [lia|]. by destruct j.
Qed.

Lemma best_at_improve (vs : list Q) (b : nat) (vb v : Q) :
  best_at_with vs b vb -> (v < vb)%Q -> best_at_with (vs ++ [v]) (length vs) v.
Proof.
  intros (Hb & Hlo & Hhi) Hv. split; [by apply list_lookup_middle|].
  split.
  - intros j v' Hj Hv'. rewrite lookup_app_l in Hv' by done.
    destruct (Nat.lt_trichotomy j b) as [Hlt|[->|Hgt]].
    + pose proof (Hlo _ _ Hlt Hv'). lra.
    + rewrite Hb in Hv'. injection Hv' as <-. exact Hv.
    + pose proof (Hhi _ _ Hgt Hv'). lra.
  - intros j v' Hj Hv'. apply lookup_lt_Some in Hv'.
    rewrite length_app in Hv'. simpl in Hv'. lia.
Qed.

Lemma best_at_keep (vs : list Q) (b : nat) (vb v : Q) :
  best_at_with vs b vb -> ~ (v < vb)%Q -> best_at_with (vs ++ [v]) b vb.
Proof.
  intros (Hb & Hlo & Hhi) Hv. split; [by apply lookup_app_l_Some|].
  pose proof (lookup_lt_Some _ _ _ Hb) as Hlt.
  split.
  - intros j v' Hj Hv'. rewrite lookup_app_l in Hv' by lia. eauto.
  - intros j v' Hj Hv'. apply lookup_app_Some in Hv' as [Hv'|[Hge Hv']]; [eauto|].
    destruct (j - length vs)%nat; [|by destruct n].
    injection Hv' as <-. by apply Qnot_lt_le.
Qed.

Lemma best_atb_sound (vs : list Q) (b : nat) : best_atb vs b = true -> best_at vs b.
Proof.
  unfold best_atb. destruct (vs !! b) as [vb|] eqn:Hb; [|done].
  rewrite andb_true_iff, !forallb_forall. intros [Hlo Hhi].
  exists vb. split; [done|]. split.
  - intros j v Hj Hv. apply improves_Some. unfold Keras.improves.
    apply Hlo, list_elem_of_In, list_elem_of_lookup. exists j.
    by rewrite lookup_take_lt.
  - intros j v Hj Hv. apply Qle_bool_iff.
    apply Hhi, list_elem_of_In, list_elem_of_lookup. exists (j - S b)%nat.
    rewrite lookup_drop. by replace (S b + (j - S b))%nat with j by lia.
Qed.

Section EarlyStopping.

Context {W : Type} (K : Keras.Backend W).

Lemma run_epoch_tracking (p : nat) (bs : Z) (train val : Keras.dataset)
    (epoch : nat) (st st' : Keras.FitState) (stop : bool) :
  tracking p st ->
  (Keras.wait (Keras.stopper st) < p)%nat ->
  Keras.run_epoch K bs train val epoch st = (st', stop) ->
  tracking p st'
  /\ length (Keras.val_loss st') = S (length (Keras.val_loss st))
  /\ (stop = false -> (Keras.wait (Keras.stopper st') < p)%nat)
  /\ (stop = true -> Keras.wait (Keras.stopper st') = p).
Proof.
  intros (Hp & Hr & Hlw & Hll & Hbest) Hwait. unfold Keras.run_epoch.
  destruct (Keras.train_epoch K epoch _ bs train _) as [w l].
  set (v := fst (Keras.evaluate K w val)).
  destruct (Keras.plateau_epoch_end _ _ v) as [rl lr].
  unfold Keras.early_stopping_epoch_end.
  destruct (Keras.improves v (Keras.best (Keras.stopper st))) eqn:Himp;
    intros [= <- <-]; unfold tracking; simpl.
  - split; [|split; [by rewrite length_app, Nat.add_1_r | split; [lia | done]]].
    split; [done|]. split; [done|].
    split; [rewrite !length_app; simpl; lia|].
    split; [rewrite !length_app; simpl; lia|]. right.
    exists (length (Keras.val_loss st)), v, w.
    split; [|split; [done|split; [done|split]]].
    + destruct Hbest as [(Hnil & _)|(b & vb & wb & Hb & Hbv & _)].
      * rewrite Hnil. apply best_at_first.
      * rewrite Hbv in Himp. apply improves_Some in Himp.
        by eapply best_at_improve.
    + rewrite <- Hlw. by apply list_lookup_middle.
    + rewrite length_app. simpl. lia.
  - destruct Hbest as [(_ & Hnone & _)|(b & vb & wb & Hb & Hbv & Hbw & Hwb & Hcount)];
      [by rewrite Hnone in Himp|].
    split; [|split; [by rewrite length_app, Nat.add_1_r|]].
    + split; [done|]. split; [done|].
      split; [rewrite !length_app; simpl; lia|].
      split; [rewrite !length_app; simpl; lia|]. right.
      exists b, vb, wb. split; [|split; [done|split; [done|split]]].
      * apply best_at_keep; [done|]. rewrite Hbv in Himp.
        intros Hlt%improves_Some. congruence.
      * by apply lookup_app_l_Some.
      * rewrite length_app. simpl. lia.
    + rewrite Hp. split; intros Hs.
      * apply Nat.leb_gt in Hs. lia.
      * apply Nat.leb_le in Hs. lia.
Qed.

Lemma fit_loop_tracking (p : nat) (bs : Z) (train val : Keras.dataset) (remaining : nat) :
  forall (epoch : nat) (st : Keras.FitState),
    tracking p st ->
    (Keras.wait (Keras.stopper st) < p)%nat ->
    let st' := Keras.fit_loop K bs train val remaining epoch st in
    tracking p st'
    /\ (Keras.wait (Keras.stopper st') <= p)%nat
    /\ (length (Keras.val_loss st') <= length (Keras.val_loss st) + remaining)%nat
    /\ ((length (Keras.val_loss st') < length (Keras.val_loss st) + remaining)%nat ->
        Keras.wait (Keras.stopper st') = p).
Proof.
  induction remaining as [|r IH]; intros epoch st Htr Hwait; simpl.
  - split; [done|]. split; [lia|]. split; lia.
  - destruct (Keras.run_epoch K bs train val epoch st) as [st1 stop] eqn:Hrun.
    destruct (run_epoch_tracking _ _ _ _ _ _ _ _ Htr Hwait Hrun)
      as (Htr1 & Hlen1 & Hgo & Hhalt).
    destruct stop.
    + rewrite Hlen1, (Hhalt eq_refl). split; [done|]. split; [lia|]. split; [lia|done].
    + destruct (IH (S epoch) st1 Htr1 (Hgo eq_refl)) as (Htr' & Hw' & Hlen' & Hearly).
      rewrite Hlen1 in Hlen', Hearly.
      split; [done|]. split; [done|]. split; [lia|].
      intros Hlt. apply Hearly. lia.
Qed.

Lemma fit_early_stopping (w0 : W) (lr0 : Q) (train val : Keras.dataset)
    (epochs bs : Z) (p : nat) (rl : Keras.ReduceLROnPlateau) :
  (1 <= p)%nat ->
  let run :=
    Keras.fit K w0 lr0 train val epochs bs
      {| Keras.patience := p; Keras.restore_best_weights := true;
         Keras.wait := 0; Keras.best := None; Keras.best_weights := None |} rl in
  (length (Keras.val_loss run) <= Z.to_nat epochs)%nat
  /\ length (Keras.loss run) = length (Keras.val_loss run)
  /\ length (Keras.epoch_weights run) = length (Keras.val_loss run)
  /\ (Keras.val_loss run <> [] -> exists b, best_at (Keras.val_loss run) b)
  /\ forall b, best_at (Keras.val_loss run) b ->
       (length (Keras.val_loss run) <= b + 1 + p)%nat
       /\ Keras.epoch_weights run !! b = Some (Keras.weights run)
       /\ ((length (Keras.val_loss run) < Z.to_nat epochs)%nat ->
           length (Keras.val_loss run) = (b + 1 + p)%nat).
Proof.
  intros Hp run. subst run. unfold Keras.fit.
  set (st0 := {| Keras.weights := w0; Keras.learning_rate := lr0;
                 Keras.stopper := _; Keras.plateau := rl; Keras.loss := [];
                 Keras.val_loss := []; Keras.epoch_weights := [] |}).
  assert (Htr0 : tracking p st0) by (repeat split; by left).
  destruct (fit_loop_tracking p bs train val (Z.to_nat epochs) O st0 Htr0)
    as (Htr & Hwait & Hlen & Hearly); [simpl; lia|].
  set (st := Keras.fit_loop K bs train val (Z.to_nat epochs) 0 st0) in *.
  destruct Htr as (Hpat & Hres & Hlw & Hll & Hbest). simpl in *.
  split; [lia|]. split; [done|]. split; [done|].
  destruct Hbest as [(Hnil & _)|(b0 & vb & wb & Hb0 & _ & Hbw & Hwb & Hcount)].
  - split; [done|]. intros b (v & Hv & _). by rewrite Hnil in Hv.
  - split; [intros _; exists b0; by exists vb|].
    intros b Hb. assert (b = b0) as -> by (eapply best_at_unique; [done | by exists vb]).
    split; [lia|]. split.
    + unfold Keras.on_train_end. by rewrite Hres, Hbw.
    + intros Hlt. rewrite Hearly in Hcount by lia. lia.
Qed.

End EarlyStopping.

Section Training.

Context {W : Type} (K : Keras.Backend W) (R : Runtime) (D : Storage).
Implicit Types self : @LSTMFloodModel W.

Lemma run_epoch_appends (bs : Z) (train val : Keras.dataset) (epoch : nat)
    (st : @Keras.FitState W) :
  let st' := fst (Keras.run_epoch K bs train val epoch st) in
  length (Keras.val_loss st') = S (length (Keras.val_loss st))
  /\ length (Keras.loss st') = S (length (Keras.loss st))
  /\ length (Keras.mae st') = S (length (Keras.mae st))
  /\ length (Keras.val_mae st') = S (length (Keras.val_mae st))
  /\ length (Keras.lr_log st') = S (length (Keras.lr_log st)).
Proof.
  unfold Keras.run_epoch.
  destruct (Keras.train_epoch K epoch _ bs train _) as [w l].
  destruct (Keras.early_stopping_epoch_end _ _ _) as [es stop].
  destruct (Keras.plateau_epoch_end _ _ _) as [rl lr]. simpl.
  rewrite !length_app. simpl. lia.
Qed.

Lemma fit_loop_grows (bs : Z) (train val : Keras.dataset) (remaining : nat) :
  forall (epoch : nat) (st : @Keras.FitState W),
    (length (Keras.val_loss st)
     <= length (Keras.val_loss (Keras.fit_loop K bs train val remaining epoch st)))%nat.
Proof.
  induction remaining as [|r IH]; intros epoch st; simpl; [lia|].
  pose proof (run_epoch_appends bs train val epoch st) as (Hone & _).
  destruct (Keras.run_epoch K bs train val epoch st) as [st' stop]. simpl in Hone.
  destruct stop; [lia|]. specialize (IH (S epoch) st'). lia.
Qed.

Lemma fit_loop_logs (bs : Z) (train val : Keras.dataset) (remaining : nat) :
  forall (epoch : nat) (st : @Keras.FitState W),
    length (Keras.mae st) = length (Keras.loss st)
    /\ length (Keras.val_mae st) = length (Keras.loss st)
    /\ length (Keras.lr_log st) = length (Keras.loss st) ->
    let st' := Keras.fit_loop K bs train val remaining epoch st in
    length (Keras.mae st') = length (Keras.loss st')
    /\ length (Keras.val_mae st') = length (Keras.loss st')
    /\ length (Keras.lr_log st') = length (Keras.loss st').
Proof.
  induction remaining as [|r IH]; intros epoch st Hst; simpl; [done|].
  pose proof (run_epoch_appends bs train val epoch st) as (_ & Hl & Hm & Hvm & Hlr).
  destruct (Keras.run_epoch K bs train val epoch st) as [st' stop]. simpl in *.
  assert (Hst' : length (Keras.mae st') = length (Keras.loss st')
                 /\ length (Keras.val_mae st') = length (Keras.loss st')
                 /\ length (Keras.lr_log st') = length (Keras.loss st')) by lia.
  destruct stop; [exact Hst'|]. by apply IH.
Qed.

Lemma fit_logs (w0 : W) (lr0 : Q) (train val : Keras.dataset)
    (epochs bs : Z) (es : Keras.EarlyStopping) (rl : Keras.ReduceLROnPlateau) :
  let run := Keras.fit K w0 lr0 train val epochs bs es rl in
  length (Keras.mae run) = length (Keras.loss run)
  /\ length (Keras.val_mae run) = length (Keras.loss run)
  /\ length (Keras.lr_log run) = length (Keras.loss run).
Proof.
  unfold Keras.fit. cbn [Keras.mae Keras.val_mae Keras.lr_log Keras.loss].
  by apply fit_loop_logs.
Qed.

Lemma fit_runs_an_epoch (w0 : W) (lr0 : Q) (train val : Keras.dataset)
    (epochs bs : Z) (es : Keras.EarlyStopping) (rl : Keras.ReduceLROnPlateau) :
  1 <= epochs ->
  Keras.val_loss (Keras.fit K w0 lr0 train val epochs bs es rl) <> [].
Proof.
  intros Hep. unfold Keras.fit. cbn [Keras.val_loss].
  destruct (Z.to_nat epochs) as [|r] eqn:Hr; [lia|]. cbn [Keras.fit_loop].
  match goal with
  | |- context [Keras.run_epoch K bs train val 0 ?st] =>
      pose proof (run_epoch_appends bs train val 0 st) as (Hone & _);
      destruct (Keras.run_epoch K bs train val 0 st) as [st' stop]
  end.
  simpl in Hone. intros Hnil.
  destruct stop.
  - rewrite Hnil in Hone. simpl in Hone. lia.
  - pose proof (fit_loop_grows bs train val r 1 st') as Hgrow.
    rewrite Hnil in Hgrow. simpl in Hgrow. lia.
Qed.

Lemma fit_no_epoch (w0 : W) (lr0 : Q) (train val : Keras.dataset)
    (epochs bs : Z) (es : Keras.EarlyStopping) (rl : Keras.ReduceLROnPlateau) :
  epochs <= 0 ->
  Keras.loss (Keras.fit K w0 lr0 train val epochs bs es rl) = []
  /\ Keras.weights (Keras.fit K w0 lr0 train val epochs bs es rl)
     = match Keras.restore_best_weights es, Keras.best_weights es with
       | true, Some best => best
       | _, _ => w0
       end.
Proof.
  intros Hep. unfold Keras.fit. replace (Z.to_nat epochs) with 0%nat by lia.
  cbn. unfold Keras.on_train_end. cbn.
  split; [done|]. by destruct (Keras.restore_best_weights es), (Keras.best_weights es).
Qed.

Lemma checkpoint_allowed_setup (model_save_path : option string)
    (run : @Keras.FitState W) :
  checkpoint_allowed K D model_save_path ->
  exists checkpointing,
    checkpoint_setup K D model_save_path = Ok checkpointing
    /\ checkpoint_raises K checkpointing model_save_path run = None.
Proof.
  unfold checkpoint_allowed, checkpoint_setup, checkpoint_raises.
  destruct model_save_path as [p|]; [|by exists false].
  destruct (String.eqb p "") eqn:Hp; [by exists false|].
  intros [->|(Hdir & Hcb & Hsave)]; [done|].
  exists true. rewrite Hdir, Hcb, Hsave. simpl. split; [done|].
  by destruct (Keras.epoch_weights run).
Qed.

Lemma history_lookup (st : @Keras.FitState W) :
  Keras.loss st <> [] ->
  Keras.history K st !! "loss" = Some (Keras.loss st)
  /\ Keras.history K st !! "mae" = Some (Keras.mae st)
  /\ Keras.history K st !! "val_loss" = Some (Keras.val_loss st)
  /\ Keras.history K st !! "val_mae" = Some (Keras.val_mae st).
Proof.
  unfold Keras.history. destruct (Keras.loss st) as [|l ls]; [done|]. intros _.
  repeat split; by simplify_map_eq.
Qed.

(** What [train] does on the learned path when its checkpoint, if any,
    can be written: it fails on the history of a run without epochs, after
    the flag and the history are set, and returns the history otherwise. *)
Lemma train_learned self (w : W) (X_train : Keras.batch) (y_train : list Q)
    (validation : option Keras.dataset) (epochs batch_size : Z)
    (model_save_path : option string) :
  TF_AVAILABLE R = true -> model self = Some w ->
  checkpoint_allowed K D model_save_path ->
  Keras.fit_raises K (validation_split X_train y_train validation).1
    (validation_split X_train y_train validation).2 = None ->
  let split := validation_split X_train y_train validation in
  let run := Keras.fit K w compiled_learning_rate split.1 split.2 epochs batch_size
               early_stopping reduce_lr_on_plateau in
  let r := train K R D X_train y_train validation epochs batch_size
             model_save_path self in
  let fitted := set_training_history (Some (Keras.history K run))
                  (set_is_trained true (set_model (Some (Keras.weights run)) self)) in
  (Keras.loss run = [] -> r = (Raise KeyError, fitted))
  /\ (Keras.loss run <> [] ->
      fst r = Ok (Keras.history K run)
      /\ model (snd r) = Some (Keras.weights run)
      /\ is_trained (snd r) = true
      /\ training_history (snd r) = Some (Keras.history K run)
      /\ scaler (snd r) = scaler self
      /\ model_metadata (snd r) !! "epochs"
         = Some (JInt (Z.of_nat (length (Keras.loss run))))
      /\ model_metadata (snd r) !! "trained_at" = Some (JString (now_isoformat R))
      /\ model_metadata (snd r) !! "mode" = None).
Proof.
  intros HTF Hw Hcp Hfit split run r fitted. subst r fitted run split. revert Hfit.
  unfold train, Py.bind, Py.get, Py.modify, Py.ret, Py.lift, Py.raise. rewrite HTF, Hw.
  destruct (validation_split X_train y_train validation) as [training validating].
  cbn [fst snd]. intros Hfit. rewrite Hfit.
  set (run := Keras.fit K w compiled_learning_rate training validating epochs
                batch_size early_stopping reduce_lr_on_plateau).
  destruct (checkpoint_allowed_setup model_save_path run Hcp) as (cp & -> & ->).
  split.
  - intros Hnone. unfold Keras.history. rewrite Hnone. reflexivity.
  - intros Hsome. destruct (history_lookup run Hsome) as (-> & _).
    cbn. repeat split; by simplify_map_eq.
Qed.

(** C8. On the learned path, training runs the Keras loop with a
    patience of 15 epochs on the validation loss and best-weights
    restoring. For at least one epoch, data that Keras trains on, and a
    checkpoint that can be written if there is one: whatever epoch b
    (counted from 0) the
    validation loss stopped improving at, the run has at most 15 epochs
    after it, it was cut short of [epochs] only by those 15 epochs, and
    the model is left with the weights of that epoch. In particular, when
    the loss stops improving at the fifth epoch, at most 20 epochs run and
    the weights are those of the fifth epoch. *)
Theorem train_early_stopping self (w : W) (X_train : Keras.batch) (y_train : list Q)
    (validation : option Keras.dataset) (epochs batch_size : Z)
    (model_save_path : option string) :
  TF_AVAILABLE R = true -> model self = Some w ->
  1 <= epochs ->
  checkpoint_allowed K D model_save_path ->
  Keras.fit_raises K (validation_split X_train y_train validation).1
    (validation_split X_train y_train validation).2 = None ->
  let split := validation_split X_train y_train validation in
  let run := Keras.fit K w compiled_learning_rate split.1 split.2 epochs batch_size
               early_stopping reduce_lr_on_plateau in
  let r := train K R D X_train y_train validation epochs batch_size
             model_save_path self in
  (exists history,
     fst r = Ok history /\ history !! "val_loss" = Some (Keras.val_loss run))
  /\ model (snd r) = Some (Keras.weights run)
  /\ (length (Keras.val_loss run) <= Z.to_nat epochs)%nat
  /\ (forall b, best_at (Keras.val_loss run) b ->
       (length (Keras.val_loss run) <= b + 1 + 15)%nat
       /\ Keras.epoch_weights run !! b = Some (Keras.weights run)
       /\ ((length (Keras.val_loss run) < Z.to_nat epochs)%nat ->
           length (Keras.val_loss run) = (b + 1 + 15)%nat))
  /\ (best_at (Keras.val_loss run) 4 ->
      (length (Keras.val_loss run) <= 20)%nat
      /\ Keras.epoch_weights run !! 4%nat = Some (Keras.weights run)).
Proof.
  intros HTF Hw Hep Hcp Hfit split run r.
  destruct (fit_early_stopping K w compiled_learning_rate split.1 split.2 epochs
              batch_size 15 reduce_lr_on_plateau) as (Hlen & Hsame & _ & _ & Hbest); [lia|].
  fold (@early_stopping W) in Hlen, Hsame, Hbest. fold run in Hlen, Hsame, Hbest.
  assert (Hran : Keras.loss run <> []).
  { intros Hnil. apply (fit_runs_an_epoch w compiled_learning_rate split.1 split.2
                          epochs batch_size early_stopping reduce_lr_on_plateau Hep).
    fold run. apply nil_length_inv. rewrite <- Hsame, Hnil. reflexivity. }
  destruct (train_learned self w X_train y_train validation epochs batch_size
              model_save_path HTF Hw Hcp Hfit) as (_ & Hdone).
  destruct (Hdone Hran) as (Hfst & Hmodel & _).
  fold split in Hfst, Hmodel. fold run in Hfst, Hmodel. fold r in Hfst, Hmodel.
  split.
  { eexists. split; [exact Hfst|]. by destruct (history_lookup run Hran) as (_ & _ & ? & _). }
  split; [done|]. split; [done|]. split; [done|].
  intros H4. destruct (Hbest 4%nat H4) as (H20 & Hw4 & _). split; [lia | done].
Qed.

End Training.

(** ** Saving and loading *)

Lemma replace_go_absent (old new : string) (s : string) :
  occurs old s = false -> Py.replace_go old new O s = s.
Proof.
  induction s as [|c s IH]; [done|]. cbn [occurs Py.replace_go].
  intros [Hp Hs]%orb_false_iff. rewrite Hp. by rewrite IH.
Qed.

Lemma replace_absent (s old new : string) :
  occurs old s = false -> Py.replace s old new = s.
Proof. apply replace_go_absent. Qed.

Section SaveLoad.

Context {W : Type} (K : Keras.Backend W) (R : Runtime) (D : Storage).
Implicit Types self other : @LSTMFloodModel W.
Implicit Types fs : gmap string (@artifact W).

(** The files of a [save_model] that returned: the metadata over the
    scaler over the weights, each where there is one to write. *)
Lemma save_model_returns fs fs' (path : string) self :
  save_model K R D path self fs = (Ok tt, fs') ->
  fs' = <[Py.replace path ".h5" "_metadata.json" := JsonDocument (model_metadata self)]>
          (match scaler self with
           | Some sc => <[Py.replace path ".h5" "_scaler.joblib" := ScalerDump sc]>
           | None => fun files => files
           end
             (match TF_AVAILABLE R, model self with
              | true, Some w => <[path := SavedModel w]> fs
              | _, _ => fs
              end)).
Proof.
  unfold save_model, Py.bind, Py.modify, Py.ret, Py.raise, Py.lift.
  destruct (os_makedirs D _) as [[]|e]; [|done].
  destruct (TF_AVAILABLE R), (model self) as [w|];
    try (destruct (Keras.save K path) as [[]|e]; [|done]);
    (destruct (scaler self) as [sc|];
     [destruct (SKLEARN_AVAILABLE R); [|done];
      destruct (create D (Py.replace path ".h5" "_scaler.joblib")) as [[]|e]; [|done]|]);
    (destruct (create D (Py.replace path ".h5" "_metadata.json")) as [[]|e]; [|done]);
    by intros [= <-].
Qed.

(** Whatever [save_model] does, it writes at its three names only, and at
    the first of them only when there are weights to save. *)
Lemma save_model_elsewhere fs (path p : string) self :
  p <> Py.replace path ".h5" "_scaler.joblib" ->
  p <> Py.replace path ".h5" "_metadata.json" ->
  p <> path \/ TF_AVAILABLE R = false \/ model self = None ->
  snd (save_model K R D path self fs) !! p = fs !! p.
Proof.
  intros Hs Hm Hp.
  unfold save_model, Py.bind, Py.modify, Py.ret, Py.raise, Py.lift.
  destruct (os_makedirs D _) as [[]|e]; [|done].
  destruct (TF_AVAILABLE R) eqn:HTF, (model self) as [w|] eqn:Hw;
    try (destruct (Keras.save K path) as [[]|e]; [|done]);
    (destruct (scaler self) as [sc|];
     [destruct (SKLEARN_AVAILABLE R);
      [destruct (create D (Py.replace path ".h5" "_scaler.joblib")) as [[]|e]|]|]);
    try (destruct (create D (Py.replace path ".h5" "_metadata.json")) as [[]|e]);
    cbn [snd]; rewrite ?lookup_insert_ne by (destruct Hp as [?|[?|?]]; congruence);
    try done.
Qed.

(** The three files of a bundle that was saved under three names. *)
Lemma saved_bundle fs fs' (path : string) self (w : W) (sc : MinMaxScaler.t) :
  TF_AVAILABLE R = true -> model self = Some w -> scaler self = Some sc ->
  path <> Py.replace path ".h5" "_scaler.joblib" ->
  path <> Py.replace path ".h5" "_metadata.json" ->
  Py.replace path ".h5" "_scaler.joblib" <> Py.replace path ".h5" "_metadata.json" ->
  save_model K R D path self fs = (Ok tt, fs') ->
  fs' !! path = Some (SavedModel w)
  /\ fs' !! Py.replace path ".h5" "_scaler.joblib" = Some (ScalerDump sc)
  /\ fs' !! Py.replace path ".h5" "_metadata.json"
     = Some (JsonDocument (model_metadata self)).
Proof.
  intros HTF Hw Hsc Hps Hpm Hsm Hsave.
  rewrite (save_model_returns _ _ _ _ Hsave), Hsc, HTF, Hw.
  split; [|split].
  - by rewrite !lookup_insert_ne, lookup_insert_eq by congruence.
  - by rewrite lookup_insert_ne, lookup_insert_eq by congruence.
  - by rewrite lookup_insert_eq.
Qed.

(** X1. Saving and then loading the same path gives the loading object
    the saved scaler and metadata as they were, and for the weights what
    Keras makes of its own file: when [save_model] has returned (both
    libraries present, a model and a scaler to save, three different
    artifact names), [load_model] sets the model Keras reads back, the
    trained flag, the saved scaler and the saved metadata; and when Keras
    cannot read its file back, [load_model] raises that exception before
    the scaler and the metadata are looked at, and loads nothing. *)
Theorem save_load_round_trip fs fs' (path : string) self other (w : W)
    (sc : MinMaxScaler.t) :
  TF_AVAILABLE R = true -> SKLEARN_AVAILABLE R = true ->
  model self = Some w -> scaler self = Some sc ->
  path <> Py.replace path ".h5" "_scaler.joblib" ->
  path <> Py.replace path ".h5" "_metadata.json" ->
  Py.replace path ".h5" "_scaler.joblib" <> Py.replace path ".h5" "_metadata.json" ->
  save_model K R D path self fs = (Ok tt, fs') ->
  load_model K R fs' path other
  = match Keras.load K w with
    | Ok w' =>
        (Ok tt,
         set_model_metadata (model_metadata self)
           (set_scaler (Some sc) (set_is_trained true (set_model (Some w') other))))
    | Raise e => (Raise e, other)
    end.
Proof.
  intros HTF HSK Hw Hsc Hps Hpm Hsm Hsave.
  destruct (saved_bundle fs fs' path self w sc HTF Hw Hsc Hps Hpm Hsm Hsave)
    as (Hweights & Hscaler & Hmeta).
  unfold load_model, Py.bind, Py.lift, Py.modify, Py.ret,
    keras_load_model, joblib_load, json_load, path_exists.
  rewrite HTF, HSK, Hweights, Hscaler, Hmeta.
  rewrite !bool_decide_eq_true_2 by eauto. cbn [andb negb].
  by destruct (Keras.load K w).
Qed.

(** X2. A path without ".h5" in it, such as one ending in ".keras",
    makes the three artifacts one file: when [save_model] returns, all it
    has done is to leave the metadata document at the path, the weights
    and the scaler having been written there and overwritten; and
    [load_model] of that path raises what Keras raises for a file that
    holds no model. *)
Theorem save_model_collision fs fs' (path : string) self (w : W) :
  occurs ".h5" path = false ->
  TF_AVAILABLE R = true -> model self = Some w ->
  save_model K R D path self fs = (Ok tt, fs') ->
  fs' = <[path := JsonDocument (model_metadata self)]> fs
  /\ forall other, fst (load_model K R fs' path other) = Raise (Keras.load_error K).
Proof.
  intros Hno HTF Hw Hsave.
  assert (Hfs : fs' = <[path := JsonDocument (model_metadata self)]> fs).
  { rewrite (save_model_returns _ _ _ _ Hsave), HTF, Hw, !(replace_absent path) by done.
    destruct (scaler self); by rewrite !insert_insert_eq. }
  split; [exact Hfs|]. intros other. rewrite Hfs.
  unfold load_model, Py.bind, Py.lift, keras_load_model, path_exists.
  rewrite HTF, lookup_insert_eq. by rewrite bool_decide_eq_true_2 by eauto.
Qed.

(** X4. A bundle saved without TensorFlow is not found again by the
    constructor: no weights file is written, so [model_path] does not
    exist, [load_model] is not called, and the scaler and the metadata
    that were saved next to it are not read. *)
Theorem simulated_bundle_not_reloaded fs (path : string) self
    (seq_len width : Z) (units : list Z) (dropout : Q) :
  TF_AVAILABLE R = false ->
  fs !! path = None ->
  path <> Py.replace path ".h5" "_scaler.joblib" ->
  path <> Py.replace path ".h5" "_metadata.json" ->
  __init__ K R (snd (save_model K R D path self fs)) seq_len width units dropout
    (Some path)
  = (Ok tt,
     {| sequence_length := seq_len; n_features := width; lstm_units := units;
        dropout_rate := dropout; model := None;
        scaler := if SKLEARN_AVAILABLE R then Some MinMaxScaler.Unfitted else None;
        is_trained := false; training_history := None; model_metadata := ∅ |}).
Proof.
  intros HTF Hfs Hps Hpm.
  assert (Hgone : snd (save_model K R D path self fs) !! path = None).
  { rewrite save_model_elsewhere by auto. exact Hfs. }
  unfold __init__, path_exists. rewrite Hgone, HTF.
  rewrite bool_decide_eq_false_2 by (by intros [? ?]).
  by rewrite andb_false_r.
Qed.

(** X5. The constructor restores a saved bundle but not its
    configuration: built on the path of a bundle that [save_model] wrote
    with both libraries present, the object has the weights Keras reads
    back, the saved scaler and metadata, and is marked trained, while its
    sequence length, feature count, layer widths and dropout rate are the
    constructor's arguments, whatever the bundle was trained with; and
    when Keras cannot read its file back, the constructor raises. *)
Theorem construct_from_bundle fs fs' (path : string) self (w : W)
    (sc : MinMaxScaler.t) (seq_len width : Z) (units : list Z) (dropout : Q) :
  TF_AVAILABLE R = true -> SKLEARN_AVAILABLE R = true ->
  model self = Some w -> scaler self = Some sc ->
  path <> EmptyString ->
  path <> Py.replace path ".h5" "_scaler.joblib" ->
  path <> Py.replace path ".h5" "_metadata.json" ->
  Py.replace path ".h5" "_scaler.joblib" <> Py.replace path ".h5" "_metadata.json" ->
  save_model K R D path self fs = (Ok tt, fs') ->
  (forall w', Keras.load K w = Ok w' ->
     __init__ K R fs' seq_len width units dropout (Some path)
     = (Ok tt,
        {| sequence_length := seq_len; n_features := width; lstm_units := units;
           dropout_rate := dropout; model := Some w'; scaler := Some sc;
           is_trained := true; training_history := None;
           model_metadata := model_metadata self |}))
  /\ (forall e, Keras.load K w = Raise e ->
        fst (__init__ K R fs' seq_len width units dropout (Some path)) = Raise e).
Proof.
  intros HTF HSK Hw Hsc Hne Hps Hpm Hsm Hsave.
  assert (Hnonempty : String.eqb path "" = false) by by apply String.eqb_neq.
  destruct (saved_bundle fs fs' path self w sc HTF Hw Hsc Hps Hpm Hsm Hsave)
    as (Hweights & Hscaler & Hmeta).
  unfold __init__, load_model, Py.bind, Py.lift, Py.modify, Py.ret,
    keras_load_model, joblib_load, json_load, path_exists.
  rewrite Hnonempty, HTF, HSK, Hweights, Hscaler, Hmeta.
  rewrite !bool_decide_eq_true_2 by eauto. cbn [andb negb].
  split.
  - intros w' ->. reflexivity.
  - intros e ->. reflexivity.
Qed.

End SaveLoad.

(** ** The held-out tenth *)

Lemma slice_to_take {A} (l : list A) (k : Z) :
  0 <= k -> Py.slice_to l k = take (Z.to_nat k) l.
Proof.
  intros Hk. unfold Py.slice_to, Py.slice, Py.slice_bound.
  pose proof (Nat2Z.is_nonneg (length l)) as Hn.
  change (0 <? 0) with false. cbv iota.
  destruct (Z.ltb_spec k 0) as [?|_]; [lia|].
  rewrite (Z.min_l 0) by lia. rewrite Z.sub_0_r.
  change (Z.to_nat 0) with 0%nat. rewrite drop_0.
  destruct (Z.le_ge_cases k (Z.of_nat (length l))).
  - by rewrite Z.min_l by lia.
  - rewrite Z.min_r by lia. rewrite Nat2Z.id.
    by rewrite !take_ge by lia.
Qed.

Lemma slice_from_drop {A} (l : list A) (k : Z) :
  0 <= k -> Py.slice_from l k = drop (Z.to_nat k) l.
Proof.
  intros Hk. unfold Py.slice_from, Py.slice, Py.slice_bound.
  destruct (Z.ltb_spec k 0) as [?|_]; [lia|].
  destruct (Z.ltb_spec (Z.of_nat (length l)) 0) as [?|_]; [lia|].
  rewrite (Z.min_l (Z.of_nat (length l))) by lia.
  destruct (Z.le_ge_cases k (Z.of_nat (length l))).
  - rewrite Z.min_l by lia. apply take_ge. rewrite length_drop. lia.
  - rewrite Z.min_r by lia. rewrite Nat2Z.id.
    rewrite !drop_ge by lia. apply take_nil.
Qed.

(** X6. Without a validation set, [train] holds out the tail of the data
    in order: the training part followed by the validation part is the
    data again, the training part has the integer nine tenths of the
    windows, the validation part is never empty when there is data, and
    a single window leaves nothing to train on. *)
Theorem validation_split_partition (X : Keras.batch) (y : list Q) :
  let parts := validation_split X y None in
  fst (fst parts) ++ fst (snd parts) = X
  /\ snd (fst parts) ++ snd (snd parts) = y
  /\ Z.of_nat (length (fst (fst parts))) = Z.of_nat (length X) * 9 / 10
  /\ (X <> [] -> fst (snd parts) <> [])
  /\ ((length X <= 1)%nat -> fst (fst parts) = []).
Proof.
  intros parts. subst parts. unfold validation_split. cbn [fst snd].
  assert (Hsplit : 0 <= Z.of_nat (length X) * 9 / 10 <= Z.of_nat (length X)).
  { split; [apply Z.div_pos; lia|]. apply Z.div_le_upper_bound; lia. }
  assert (Hstrict : X <> [] -> Z.of_nat (length X) * 9 / 10 < Z.of_nat (length X)).
  { intros HX. apply Z.div_lt_upper_bound; [lia|].
    destruct X; [done|]. simpl length. lia. }
  rewrite !slice_to_take, !slice_from_drop by lia.
  split; [apply take_drop|]. split; [apply take_drop|].
  split; [rewrite length_take; lia|]. split.
  - intros HX Hnil. specialize (Hstrict HX).
    apply (f_equal length) in Hnil. rewrite length_drop in Hnil. simpl in Hnil. lia.
  - intros Hone. apply nil_length_inv. rewrite length_take.
    assert (Z.of_nat (length X) * 9 / 10 = 0); [|lia].
    apply Z.div_small. lia.
Qed.

(** ** More on prediction *)

Lemma rmapM_length {A B} (f : A -> result B) (l : list A) (l' : list B) :
  rmapM f l = Ok l' -> length l' = length l.
Proof.
  revert l'. induction l as [|x l IH]; intros l'; simpl; [by intros [= <-]|].
  destruct (f x) as [y|e]; [|done]. simpl.
  destruct (rmapM f l) as [ys|e]; [|done]. simpl.
  intros [= <-]. simpl. f_equal. by apply IH.
Qed.

Lemma river_column (bounds : list (Q * Q)) (b : Q * Q) (b0 : Q * Q) (vs : list Q) :
  bounds = [b0; b] ->
  rmapM (fun row => Py.index row 1)
    (map (MinMaxScaler.inverse_row bounds) (map (fun v => [0%Q; v]) vs))
  = Ok (map (fun v => ((v - MinMaxScaler.min_ b) / MinMaxScaler.scale_ b)%Q) vs).
Proof.
  intros ->. induction vs as [|v vs IH]; [done|].
  cbn [map rmapM]. rewrite IH. reflexivity.
Qed.

Lemma inverse_entry (b : Q * Q) (v : Q) :
  ((v - MinMaxScaler.min_ b) / MinMaxScaler.scale_ b
   == v * MinMaxScaler.handle_zeros (snd b - fst b) + fst b)%Q.
Proof.
  unfold MinMaxScaler.min_, MinMaxScaler.scale_.
  pose proof (handle_zeros_nonzero (snd b - fst b)) as Hz.
  field. exact Hz.
Qed.

Section Prediction2.

Context {W : Type} (K : Keras.Backend W) (R : Runtime).
Implicit Types self : @LSTMFloodModel W.

Lemma predict_refused self (w : W) (X : Keras.batch) (return_confidence : bool)
    (e : exn) :
  TF_AVAILABLE R = true -> model self = Some w ->
  Keras.predict_raises K w X = Some e ->
  fst (predict K R X return_confidence self) = Raise e.
Proof.
  intros HTF Hw He. unfold predict, Py.bind, Py.get, Py.raise.
  by rewrite HTF, Hw, He.
Qed.

Lemma predict_accepted self (w : W) (X : Keras.batch) (return_confidence : bool)
    (preds : list Q) (conf : option (list Q)) :
  TF_AVAILABLE R = true -> model self = Some w ->
  fst (predict K R X return_confidence self) = Ok (preds, conf) ->
  Keras.predict_raises K w X = None
  /\ (return_confidence = true -> Keras.call_raises K w X = None).
Proof.
  intros HTF Hw.
  unfold predict, with_scaler, Py.bind, Py.get, Py.ret, Py.lift, Py.raise.
  rewrite HTF, Hw.
  destruct (Keras.predict_raises K w X); [done|]. intros Hp. split; [done|].
  intros ->. revert Hp.
  destruct (scaler self) as [sc|] eqn:Hsc.
  - rewrite Hsc.
    destruct (MinMaxScaler.inverse_transform _ sc) as [[inverse|e] sc']; [|done].
    destruct (rmapM _ inverse) as [p|e]; [|done].
    rewrite (_calculate_confidence_result K _ w) by done. unfold n_samples_default.
    by destruct (Keras.call_raises K w X).
  - rewrite (_calculate_confidence_result K _ w) by done. unfold n_samples_default.
    by destruct (Keras.call_raises K w X).
Qed.

Lemma predict_learned_result self (w : W) (X : Keras.batch) (return_confidence : bool) :
  TF_AVAILABLE R = true -> model self = Some w ->
  Keras.predict_raises K w X = None ->
  (return_confidence = true -> Keras.call_raises K w X = None) ->
  fst (predict K R X return_confidence self)
  = let confidence :=
      if return_confidence then Some (mc_confidence K w X n_samples_default)
      else None in
    let preds_scaled := map (Keras.predict K w X) (seq 0 (length X)) in
    match scaler self with
    | None => Ok (preds_scaled, confidence)
    | Some sc =>
        match fst (MinMaxScaler.inverse_transform
                     (map (fun v => [0%Q; v]) preds_scaled) sc) with
        | Ok inverse =>
            match rmapM (fun row => Py.index row 1) inverse with
            | Ok preds => Ok (preds, confidence)
            | Raise e => Raise e
            end
        | Raise e => Raise e
        end
    end.
Proof.
  intros HTF Hw Hpr Hcr.
  unfold predict, with_scaler, Py.bind, Py.get, Py.ret, Py.lift, Py.raise.
  rewrite HTF, Hw, Hpr.
  destruct (scaler self) as [sc|] eqn:Hsc.
  - rewrite Hsc.
    destruct (MinMaxScaler.inverse_transform _ sc) as [[inverse|e] sc']; [|done].
    cbn [fst].
    destruct (rmapM _ inverse) as [p|e]; [|done].
    destruct return_confidence; [|done].
    rewrite (_calculate_confidence_result K _ w) by done. unfold n_samples_default.
    by rewrite Hcr.
  - destruct return_confidence; [|done].
    rewrite (_calculate_confidence_result K _ w) by done. unfold n_samples_default.
    by rewrite Hcr.
Qed.

Lemma mc_confidence_length (w : W) (X : Keras.batch) (n : nat) :
  length (mc_confidence K w X n) = length X.
Proof. unfold mc_confidence. by rewrite !length_map, length_seq. Qed.

(** X7. [predict] answers window by window: whenever it returns, on
    either path, there is one forecast per window of the batch, and one
    confidence per window when confidences are returned. *)
Theorem predict_lengths self (X : Keras.batch) (return_confidence : bool)
    (preds : list Q) (conf : option (list Q)) :
  fst (predict K R X return_confidence self) = Ok (preds, conf) ->
  length preds = length X
  /\ forall c, conf = Some c -> length c = length X.
Proof.
  destruct (TF_AVAILABLE R) eqn:HTF; [destruct (model self) as [w|] eqn:Hw|].
  - intros Hp.
    destruct (predict_accepted self w X return_confidence preds conf HTF Hw Hp)
      as (Hpr & Hcr).
    revert Hp.
    rewrite (predict_learned_result self w X return_confidence HTF Hw Hpr Hcr). cbv zeta.
    assert (Hconf : forall c,
              (if return_confidence then Some (mc_confidence K w X n_samples_default)
               else None) = Some c -> length c = length X).
    { intros c. destruct return_confidence; [|done].
      intros [= <-]. apply mc_confidence_length. }
    destruct (scaler self) as [sc|].
    + destruct sc as [|bounds]; [done|]. unfold MinMaxScaler.inverse_transform.
      destruct (map (fun v => [0%Q; v]) _) as [|row rows] eqn:Hdummy; [done|].
      destruct (MinMaxScaler.has_width _ _); [|done]. cbn [fst].
      destruct (rmapM _ _) as [p|e] eqn:Hp; [|done].
      intros [= <- <-]. split; [|exact Hconf].
      apply rmapM_length in Hp. rewrite Hp, length_map, <- Hdummy.
      by rewrite !length_map, length_seq.
    + intros [= <- <-]. split; [|exact Hconf]. by rewrite length_map, length_seq.
  - rewrite predict_simulation, _simulate_prediction_result by (by right).
    destruct (rmapM _ X) as [lasts|e] eqn:Hl; [|done]. cbv zeta.
    apply rmapM_length in Hl. intros [= <- <-].
    split; [by rewrite length_imap|].
    intros c [= <-]. by rewrite length_map, length_imap.
  - rewrite predict_simulation, _simulate_prediction_result by (by left).
    destruct (rmapM _ X) as [lasts|e] eqn:Hl; [|done]. cbv zeta.
    apply rmapM_length in Hl. intros [= <- <-].
    split; [by rewrite length_imap|].
    intros c [= <-]. by rewrite length_map, length_imap.
Qed.

(** X8. A model with a backend and a scaler that was never fitted, the
    state of a freshly constructed object, cannot predict: for every
    batch and flag [predict] raises and leaves the object as it was. The
    network is asked first: a batch that it refuses raises the exception
    of Keras, and a batch that it answers raises [NotFittedError] at the
    inverse transform. *)
Theorem predict_unfitted self (w : W) (X : Keras.batch) (return_confidence : bool) :
  TF_AVAILABLE R = true -> model self = Some w ->
  scaler self = Some MinMaxScaler.Unfitted ->
  predict K R X return_confidence self
  = (match Keras.predict_raises K w X with
     | Some e => Raise e
     | None => Raise NotFittedError
     end, self).
Proof.
  intros HTF Hw Hsc.
  pose proof (predict_readonly K R X return_confidence self) as Hself.
  destruct (predict K R X return_confidence self) as [r self'] eqn:Hp.
  simpl in Hself. subst self'. f_equal.
  change r with (fst (r, self)). rewrite <- Hp.
  destruct (Keras.predict_raises K w X) as [e|] eqn:Hpr.
  - by apply (predict_refused self w).
  - unfold predict, with_scaler, Py.bind, Py.get, Py.ret, Py.lift, Py.raise.
    rewrite HTF, Hw, Hpr. cbn. by rewrite !Hsc.
Qed.

(** X9. On the learned path, for a batch that the network answers, the
    forecasts are brought back to river-level
    units with the river-level bounds of the scaler alone: with bounds
    [lo, hi] for the river level, forecast j is the network output j times
    (hi - lo) plus lo, or the output plus lo when the river level was
    constant; the rainfall bounds play no part. *)
Theorem predict_original_units self (w : W) (X : Keras.batch)
    (return_confidence : bool) (rain : Q * Q) (lo hi : Q) :
  TF_AVAILABLE R = true -> model self = Some w ->
  scaler self = Some (MinMaxScaler.Fitted [rain; (lo, hi)]) ->
  X <> [] ->
  Keras.predict_raises K w X = None ->
  (return_confidence = true -> Keras.call_raises K w X = None) ->
  exists preds conf,
    fst (predict K R X return_confidence self) = Ok (preds, conf)
    /\ forall j, (j < length X)%nat ->
         exists p,
           preds !! j = Some p
           /\ (~ (hi == lo)%Q -> (p == Keras.predict K w X j * (hi - lo) + lo)%Q)
           /\ ((hi == lo)%Q -> (p == Keras.predict K w X j + lo)%Q).
Proof.
  intros HTF Hw Hsc HX Hpr Hcr.
  rewrite (predict_learned_result self w X return_confidence HTF Hw Hpr Hcr), Hsc.
  cbv zeta.
  unfold MinMaxScaler.inverse_transform.
  destruct (map (fun v => [0%Q; v]) (map (Keras.predict K w X) (seq 0 (length X))))
    as [|row rows] eqn:Hdummy.
  { apply (f_equal length) in Hdummy. rewrite !length_map, length_seq in Hdummy.
    by destruct X. }
  assert (Hw2 : MinMaxScaler.has_width (length [rain; (lo, hi)]) (row :: rows) = true).
  { rewrite <- Hdummy. apply has_width_Forall. rewrite map_fmap.
    apply Forall_fmap, Forall_forall. by intros v _. }
  rewrite Hw2. cbn [fst]. rewrite <- Hdummy.
  rewrite (river_column _ (lo, hi) rain) by reflexivity.
  eexists _, _. split; [reflexivity|].
  intros j Hj. eexists. split.
  - rewrite map_fmap, list_lookup_fmap, map_fmap, list_lookup_fmap.
    rewrite lookup_seq_lt by done. reflexivity.
  - simpl. pose proof (inverse_entry (lo, hi) (Keras.predict K w X j)) as He.
    simpl in He. unfold MinMaxScaler.handle_zeros in He. split.
    + intros Hne. rewrite He.
      destruct (Qeq_bool (hi - lo) 0) eqn:Hz; [|reflexivity].
      apply Qeq_bool_eq in Hz. exfalso. apply Hne. lra.
    + intros Heq. rewrite He.
      destruct (Qeq_bool (hi - lo) 0) eqn:Hz; [ring|].
      apply Qeq_bool_neq in Hz. exfalso. apply Hz. lra.
Qed.

End Prediction2.

(** ** The confidence as a function of the variance *)

Lemma total_nonneg (xs : list Q) : Forall (fun x => (0 <= x)%Q) xs -> (0 <= total xs)%Q.
Proof.
  induction 1 as [|x xs Hx _ IH]; simpl; [discriminate|].
  change 0%Q with (0 + 0)%Q. by apply Qplus_le_compat.
Qed.

Lemma mean_nonneg (xs : list Q) : Forall (fun x => (0 <= x)%Q) xs -> (0 <= mean xs)%Q.
Proof.
  intros H. unfold mean, Qdiv. apply Qmult_le_0_compat; [by apply total_nonneg|].
  apply Qinv_le_0_compat. unfold Qle. simpl. lia.
Qed.

Lemma square_nonneg (a : Q) : (0 <= a * a)%Q.
Proof.
  destruct (Qlt_le_dec a 0) as [Hneg|Hpos].
  - assert (H : (a * a == (- a) * (- a))%Q) by ring. rewrite H.
    apply Qmult_le_0_compat; lra.
  - by apply Qmult_le_0_compat.
Qed.

Lemma var_nonneg (xs : list Q) : (0 <= var xs)%Q.
Proof.
  unfold var. apply mean_nonneg. rewrite map_fmap. apply Forall_fmap, Forall_forall.
  intros x _. apply square_nonneg.
Qed.

Lemma total_constant (c : Q) (xs : list Q) :
  Forall (fun x => (x == c)%Q) xs ->
  (total xs == inject_Z (Z.of_nat (length xs)) * c)%Q.
Proof.
  induction 1 as [|x xs Hx _ IH]; [simpl; ring|].
  cbn [total foldr length]. fold (total xs). rewrite IH, Hx, Nat2Z.inj_succ.
  unfold Z.succ. rewrite inject_Z_plus. ring.
Qed.

Lemma mean_constant (c : Q) (xs : list Q) :
  xs <> [] -> Forall (fun x => (x == c)%Q) xs -> (mean xs == c)%Q.
Proof.
  intros Hne H. unfold mean. rewrite (total_constant c xs H).
  field. intros Hz. destruct xs; [done|].
  revert Hz. simpl length. rewrite Nat2Z.inj_succ. unfold Z.succ.
  pose proof (Nat2Z.is_nonneg (length xs)).
  change 0%Q with (inject_Z 0). rewrite inject_Z_injective. lia.
Qed.

Lemma var_constant (c : Q) (xs : list Q) :
  Forall (fun x => (x == c)%Q) xs -> (var xs == 0)%Q.
Proof.
  intros H. destruct xs as [|x xs]; [reflexivity|].
  unfold var. pose proof (mean_constant c (x :: xs) ltac:(done) H) as Hmu.
  set (mu := mean (x :: xs)) in *.
  assert (Hsq : Forall (fun z => (z == 0)%Q)
                  (map (fun z => ((z - mu) * (z - mu))%Q) (x :: xs))).
  { rewrite map_fmap. apply Forall_fmap. eapply Forall_impl; [exact H|].
    intros z Hz. simpl in *. rewrite Hz, Hmu. ring. }
  unfold mean. rewrite (total_constant 0 _ Hsq). unfold Qdiv. ring.
Qed.

Lemma clip_high (c lo hi : Q) : (lo <= hi -> hi <= c -> clip c lo hi == hi)%Q.
Proof.
  intros Hlh Hc. apply Qle_antisym; [by apply clip_bounds|].
  unfold clip. apply Q.min_glb; [|apply Qle_refl].
  eapply Qle_trans; [exact Hc | apply Q.le_max_l].
Qed.

Lemma clip_low (c lo hi : Q) : (lo <= hi -> c <= lo -> clip c lo hi == lo)%Q.
Proof.
  intros Hlh Hc. apply Qle_antisym; [|by apply clip_bounds].
  unfold clip. eapply Qle_trans; [apply Q.le_min_l|].
  apply Q.max_lub; [exact Hc | apply Qle_refl].
Qed.

Lemma clip_inside (c lo hi : Q) : (lo <= c -> c <= hi -> clip c lo hi == c)%Q.
Proof.
  intros Hlo Hhi. unfold clip. apply Qle_antisym.
  - eapply Qle_trans; [apply Q.le_min_l|].
    apply Q.max_lub; [apply Qle_refl | exact Hlo].
  - apply Q.min_glb; [apply Q.le_max_l | exact Hhi].
Qed.

Section Confidence.

Context {W : Type} (K : Keras.Backend W) (R : Runtime).
Implicit Types self : @LSTMFloodModel W.

Lemma mc_confidence_lookup (w : W) (X : Keras.batch) (n j : nat) :
  (j < length X)%nat ->
  mc_confidence K w X n !! j
  = Some (clip (1 / (1 + mc_variance K w X n j)) 0.5 0.95).
Proof.
  intros Hj.
  assert (Hsamples :
    map (fun p => nth j p 0%Q)
      (map (fun k => map (Keras.call_training K k w X) (seq 0 (length X))) (seq 0 n))
    = map (fun k => Keras.call_training K k w X j) (seq 0 n)).
  { rewrite map_map. apply map_ext. intros k.
    by rewrite nth_lookup, map_fmap, list_lookup_fmap, lookup_seq_lt. }
  unfold mc_confidence, mc_variance. rewrite <- Hsamples.
  rewrite (map_fmap (fun c => clip c 0.5 0.95)), list_lookup_fmap.
  rewrite (map_fmap (fun v => (1 / (1 + v))%Q)), list_lookup_fmap.
  rewrite (map_fmap (fun j0 => var _)), list_lookup_fmap.
  by rewrite lookup_seq_lt.
Qed.

(** X10. The confidence of a window only says something for a variance
    between 1/19 and 1: with at least one stochastic pass (numpy's
    variance of no sample is not a number), [_calculate_confidence] gives
    0.95 for any variance up to 1/19, and so whenever the passes agree,
    0.5 for any variance from 1 on, and [1 / (1 + variance)] in between. *)
Theorem confidence_saturates self (w : W) (X : Keras.batch)
    (n_samples j : nat) (conf : list Q) :
  model self = Some w ->
  (0 < n_samples)%nat ->
  fst (_calculate_confidence K X n_samples self) = Ok conf ->
  (j < length X)%nat ->
  exists c,
    conf !! j = Some c
    /\ let v := mc_variance K w X n_samples j in
       ((v <= 1 # 19)%Q -> (c == 0.95)%Q)
       /\ ((1 <= v)%Q -> (c == 0.5)%Q)
       /\ ((1 # 19 <= v <= 1)%Q -> (c == 1 / (1 + v))%Q)
       /\ ((forall k, (k < n_samples)%nat ->
              (Keras.call_training K k w X j == Keras.call_training K 0 w X j)%Q) ->
           (c == 0.95)%Q).
Proof.
  intros Hw _ Hconf Hj. rewrite (_calculate_confidence_result K self w X n_samples Hw) in Hconf.
  assert (Hc : conf = mc_confidence K w X n_samples).
  { cbn [fst] in Hconf. destruct n_samples, (Keras.call_raises K w X); congruence. }
  subst conf. eexists. split; [by apply mc_confidence_lookup|].
  cbv zeta. pose proof (var_nonneg (map (fun k => Keras.call_training K k w X j)
                                      (seq 0 n_samples))) as Hv.
  fold (mc_variance K w X n_samples j) in Hv.
  set (v := mc_variance K w X n_samples j) in *.
  assert (Hpos : (0 < 1 + v)%Q) by lra.
  assert (Hsmall : (v <= 1 # 19)%Q -> (clip (1 / (1 + v)) 0.5 0.95 == 0.95)%Q).
  { intros Hle. apply clip_high; [discriminate|].
    apply Qle_shift_div_l; [exact Hpos | lra]. }
  split; [exact Hsmall|]. split; [|split].
  - intros Hle. apply clip_low; [discriminate|].
    apply Qle_shift_div_r; [exact Hpos | lra].
  - intros [Hlo Hhi]. apply clip_inside.
    + apply Qle_shift_div_l; [exact Hpos | lra].
    + apply Qle_shift_div_r; [exact Hpos | lra].
  - intros Hagree. apply Hsmall. subst v. unfold mc_variance.
    rewrite (var_constant (Keras.call_training K 0 w X j)); [discriminate|].
    rewrite map_fmap. apply Forall_fmap, Forall_forall.
    intros k Hk%elem_of_seq. simpl. apply Hagree. lia.
Qed.

End Confidence.

(** ** More on training *)

Section Training2.

Context {W : Type} (K : Keras.Backend W) (R : Runtime) (D : Storage).
Implicit Types self : @LSTMFloodModel W.

Lemma set_model_same self (w : W) : model self = Some w -> set_model (Some w) self = self.
Proof. destruct self; simpl; by intros ->. Qed.

(** X11. On the learned path, with data that Keras trains on and a
    checkpoint that can be written if there is one, the history that
    [train] returns is the one it stores:
    for at least one epoch it has a loss, a mean absolute error and their
    validation counterparts for every epoch that ran, the metadata
    records that number of epochs, which is never more than [epochs], and
    when at most 16 epochs are asked for early stopping cannot cut the run
    short and exactly [epochs] epochs run. For [epochs <= 0] no epoch
    runs, the history has no entry, and [train] raises [KeyError] on its
    "loss", after it has marked the object trained and stored the empty
    history, and before it writes the metadata. *)
Theorem train_history_epochs self (w : W) (X_train : Keras.batch) (y_train : list Q)
    (validation : option Keras.dataset) (epochs batch_size : Z)
    (model_save_path : option string) :
  TF_AVAILABLE R = true -> model self = Some w ->
  checkpoint_allowed K D model_save_path ->
  Keras.fit_raises K (validation_split X_train y_train validation).1
    (validation_split X_train y_train validation).2 = None ->
  let r := train K R D X_train y_train validation epochs batch_size
             model_save_path self in
  (1 <= epochs ->
   exists history losses maes val_losses val_maes,
     fst r = Ok history
     /\ training_history (snd r) = Some history
     /\ history !! "loss" = Some losses
     /\ history !! "mae" = Some maes
     /\ history !! "val_loss" = Some val_losses
     /\ history !! "val_mae" = Some val_maes
     /\ length maes = length losses
     /\ length val_losses = length losses
     /\ length val_maes = length losses
     /\ (1 <= length losses <= Z.to_nat epochs)%nat
     /\ model_metadata (snd r) !! "epochs" = Some (JInt (Z.of_nat (length losses)))
     /\ (epochs <= 16 -> length losses = Z.to_nat epochs))
  /\ (epochs <= 0 ->
      r = (Raise KeyError, set_training_history (Some ∅) (set_is_trained true self))).
Proof.
  intros HTF Hw Hcp Hfit r.
  destruct (train_learned K R D self w X_train y_train validation epochs batch_size
              model_save_path HTF Hw Hcp Hfit) as (Hnone & Hdone).
  cbv zeta in Hnone, Hdone. fold r in Hnone, Hdone.
  set (split := validation_split X_train y_train validation) in *.
  set (run := Keras.fit K w compiled_learning_rate split.1 split.2 epochs batch_size
                early_stopping reduce_lr_on_plateau) in *.
  split.
  - intros Hep.
    destruct (fit_early_stopping K w compiled_learning_rate split.1 split.2 epochs
                batch_size 15 reduce_lr_on_plateau)
      as (Hlen & Hsame & _ & Hexists & Hbest); [lia|].
    fold (@early_stopping W) in Hlen, Hsame, Hexists, Hbest.
    fold run in Hlen, Hsame, Hexists, Hbest.
    pose proof (fit_runs_an_epoch K w compiled_learning_rate split.1 split.2 epochs
                  batch_size early_stopping reduce_lr_on_plateau Hep) as Hval.
    fold run in Hval.
    assert (Hran : Keras.loss run <> []).
    { intros Hnil. apply Hval, nil_length_inv. rewrite <- Hsame, Hnil. reflexivity. }
    destruct (Hdone Hran) as (Hfst & _ & _ & Hhist & _ & Hepochs & _).
    destruct (history_lookup K run Hran) as (Hl & Hm & Hvl & Hvm).
    destruct (fit_logs K w compiled_learning_rate split.1 split.2 epochs batch_size
                early_stopping reduce_lr_on_plateau) as (Hlm & Hlvm & _).
    fold run in Hlm, Hlvm.
    exists (Keras.history K run), (Keras.loss run), (Keras.mae run),
      (Keras.val_loss run), (Keras.val_mae run).
    split; [exact Hfst|]. split; [exact Hhist|]. split; [exact Hl|].
    split; [exact Hm|]. split; [exact Hvl|]. split; [exact Hvm|].
    split; [exact Hlm|]. split; [by rewrite Hsame|]. split; [exact Hlvm|]. split.
    { split; [|lia]. destruct (Keras.loss run); [done | simpl; lia]. }
    split; [exact Hepochs|].
    intros H16. rewrite Hsame.
    destruct (Hexists Hval) as [b Hb].
    destruct (Hbest b Hb) as (_ & _ & Hcut).
    destruct (Nat.lt_ge_cases (length (Keras.val_loss run)) (Z.to_nat epochs)) as [Hlt|Hge];
      [|lia].
    specialize (Hcut Hlt). lia.
  - intros Hep.
    destruct (fit_no_epoch K w compiled_learning_rate split.1 split.2 epochs batch_size
                early_stopping reduce_lr_on_plateau Hep) as (Hloss & Hweights).
    fold run in Hloss, Hweights. change (Keras.weights run = w) in Hweights.
    rewrite (Hnone Hloss), Hweights. unfold Keras.history. rewrite Hloss.
    by rewrite (set_model_same self w Hw).
Qed.

(** X12. Training touches nothing of the configuration: whatever [train]
    does, the scaler, the sequence length, the feature count, the layer
    widths and the dropout rate are what they were. When it returns, the
    metadata tells how the model was trained: its "mode" entry is
    "simulated" exactly when there was no backend to train with, its
    "trained_at" entry is the clock's, and the object is marked trained.
    When it raises, the metadata is what it was. *)
Theorem train_records_mode self (X_train : Keras.batch) (y_train : list Q)
    (validation : option Keras.dataset) (epochs batch_size : Z)
    (model_save_path : option string) :
  let r := train K R D X_train y_train validation epochs batch_size
             model_save_path self in
  (scaler (snd r) = scaler self
   /\ sequence_length (snd r) = sequence_length self
   /\ n_features (snd r) = n_features self
   /\ lstm_units (snd r) = lstm_units self
   /\ dropout_rate (snd r) = dropout_rate self)
  /\ (forall history, fst r = Ok history ->
        (model_metadata (snd r) !! "mode" = Some (JString "simulated")
         <-> simulation_mode R self)
        /\ model_metadata (snd r) !! "trained_at" = Some (JString (now_isoformat R))
        /\ is_trained (snd r) = true)
  /\ (forall e, fst r = Raise e -> model_metadata (snd r) = model_metadata self).
Proof.
  intros r. subst r.
  unfold train, _simulate_training, simulation_mode,
    Py.bind, Py.get, Py.modify, Py.ret, Py.lift, Py.raise.
  destruct (TF_AVAILABLE R) eqn:HTF; [destruct (model self) as [w|] eqn:Hw|].
  - destruct (validation_split X_train y_train validation) as [training validating].
    destruct (checkpoint_setup K D model_save_path) as [cp|e]; [|by repeat split].
    destruct (Keras.fit_raises K training validating) as [e|]; [by repeat split|].
    destruct (checkpoint_raises K cp model_save_path _) as [[e w1]|]; [by repeat split|].
    destruct (Keras.history K _ !! "loss") as [losses|]; [|by repeat split].
    cbn. split; [by repeat split|]. split; [|done].
    intros history _. split; [|split; by simplify_map_eq].
    split; [by simplify_map_eq | by intros [|]].
  - cbn. split; [by repeat split|]. split; [|done].
    intros history _. split; [|split; by simplify_map_eq].
    split; [by right | by simplify_map_eq].
  - cbn. split; [by repeat split|]. split; [|done].
    intros history _. split; [|split; by simplify_map_eq].
    split; [by left | by simplify_map_eq].
Qed.

(** X29. [train] does not guard the directory of its checkpoint the way
    [save_model] guards its own: a [model_save_path] without a directory
    part, such as "best.h5", has the empty [dirname], [os.makedirs] is
    asked for the empty name, and [train] raises [FileNotFoundError]
    before the network is trained, leaving the object as it was. *)
Theorem train_checkpoint_directory self (w : W) (X_train : Keras.batch)
    (y_train : list Q) (validation : option Keras.dataset) (epochs batch_size : Z)
    (p : string) :
  TF_AVAILABLE R = true -> model self = Some w ->
  p <> EmptyString -> Py.dirname p = EmptyString ->
  train K R D X_train y_train validation epochs batch_size (Some p) self
  = (Raise FileNotFoundError, self).
Proof.
  intros HTF Hw Hp Hdir.
  assert (Hnonempty : String.eqb p "" = false) by by apply String.eqb_neq.
  unfold train, Py.bind, Py.get, Py.lift. rewrite HTF, Hw.
  destruct (validation_split X_train y_train validation) as [training validating].
  unfold checkpoint_setup, os_makedirs. by rewrite Hnonempty, Hdir.
Qed.

End Training2.

(** ** More on sequence preparation *)

Section Sequences2.

Context {W : Type}.
Implicit Types self : @LSTMFloodModel W.

(** X14. A sequence length below [-(N + 1)] is not caught either: the first
    target index [sequence_length + 1] is then out of range even counted
    from the end, and [prepare_sequences] fails with IndexError where the
    matrix could otherwise be prepared. *)
Theorem prepare_sequences_negative_length self (rainfall river_level : list Q)
    (fit_scaler : bool) :
  length rainfall = length river_level -> rainfall <> [] ->
  scaler_ready self fit_scaler ->
  sequence_length self + Z.of_nat (length rainfall) + 1 < 0 ->
  fst (prepare_sequences rainfall river_level fit_scaler self) = Raise IndexError.
Proof.
  intros Hlen Hne Hready Hs.
  destruct (scaled_features_ready self _ _ _ Hlen Hne Hready) as (f & self' & Hsf).
  destruct (scaled_features_shape _ _ _ _ _ _ Hsf) as (Hf & _ & Hseq).
  rewrite (prepare_sequences_unfold _ _ _ _ _ _ Hsf). simpl. rewrite Hseq, Hf.
  set (s := sequence_length self) in *. set (N := Z.of_nat (length rainfall)) in *.
  pose proof (range_lookup s (N - 1) 0 ltac:(lia)) as Hhead.
  destruct (Py.range s (N - 1)) as [|i ends]; [done|].
  injection Hhead as ->. rewrite Z.add_0_r.
  cbn [sequences_loop]. unfold Py.index at 1. rewrite Hf. fold N.
  destruct (Z.ltb_spec (s + 1) 0) as [_|?]; [|lia].
  destruct (Z.leb_spec 0 (s + 1 + N)) as [?|_]; [lia|]. reflexivity.
Qed.

End Sequences2.

(** ** The rule-based backend *)

Module RiskFacts.
Import SimpleBackend Payload.

Lemma gt_true (a b : Q) : gt a b = true <-> (b < a)%Q.
Proof.
  unfold gt. rewrite negb_true_iff, <- not_true_iff_false, Qle_bool_iff.
  split; [apply Qnot_le_lt | apply Qlt_not_le].
Qed.

Lemma gt_false (a b : Q) : gt a b = false <-> (a <= b)%Q.
Proof. unfold gt. by rewrite negb_false_iff, Qle_bool_iff. Qed.

Lemma lt_true (a b : Q) : lt a b = true <-> (a < b)%Q.
Proof. unfold lt. apply gt_true. Qed.

Lemma lt_false (a b : Q) : lt a b = false <-> (b <= a)%Q.
Proof. unfold lt. apply gt_false. Qed.

Lemma ge_true (a b : Q) : ge a b = true <-> (b <= a)%Q.
Proof. unfold ge. apply Qle_bool_iff. Qed.

Lemma calculate_risk_readings (uniform : Q) (weather_data : value)
    (temp humidity wind_speed pressure : Q) :
  reading weather_data "main" "temp" 25 = Done temp ->
  reading weather_data "main" "humidity" 60 = Done humidity ->
  reading weather_data "wind" "speed" 10 = Done wind_speed ->
  reading weather_data "main" "pressure" 1013 = Done pressure ->
  calculate_risk uniform weather_data
  = Done (report uniform (accumulate temp humidity wind_speed pressure)).
Proof.
  unfold reading, calculate_risk, report.
  destruct (get weather_data "main" (Object [])) as [main|e]; [|done]. simpl.
  destruct (get weather_data "wind" (Object [])) as [wind|e]; [|done]. simpl.
  destruct (get main "temp" (Number 25)) as [t|e]; [|done]. simpl.
  destruct (get main "humidity" (Number 60)) as [h|e]; [|done]. simpl.
  destruct (get wind "speed" (Number 10)) as [w|e]; [|done]. simpl.
  destruct (get main "pressure" (Number 1013)) as [p|e]; [|done]. simpl.
  intros -> -> -> ->. reflexivity.
Qed.

Lemma calculate_risk_done (uniform : Q) (weather_data : value)
    (result : list (string * value)) :
  calculate_risk uniform weather_data = Done result ->
  exists temp humidity wind_speed pressure,
    reading weather_data "main" "temp" 25 = Done temp
    /\ reading weather_data "main" "humidity" 60 = Done humidity
    /\ reading weather_data "wind" "speed" 10 = Done wind_speed
    /\ reading weather_data "main" "pressure" 1013 = Done pressure
    /\ result = report uniform (accumulate temp humidity wind_speed pressure).
Proof.
  unfold reading, calculate_risk, report.
  destruct (get weather_data "main" (Object [])) as [main|e]; [|done]. simpl.
  destruct (get main "temp" (Number 25)) as [t|e]; [|done]. simpl.
  destruct (get main "humidity" (Number 60)) as [h|e]; [|done]. simpl.
  destruct (get weather_data "wind" (Object [])) as [wind|e]; [|done]. simpl.
  destruct (get wind "speed" (Number 10)) as [w|e]; [|done]. simpl.
  destruct (get main "pressure" (Number 1013)) as [p|e]; [|done]. simpl.
  destruct (number t) as [temp|e]; [|done]. simpl.
  destruct (number w) as [wind_speed|e]; [|done]. simpl.
  destruct (number h) as [humidity|e]; [|done]. simpl.
  destruct (number p) as [pressure|e]; [|done]. simpl.
  intros [= <-]. by exists temp, humidity, wind_speed, pressure.
Qed.

(** Every path through the if-chains of [accumulate]. *)
Ltac risk_paths :=
  unfold accumulate;
  repeat match goal with
         | |- context [if ?b then _ else _] =>
             lazymatch b with
             | gt _ _ => idtac
             | lt _ _ => idtac
             | orb _ _ => idtac
             end;
             destruct b eqn:?
         end.

(** The comparisons recorded along a path, as inequalities. *)
Ltac path_facts :=
  repeat match goal with
         | H : orb _ _ = true |- _ => apply orb_true_iff in H
         | H : orb _ _ = false |- _ => apply orb_false_iff in H; destruct H
         | H : gt _ _ = true |- _ => apply gt_true in H
         | H : gt _ _ = false |- _ => apply gt_false in H
         | H : lt _ _ = true |- _ => apply lt_true in H
         | H : lt _ _ = false |- _ => apply lt_false in H
         end.

Ltac impossible_path := exfalso; path_facts; lra.

Lemma accumulate_scores (temp humidity wind_speed pressure : Q) :
  let s := accumulate temp humidity wind_speed pressure in
  (3 <= risk_score s <= 10)%Q
  /\ (2 <= flood_risk s <= 6)%Q
  /\ (2 <= fire_risk s <= 7)%Q
  /\ (2 <= storm_risk s <= 10)%Q
  /\ (min10 (round1 (risk_score s)) == risk_score s)%Q
  /\ (min10 (round1 (flood_risk s)) == flood_risk s)%Q
  /\ (min10 (round1 (fire_risk s)) == fire_risk s)%Q
  /\ (min10 (round1 (storm_risk s)) == storm_risk s)%Q
  /\ overall_risk (min10 (round1 (risk_score s))) = overall_risk (risk_score s).
Proof.
  intros s. subst s. risk_paths;
    first [ impossible_path
          | vm_compute; repeat split; first [reflexivity | discriminate] ].
Qed.

Lemma report_entries (uniform : Q) (s : scores) :
  entry "overall_risk" (report uniform s) = Some (Str (overall_risk (risk_score s)))
  /\ entry "risk_score" (report uniform s) = Some (Number (min10 (round1 (risk_score s))))
  /\ entry "flood_risk" (report uniform s) = Some (Number (min10 (round1 (flood_risk s))))
  /\ entry "fire_risk" (report uniform s) = Some (Number (min10 (round1 (fire_risk s))))
  /\ entry "storm_risk" (report uniform s) = Some (Number (min10 (round1 (storm_risk s)))).
Proof. repeat split. Qed.

Lemma round_half_even_between (q : Q) (lo hi : Z) :
  (inject_Z lo <= q <= inject_Z hi)%Q -> lo <= round_half_even q <= hi.
Proof.
  intros [Hlo Hhi]. unfold round_half_even.
  pose proof (Qfloor_le q) as Hfl. pose proof (Qlt_floor q) as Hlt.
  assert (Hf1 : lo <= Qfloor q).
  { rewrite <- (Qfloor_Z lo). by apply Qfloor_resp_le. }
  assert (Hf2 : Qfloor q <= hi).
  { rewrite Zle_Qle. lra. }
  destruct (Qcompare_spec (q - inject_Z (Qfloor q)) (1 # 2)) as [Heq|Hcmp|Hcmp].
  - destruct (Z.even (Qfloor q)); [lia|].
    assert (Qfloor q < hi); [|lia].
    rewrite Zlt_Qlt. lra.
  - lia.
  - assert (Qfloor q < hi); [|lia].
    rewrite Zlt_Qlt. lra.
Qed.

Lemma round1_between (q : Q) : (1 <= q <= 3)%Q -> (1 <= round1 q <= 3)%Q.
Proof.
  intros Hq. unfold round1.
  destruct (round_half_even_between (q * 10) 10 30) as [Hlo Hhi].
  { change (inject_Z 10) with 10%Q. change (inject_Z 30) with 30%Q. lra. }
  rewrite Zle_Qle in Hlo, Hhi.
  change (inject_Z 10) with 10%Q in Hlo. change (inject_Z 30) with 30%Q in Hhi.
  split.
  - apply Qle_shift_div_l; [reflexivity | lra].
  - apply Qle_shift_div_r; [reflexivity | lra].
Qed.

(** X15. Whatever the payload, a report of [calculate_risk] has the seven
    entries in their order, a confidence of 0.85, a risk score in
    [3, 10], flood, fire and storm risks in [2, 6], [2, 7] and [2, 10],
    and, for a draw in [1, 3], an earthquake risk in [1, 3]. *)
Theorem calculate_risk_bounds (uniform : Q) (weather_data : value)
    (result : list (string * value)) :
  (1 <= uniform <= 3)%Q ->
  calculate_risk uniform weather_data = Done result ->
  exists level score flood fire quake storm,
    result = [("overall_risk", Str level);
              ("risk_score", Number score);
              ("flood_risk", Number flood);
              ("fire_risk", Number fire);
              ("earthquake_risk", Number quake);
              ("storm_risk", Number storm);
              ("confidence", Number 0.85)]
    /\ (3 <= score <= 10)%Q
    /\ (2 <= flood <= 6)%Q
    /\ (2 <= fire <= 7)%Q
    /\ (1 <= quake <= 3)%Q
    /\ (2 <= storm <= 10)%Q.
Proof.
  intros Hu Hdone.
  destruct (calculate_risk_done _ _ _ Hdone) as (t & h & w & p & _ & _ & _ & _ & ->).
  destruct (accumulate_scores t h w p)
    as (Hrisk & Hflood & Hfire & Hstorm & Er & Efl & Efi & Est & _).
  eexists _, _, _, _, _, _. split; [reflexivity|].
  rewrite Er, Efl, Efi, Est. repeat split; try tauto.
  all: by apply round1_between.
Qed.

(** X16. The level of a report always agrees with the score the report
    shows: critical from 8, high from 6, moderate from 4, low below. *)
Theorem calculate_risk_level (uniform : Q) (weather_data : value)
    (result : list (string * value)) (score : Q) :
  calculate_risk uniform weather_data = Done result ->
  entry "risk_score" result = Some (Number score) ->
  entry "overall_risk" result
  = Some (Str (if ge score 8 then "critical"
               else if ge score 6 then "high"
               else if ge score 4 then "moderate"
               else "low")).
Proof.
  intros Hdone.
  destruct (calculate_risk_done _ _ _ Hdone) as (t & h & w & p & _ & _ & _ & _ & ->).
  destruct (accumulate_scores t h w p) as (_ & _ & _ & _ & _ & _ & _ & _ & Hlevel).
  simpl. intros [= <-]. do 2 f_equal. symmetry. exact Hlevel.
Qed.

Ltac level_of_path :=
  match goal with
  | |- context [overall_risk ?x] =>
      let v := eval vm_compute in (overall_risk x) in
      change (overall_risk x) with v
  end.

Lemma accumulate_low (temp humidity wind_speed pressure : Q) :
  overall_risk (risk_score (accumulate temp humidity wind_speed pressure)) = "low"
  <-> (10 <= temp <= 30 /\ wind_speed <= 15 /\ 30 <= humidity <= 80
       /\ 1000 <= pressure)%Q.
Proof.
  risk_paths; cbn [risk_score]; level_of_path;
    (split; [first [discriminate | intros _; path_facts; repeat split; lra]
            | first [reflexivity
                    | intros ((Ht1 & Ht2) & Hw & (Hh1 & Hh2) & Hp); exfalso;
                      path_facts;
                      repeat match goal with H : _ \/ _ |- _ => destruct H end;
                      path_facts; lra]]).
Qed.

(** X17. A report is "low" exactly when no reading is out of the ordinary:
    temperature within [10, 30], wind speed at most 15, humidity within
    [30, 80] and pressure at least 1000. *)
Theorem calculate_risk_low_iff (uniform : Q) (weather_data : value)
    (temp humidity wind_speed pressure : Q) :
  reading weather_data "main" "temp" 25 = Done temp ->
  reading weather_data "main" "humidity" 60 = Done humidity ->
  reading weather_data "wind" "speed" 10 = Done wind_speed ->
  reading weather_data "main" "pressure" 1013 = Done pressure ->
  (exists result,
     calculate_risk uniform weather_data = Done result
     /\ entry "overall_risk" result = Some (Str "low"))
  <-> (10 <= temp <= 30 /\ wind_speed <= 15 /\ 30 <= humidity <= 80
       /\ 1000 <= pressure)%Q.
Proof.
  intros Ht Hh Hw Hp.
  rewrite (calculate_risk_readings uniform _ _ _ _ _ Ht Hh Hw Hp).
  rewrite <- accumulate_low. split.
  - intros (result & [= <-] & Hlevel). simpl in Hlevel. by injection Hlevel.
  - intros Hlow. eexists. split; [reflexivity|]. simpl. by rewrite Hlow.
Qed.

Lemma accumulate_fire_flood (temp humidity wind_speed pressure : Q) :
  let s := accumulate temp humidity wind_speed pressure in
  ~ ((2 < min10 (round1 (flood_risk s)))%Q /\ (2 < min10 (round1 (fire_risk s)))%Q).
Proof.
  intros s. subst s. risk_paths;
    first [ impossible_path
          | vm_compute; intros [H1 H2]; first [discriminate H1 | discriminate H2] ].
Qed.

(** X18. No report raises the flood risk and the fire risk together: one of
    the two stays at its base value of 2. *)
Theorem calculate_risk_fire_or_flood (uniform : Q) (weather_data : value)
    (result : list (string * value)) (flood fire : Q) :
  calculate_risk uniform weather_data = Done result ->
  entry "flood_risk" result = Some (Number flood) ->
  entry "fire_risk" result = Some (Number fire) ->
  ~ ((2 < flood)%Q /\ (2 < fire)%Q).
Proof.
  intros Hdone.
  destruct (calculate_risk_done _ _ _ Hdone) as (t & h & w & p & _ & _ & _ & _ & ->).
  simpl. intros [= <-] [= <-]. apply accumulate_fire_flood.
Qed.

Lemma get_object (entries : list (string * value)) (key : string) (default : value) :
  get (Object entries) key default
  = Done (match entry key entries with Some v => v | None => default end).
Proof. reflexivity. Qed.

Lemma number_numeric (v : value) :
  number v = if numeric v then number v else Fail TypeError.
Proof. by destruct v. Qed.

Lemma numeric_done (v : value) : numeric v = true -> exists q, number v = Done q.
Proof. destruct v; try done; eauto. Qed.

Lemma calculate_risk_sections (uniform : Q) (weather_data : value) :
  sections_ok weather_data = true ->
  calculate_risk uniform weather_data
  = and_then (number (reading_value weather_data "main" "temp" 25)) (fun temp =>
    and_then (number (reading_value weather_data "wind" "speed" 10)) (fun wind_speed =>
    and_then (number (reading_value weather_data "main" "humidity" 60)) (fun humidity =>
    and_then (number (reading_value weather_data "main" "pressure" 1013)) (fun pressure =>
    Done (report uniform (accumulate temp humidity wind_speed pressure)))))).
Proof.
  unfold sections_ok, section_ok, reading_value, calculate_risk.
  destruct weather_data as [| | | | |entries]; try discriminate.
  rewrite !get_object.
  destruct (entry "main" entries) as [[| | | | |main]|]; try discriminate;
    destruct (entry "wind" entries) as [[| | | | |wind]|]; try discriminate;
    reflexivity.
Qed.

Lemma calculate_risk_no_sections (uniform : Q) (weather_data : value) :
  sections_ok weather_data = false ->
  calculate_risk uniform weather_data = Fail AttributeError.
Proof.
  unfold sections_ok, section_ok, calculate_risk.
  destruct weather_data as [| | | | |entries]; try reflexivity.
  rewrite !get_object.
  destruct (entry "main" entries) as [[| | | | |main]|]; try reflexivity;
    destruct (entry "wind" entries) as [[| | | | |wind]|]; try reflexivity;
    discriminate.
Qed.

Lemma calculate_risk_well_formed (uniform : Q) (weather_data : value) :
  match calculate_risk uniform weather_data with
  | Done _ => sections_ok weather_data && readings_numeric weather_data = true
  | Fail _ => sections_ok weather_data && readings_numeric weather_data = false
  end.
Proof.
  destruct (sections_ok weather_data) eqn:Hs.
  - rewrite (calculate_risk_sections _ _ Hs). unfold readings_numeric.
    destruct (reading_value weather_data "main" "temp" 25); try reflexivity;
      destruct (reading_value weather_data "wind" "speed" 10); try reflexivity;
      destruct (reading_value weather_data "main" "humidity" 60); try reflexivity;
      destruct (reading_value weather_data "main" "pressure" 1013); reflexivity.
  - by rewrite (calculate_risk_no_sections _ _ Hs).
Qed.

(** X19. [calculate_risk] fails in two ways only, and a malformed section
    wins over a malformed reading: [AttributeError] when the payload, its
    "main" or its "wind" is not a dictionary, and otherwise [TypeError]
    when one of the four readings is present and not a number; in every
    other case there is a report. *)
Theorem calculate_risk_failures (uniform : Q) (weather_data : value) :
  (sections_ok weather_data = false ->
   calculate_risk uniform weather_data = Fail AttributeError)
  /\ (sections_ok weather_data = true -> readings_numeric weather_data = false ->
      calculate_risk uniform weather_data = Fail TypeError)
  /\ (sections_ok weather_data = true -> readings_numeric weather_data = true ->
      exists result, calculate_risk uniform weather_data = Done result).
Proof.
  split; [apply calculate_risk_no_sections|].
  split; intros Hs; rewrite (calculate_risk_sections _ _ Hs); unfold readings_numeric;
    generalize (reading_value weather_data "main" "temp" 25),
               (reading_value weather_data "wind" "speed" 10),
               (reading_value weather_data "main" "humidity" 60),
               (reading_value weather_data "main" "pressure" 1013);
    intros vt vw vh vp.
  - destruct vt; try reflexivity; destruct vw; try reflexivity;
      destruct vh; try reflexivity; destruct vp; try reflexivity; discriminate.
  - destruct vt; try discriminate; destruct vw; try discriminate;
      destruct vh; try discriminate; destruct vp; try discriminate;
      intros _; eexists; reflexivity.
Qed.

End RiskFacts.

Module RouteFacts.
Import SimpleBackend Payload RiskFacts.

(** X20. Every way of not getting a usable weather payload ends in the same
    fallback reply of [predict_disaster_risk]: an unreachable service, a
    status other than 200, a body that is not JSON, and a 200 body that is
    falsy, such as an empty dictionary. *)
Theorem predict_disaster_risk_fallback (P : Process) (uniform lat lon : Q)
    (r : fetched) :
  (forall data, r = Responded 200 (Some data) -> truthy data = false) ->
  predict_disaster_risk P uniform lat lon r = fallback_reply P lat lon.
Proof.
  intros Hr. unfold predict_disaster_risk, fallback_reply.
  assert (Hfalsy : truthy (fetched_json r) = false).
  { destruct r as [|status [data|]]; try reflexivity. simpl.
    destruct (Z.eqb_spec status 200) as [->|]; [by apply Hr | reflexivity]. }
  by rewrite Hfalsy.
Qed.

Lemma entry_app_r (key : string) (l1 l2 : list (string * value)) :
  entry key l1 = None -> entry key (l1 ++ l2) = entry key l2.
Proof.
  induction l1 as [|[k v] l1 IH]; [done|]. simpl.
  destruct (String.eqb k key); [done | exact IH].
Qed.

Lemma entry_app_l (key : string) (l1 l2 : list (string * value)) (v : value) :
  entry key l1 = Some v -> entry key (l1 ++ l2) = Some v.
Proof.
  induction l1 as [|[k w] l1 IH]; [done|]. simpl.
  destruct (String.eqb k key); [done | exact IH].
Qed.

(** X21. On a 200 response with a truthy body, [predict_disaster_risk]
    never falls back: a body whose sections or readings are malformed is
    answered with HTTP 500, and any other body with the rule-based reply,
    in which every entry of the report of [calculate_risk] is found
    unchanged. *)
Theorem predict_disaster_risk_scored (P : Process) (uniform lat lon : Q)
    (data : value) :
  truthy data = true ->
  let r := predict_disaster_risk P uniform lat lon (Responded 200 (Some data)) in
  (sections_ok data && readings_numeric data = false -> r = HTTPException 500)
  /\ (sections_ok data && readings_numeric data = true ->
      exists risk body,
        calculate_risk uniform data = Done risk
        /\ r = Returned body
        /\ entry "is_real" body = Some (Bool true)
        /\ entry "model_version" body = Some (Str "RuleBased-v1")
        /\ forall key v, entry key risk = Some v -> entry key body = Some v).
Proof.
  intros Htruthy r. subst r. unfold predict_disaster_risk. simpl fetched_json.
  rewrite Htruthy.
  pose proof (calculate_risk_well_formed uniform data) as Hwf.
  destruct (calculate_risk uniform data) as [risk|e] eqn:Hrisk.
  - split; [intros Hbad; congruence|]. intros _.
    exists risk. eexists. split; [reflexivity|]. split; [reflexivity|].
    destruct (calculate_risk_done _ _ _ Hrisk) as (t & h & w & p & _ & _ & _ & _ & ->).
    split; [reflexivity|]. split; [reflexivity|].
    intros key v Hkey.
    assert (Hk1 : String.eqb "success" key = false).
    { apply String.eqb_neq. intros <-. cbn in Hkey. discriminate Hkey. }
    assert (Hk2 : String.eqb "is_real" key = false).
    { apply String.eqb_neq. intros <-. cbn in Hkey. discriminate Hkey. }
    cbn [app entry]. rewrite Hk1, Hk2. by apply entry_app_l.
  - split; [done|]. intros Hgood. congruence.
Qed.

(** X22. [get_weather] reads the first weather condition without looking at
    the length of the list: on a 200 payload whose "main" and "wind" are
    missing or dictionaries, an empty "weather" list lets an [IndexError]
    escape, while a missing "weather" entry falls back to "Unknown". *)
Theorem get_weather_conditions (P : Process) (flag : bool) (lat lon : Q)
    (entries : list (string * value)) :
  section_ok (Object entries) "main" = true ->
  section_ok (Object entries) "wind" = true ->
  (entry "weather" entries = Some (Array []) ->
   get_weather P flag lat lon (Responded 200 (Some (Object entries)))
   = Uncaught IndexError)
  /\ (entry "weather" entries = None ->
      section_ok (Object entries) "clouds" = true ->
      exists body weather,
        get_weather P flag lat lon (Responded 200 (Some (Object entries)))
        = Returned body
        /\ entry "weather" body = Some (Object weather)
        /\ entry "description" weather = Some (Str "Unknown")).
Proof.
  unfold section_ok. rewrite !get_object. intros Hmain Hwind.
  unfold get_weather. simpl Z.eqb. cbv iota. rewrite !get_object.
  destruct (entry "main" entries) as [[| | | | |main]|]; try discriminate;
    destruct (entry "wind" entries) as [[| | | | |wind]|]; try discriminate;
    (split; [intros ->; reflexivity|]);
    intros -> Hclouds;
    destruct (entry "clouds" entries) as [[| | | | |clouds]|]; try discriminate;
    eexists _, _; (split; [reflexivity|]); split; reflexivity.
Qed.

(** X23. The two readers of a weather payload disagree on a missing
    reading: for a 200 payload with none of the entries they look up,
    [get_weather] reports a temperature, humidity, pressure, wind and
    cloud cover of 0, the description "Unknown" and a visibility of 10000,
    while [calculate_risk] scores the same payload at 25 degrees, 60
    percent, wind 10 and 1013 hPa: low, with a risk score of 3 and every
    hazard at 2. *)
Theorem missing_readings_defaults (P : Process) (flag : bool) (uniform lat lon : Q)
    (entries : list (string * value)) :
  entry "main" entries = None -> entry "wind" entries = None ->
  entry "weather" entries = None -> entry "clouds" entries = None ->
  entry "visibility" entries = None ->
  get_weather P flag lat lon (Responded 200 (Some (Object entries)))
  = Returned [("success", Bool true);
              ("is_real", Bool true);
              ("source", Str "OpenWeatherMap");
              ("location", location lat lon);
              ("weather",
               Object [("temperature", Number 0);
                       ("feels_like", Number 0);
                       ("humidity", Number 0);
                       ("pressure", Number 0);
                       ("wind_speed", Number 0);
                       ("wind_direction", Number 0);
                       ("description", Str "Unknown");
                       ("clouds", Number 0);
                       ("visibility", Number 10000)]);
              ("timestamp", Str (timestamp P))]
  /\ calculate_risk uniform (Object entries)
     = Done [("overall_risk", Str "low");
             ("risk_score", Number 3.0);
             ("flood_risk", Number 2.0);
             ("fire_risk", Number 2.0);
             ("earthquake_risk", Number (round1 uniform));
             ("storm_risk", Number 2.0);
             ("confidence", Number 0.85)].
Proof.
  intros Hmain Hwind Hweather Hclouds Hvis. split.
  - unfold get_weather. simpl Z.eqb. cbv iota. rewrite !get_object.
    rewrite Hmain, Hwind, Hweather, Hclouds, Hvis. reflexivity.
  - unfold calculate_risk, get. rewrite Hmain, Hwind. reflexivity.
Qed.

Lemma substring_length (n : nat) (s : string) :
  (String.length (String.substring 0 n s) <= n)%nat.
Proof.
  revert s. induction n as [|n IH]; intros [|c s]; simpl; try lia.
  specialize (IH s). lia.
Qed.

Lemma prefix_len (n : nat) (v w : value) :
  prefix n v = Done w -> exists count, len w = Done count /\ 0 <= count <= Z.of_nat n.
Proof.
  destruct v; try discriminate; intros [= <-]; simpl; eexists; (split; [reflexivity|]).
  - pose proof (substring_length n s). lia.
  - rewrite length_take. lia.
Qed.

(** X24. [get_external_data] always answers: whatever the two services
    sent, it returns its dictionary, with an earthquake count that is the
    length of the data it passes on and never more than 10; and a weather
    body that is falsy without being null, such as an empty dictionary, is
    announced as available with no data. *)
Theorem get_external_data_reply (P : Process) (lat lon : Q)
    (weather_response quake_response : fetched) :
  exists available data count quakes,
    get_external_data P lat lon weather_response quake_response
    = Returned [("success", Bool true);
                ("location", location lat lon);
                ("weather", Object [("available", Bool available); ("data", data)]);
                ("earthquakes",
                 Object [("count", Number (inject_Z count)); ("data", quakes)]);
                ("timestamp", Str (timestamp P));
                ("sources", Array [Str "OpenWeatherMap"; Str "USGS"])]
    /\ len quakes = Done count
    /\ 0 <= count <= 10
    /\ (data <> Null -> available = true)
    /\ (truthy (fetched_json weather_response) = false ->
        fetched_json weather_response <> Null ->
        available = true /\ data = Null).
Proof.
  unfold get_external_data.
  set (weather := fetched_json weather_response).
  match goal with
  | |- context [len ?q] => set (quakes := q)
  end.
  assert (Hlen : exists count, len quakes = Done count /\ 0 <= count <= 10).
  { subst quakes. destruct quake_response as [|status [body|]];
      try (exists 0; split; [reflexivity | lia]).
    destruct (status =? 200); [|exists 0; split; [reflexivity | lia]].
    destruct (get body "features" (Array [])) as [features|e];
      [|exists 0; split; [reflexivity | lia]].
    simpl. destruct (prefix 10 features) as [w|e] eqn:Hp;
      [|exists 0; split; [reflexivity | lia]].
    apply (prefix_len 10 features w Hp). }
  destruct Hlen as (count & Hcount & Hrange). rewrite Hcount.
  eexists _, _, count, quakes. split; [reflexivity|].
  split; [exact Hcount|]. split; [exact Hrange|]. split.
  - destruct (truthy weather) eqn:Ht; [|done]. intros _. by destruct weather.
  - intros -> Hnull. split; [|reflexivity]. by destruct weather.
Qed.

Lemma alerts_loop_length (P : Process) (earthquakes : list quake) :
  forall (i : nat) (alerts : list value),
    alerts_loop P i earthquakes = Done alerts -> length alerts = length earthquakes.
Proof.
  induction earthquakes as [|eq rest IH]; intros i alerts; simpl.
  - by intros [= <-].
  - destruct (alert P i eq) as [a|e]; [|done]. simpl.
    destruct (alerts_loop P (S i) rest) as [others|e] eqn:Hrest; [|done]. simpl.
    intros [= <-]. simpl. f_equal. by eapply IH.
Qed.

Lemma alerts_loop_error (P : Process) (earthquakes : list quake) :
  forall (i : nat) (e : error), alerts_loop P i earthquakes = Fail e -> e = TypeError.
Proof.
  induction earthquakes as [|eq rest IH]; intros i e; simpl; [done|].
  unfold alert. destruct (number (magnitude eq)) as [m|e'] eqn:Hm; simpl.
  - destruct (alerts_loop P (S i) rest) as [others|e''] eqn:Hrest; [done|]. simpl.
    intros [= <-]. by eapply IH.
  - intros [= <-]. destruct (magnitude eq); simpl in Hm; congruence.
Qed.

Lemma alerts_loop_bad_magnitude (P : Process) (earthquakes : list quake) (eq : quake) :
  In eq earthquakes -> numeric (magnitude eq) = false ->
  forall i, alerts_loop P i earthquakes = Fail TypeError.
Proof.
  intros Hin Hbad. induction earthquakes as [|eq' rest IH]; [done|].
  intros i. simpl. destruct Hin as [->|Hin].
  - unfold alert. by destruct (magnitude eq).
  - destruct (alert P i eq') as [a|e] eqn:Ha; simpl.
    + by rewrite (IH Hin).
    + f_equal. apply (alerts_loop_error P [eq'] i). simpl. by rewrite Ha.
Qed.

Lemma collect_quakes_length (features : list value) :
  forall earthquakes,
    (length (collect_quakes features earthquakes)
     <= length earthquakes + length features)%nat.
Proof.
  induction features as [|feature rest IH]; intros earthquakes; simpl; [lia|].
  match goal with |- context [match ?c with Done _ => _ | Fail _ => _ end] =>
    destruct c as [eq|e] end; [|lia].
  specialize (IH (earthquakes ++ [eq])). rewrite length_app in IH. simpl in IH. lia.
Qed.

Lemma recent_quakes_length (r : fetched) : (length (recent_quakes r) <= 5)%nat.
Proof.
  unfold recent_quakes. destruct r as [|status [data|]]; try (simpl; lia).
  destruct (status =? 200); [|simpl; lia].
  destruct (get data "features" (Array [])) as [features|e]; [|simpl; lia].
  destruct features as [| | |s|items|]; try (simpl; lia); cbn [and_then prefix].
  - etransitivity; [apply collect_quakes_length|].
    rewrite length_map. simpl length.
    assert (Hl : forall u, length (String.list_ascii_of_string u) = String.length u).
    { intros u. induction u; simpl; congruence. }
    rewrite Hl. apply substring_length.
  - etransitivity; [apply collect_quakes_length|].
    rewrite length_take. simpl length. lia.
Qed.

(** X25. The reply of [get_active_alerts] is consistent in every case: its
    "count" is the number of alerts it lists, there are at most five, and
    "is_real" says whether there is one. *)
Theorem get_active_alerts_count (P : Process) (lat lon : Q) (r : fetched) :
  exists body alerts,
    get_active_alerts P lat lon r = Returned body
    /\ entry "alerts" body = Some (Array alerts)
    /\ entry "count" body = Some (Number (inject_Z (Z.of_nat (length alerts))))
    /\ (length alerts <= 5)%nat
    /\ entry "is_real" body = Some (Bool (0 <? Z.of_nat (length alerts))).
Proof.
  unfold get_active_alerts. pose proof (recent_quakes_length r) as Hfive.
  destruct (alerts_loop P 0 (recent_quakes r)) as [alerts|e] eqn:Hloop.
  - apply alerts_loop_length in Hloop.
    eexists _, alerts. split; [reflexivity|]. split; [reflexivity|].
    split; [reflexivity|]. split; [lia|]. simpl. by rewrite Hloop.
  - eexists _, []. split; [reflexivity|]. repeat split. simpl. lia.
Qed.

(** X26. One earthquake without a usable magnitude silences them all: if a
    collected earthquake has a magnitude that is missing or not a number,
    [get_active_alerts] returns its error reply, with no alert at all. *)
Theorem get_active_alerts_bad_magnitude (P : Process) (lat lon : Q) (r : fetched)
    (eq : quake) :
  In eq (recent_quakes r) -> numeric (magnitude eq) = false ->
  get_active_alerts P lat lon r = failed_alerts P TypeError.
Proof.
  intros Hin Hbad. unfold get_active_alerts.
  by rewrite (alerts_loop_bad_magnitude P _ eq Hin Hbad).
Qed.

Lemma collect_quakes_readable (good : list value) :
  Forall (fun f => readable_feature f = true) good ->
  forall earthquakes rest,
    collect_quakes (good ++ rest) earthquakes
    = collect_quakes rest (earthquakes ++ map quake_of good).
Proof.
  induction 1 as [|feature good Hf _ IH]; intros earthquakes rest.
  - simpl. by rewrite app_nil_r.
  - cbn [app map collect_quakes].
    destruct feature as [| | | | |entries]; try discriminate.
    simpl in Hf. rewrite !get_object.
    destruct (entry "properties" entries) as [[| | | | |props]|] eqn:Hp;
      try discriminate; cbn [and_then]; rewrite ?get_object; cbn [and_then];
      rewrite IH, <- app_assoc; unfold quake_of, field; rewrite Hp; reflexivity.
Qed.

Lemma collect_quakes_unreadable (bad : value) (rest : list value)
    (earthquakes : list quake) :
  readable_feature bad = false ->
  collect_quakes (bad :: rest) earthquakes = earthquakes.
Proof.
  intros Hbad. simpl. destruct bad as [| | | | |entries]; try reflexivity.
  simpl in Hbad. rewrite !get_object.
  by destruct (entry "properties" entries) as [[| | | | |props]|].
Qed.

(** X27. The earthquakes are collected up to the first feature that cannot
    be read: the readable features before it are kept, in order, and it
    and every feature after it are dropped. *)
Theorem recent_quakes_stop (entries : list (string * value))
    (good rest : list value) (bad : value) :
  entry "features" entries = Some (Array (good ++ bad :: rest)) ->
  Forall (fun f => readable_feature f = true) good ->
  readable_feature bad = false ->
  (length good < 5)%nat ->
  recent_quakes (Responded 200 (Some (Object entries))) = map quake_of good.
Proof.
  intros Hfeatures Hgood Hbad Hlen.
  unfold recent_quakes. simpl Z.eqb. cbv iota. rewrite !get_object, Hfeatures.
  cbn [and_then prefix].
  rewrite take_app_ge by lia.
  replace (5 - length good)%nat with (S (4 - length good)) by lia.
  cbn [take].
  rewrite (collect_quakes_readable good Hgood).
  by rewrite (collect_quakes_unreadable _ _ _ Hbad).
Qed.

(** X28. [get_earthquakes] counts what it passes on, and only what can be
    counted: a reply of the route lists under "earthquakes" the "features"
    of the payload as they came, with their length as "count"; a payload
    whose "features" is null, a number or a boolean lets a [TypeError]
    escape, and one that is not a dictionary an [AttributeError]. *)
Theorem get_earthquakes_count (P : Process) (flag : bool) (lat lon : Q) (days : Z)
    (min_magnitude : Q) (data : value) :
  let r := get_earthquakes P flag lat lon days min_magnitude
             (Responded 200 (Some data)) in
  (forall body, r = Returned body ->
     exists features count,
       get data "features" (Array []) = Done features
       /\ entry "earthquakes" body = Some features
       /\ len features = Done count
       /\ entry "count" body = Some (Number (inject_Z count)))
  /\ (forall features, get data "features" (Array []) = Done features ->
       len features = Fail TypeError -> r = Uncaught TypeError)
  /\ (get data "features" (Array []) = Fail AttributeError ->
      r = Uncaught AttributeError).
Proof.
  intros r. subst r. unfold get_earthquakes. simpl Z.eqb. cbv iota.
  destruct (get data "features" (Array [])) as [features|e] eqn:Hget; cbn [and_then].
  - destruct (len features) as [count|e] eqn:Hlen; cbn [and_then].
    + split; [|split; [|done]].
      * intros body [= <-]. by exists features, count.
      * intros ? [= <-]. by rewrite Hlen.
    + split; [done|]. split; [|done].
      intros ? [= <-]. rewrite Hlen. by intros [= ->].
  - split; [done|]. split; [done|]. by intros [= ->].
Qed.

End RouteFacts.

(** * Worked examples *)

Lemma prepare_sequences_windows_witness :
  exists features self' X y,
    scaled_features rain20 river20 true fresh = (Ok features, self')
    /\ length features = 20%nat
    /\ prepare_sequences rain20 river20 true fresh = (Ok (X, y), self')
    /\ length X = (20 - 7 - 1)%nat
    /\ length y = (20 - 7 - 1)%nat
    /\ forall k, (k < 20 - 7 - 1)%nat ->
         X !! k = Some (take 7 (drop k features))
         /\ length (take 7 (drop k features)) = 7%nat
         /\ exists target,
              river_level_at features (k + 7 + 1) = Some target
              /\ y !! k = Some target.
Proof.
  apply (prepare_sequences_windows fresh rain20 river20 true 20 7).
  - reflexivity.
  - reflexivity.
  - reflexivity.
  - lia.
  - left. reflexivity.
Defined.

(** The scenario of the specification, evaluated: 12 windows of 7 rows,
    and the first target is the normalized river level of row 8. *)
Example prepare_sequences_20_7 :
  match fst (prepare_sequences rain20 river20 true fresh),
        fst (scaled_features rain20 river20 true fresh) with
  | Ok (X, y), Ok features =>
      length X = 12%nat
      /\ Forall (fun window => length window = 7%nat) X
      /\ y !! 0%nat = river_level_at features 8
      /\ exists target, y !! 0%nat = Some target /\ (target == 64 # 361)%Q
  | _, _ => False
  end.
Proof.
  vm_compute. split; [reflexivity|]. split; [repeat constructor|].
  split; [reflexivity|]. eexists. split; reflexivity.
Qed.

(** C2, refuted as stated. A scaler fitted on a training series is
    refitted by a later call that only prepares sequences with the default
    arguments. *)
Lemma prepare_sequences_default_refits :
  scaler prepared_once = Some (MinMaxScaler.Fitted [(0, 10); (1, 3)]%Q)
  /\ scaler prepared_again = Some (MinMaxScaler.Fitted [(0, 2); (7, 9)]%Q)
  /\ scaler prepared_again <> scaler prepared_once.
Proof. vm_compute. repeat split. discriminate. Qed.

(** C3, refuted as stated. With [n_features = 5] against a feature matrix
    of width 2, and with [sequence_length = 7] against a series of 3 rows,
    sequence preparation returns normally. *)
Lemma prepare_sequences_no_configuration_error :
  (n_features five_features = 5
   /\ exists window target,
        fst (prepare_sequences [0; 1; 2]%Q [4; 6; 8]%Q true five_features)
        = Ok ([window], [target]))
  /\ (sequence_length long_window = 7
      /\ fst (prepare_sequences [0; 1; 2]%Q [4; 6; 8]%Q true long_window)
         = Ok ([], [])).
Proof. vm_compute. split; split; try reflexivity. eexists _, _. reflexivity. Qed.

Lemma prepare_sequences_unvalidated_witness :
  fst (prepare_sequences [0; 1; 2]%Q [4; 6; 8]%Q true (with_n_features 5 fresh))
  = fst (prepare_sequences [0; 1; 2]%Q [4; 6; 8]%Q true fresh)
  /\ fst (prepare_sequences [0; 1; 2]%Q [4; 6; 8]%Q true fresh) = Ok ([], []).
Proof.
  destruct (prepare_sequences_unvalidated fresh [0; 1; 2]%Q [4; 6; 8]%Q true 5)
    as (Hwidth & Hshort & _).
  split; [exact Hwidth|]. apply Hshort.
  - reflexivity.
  - discriminate.
  - left. reflexivity.
  - vm_compute. discriminate.
Defined.

(** C4, refuted as stated. Loading from a path without a weights artifact
    returns normally, with no model when TensorFlow is missing and with the
    untrained model of the constructor otherwise. *)
Lemma load_model_without_weights_returns :
  no_files !! "models/flood.h5" = None
  /\ side_files !! "models/flood.h5" = None
  /\ load_model toy without_tensorflow no_files "models/flood.h5" fresh_simulated
     = (Ok tt, fresh_simulated)
  /\ model fresh_simulated = None
  /\ fst (load_model toy with_tensorflow side_files "models/flood.h5" fresh) = Ok tt
  /\ is_trained (snd (load_model toy with_tensorflow side_files "models/flood.h5" fresh))
     = false.
Proof. vm_compute. repeat split. Qed.

Lemma load_model_missing_artifacts_witness :
  model (snd (load_model toy with_tensorflow side_files "models/flood.h5" fresh))
  = model fresh
  /\ is_trained (snd (load_model toy with_tensorflow side_files "models/flood.h5" fresh))
     = is_trained fresh
  /\ fst (load_model toy with_tensorflow side_files "models/flood.h5" fresh) = Ok tt.
Proof.
  destruct (load_model_missing_artifacts toy with_tensorflow side_files
              "models/flood.h5" fresh) as (_ & _ & Hweights & Hok & _).
  split; [apply Hweights; reflexivity|].
  split; [apply Hweights; reflexivity|].
  apply Hok; reflexivity.
Defined.

(** C5, refuted as stated. A simulated prediction and a learned one that
    are the same pair of numbers: nothing in the output tells them apart. *)
Lemma simulated_prediction_untagged :
  simulation_mode without_tensorflow fresh_simulated
  /\ TF_AVAILABLE with_tensorflow = true /\ model trained = Some 0
  /\ exists p c p' c',
      fst (predict toy without_tensorflow one_window true fresh_simulated)
      = Ok (p, Some c)
      /\ fst (predict toy with_tensorflow one_window true trained) = Ok (p', Some c')
      /\ Forall2 Qeq p p' /\ Forall2 Qeq c c'.
Proof.
  split; [by left|]. split; [reflexivity|]. split; [reflexivity|].
  eexists _, _, _, _. split; [vm_compute; reflexivity|].
  split; [vm_compute; reflexivity|].
  split; repeat constructor.
Qed.

Lemma simulated_prediction_shape_witness :
  predict toy without_tensorflow one_window true fresh_simulated
  = (Ok (imap (fun i v => (v * (1 + random_normal without_tensorflow i))%Q) [2%Q],
         Some (map (fun _ => (1 * 0.75)%Q) [2%Q])),
     fresh_simulated).
Proof.
  apply (simulated_prediction_shape toy without_tensorflow fresh_simulated
           one_window true [2%Q]).
  - left. reflexivity.
  - repeat constructor.
Defined.

Lemma inverse_transform_transform_witness :
  exists T X',
    MinMaxScaler.transform [[3; 7]; [12; 5]]%Q (MinMaxScaler.Fitted [(0, 10); (5, 5)]%Q)
      = (Ok T, MinMaxScaler.Fitted [(0, 10); (5, 5)]%Q)
    /\ MinMaxScaler.inverse_transform T (MinMaxScaler.Fitted [(0, 10); (5, 5)]%Q)
      = (Ok X', MinMaxScaler.Fitted [(0, 10); (5, 5)]%Q)
    /\ Forall2 (Forall2 Qeq) X' [[3; 7]; [12; 5]]%Q.
Proof.
  apply (inverse_transform_transform [(0, 10); (5, 5)]%Q [[3; 7]; [12; 5]]%Q).
  - discriminate.
  - repeat constructor.
Defined.

Lemma predict_confidence_range_witness :
  Forall (fun c => (0.5 <= c <= 0.95)%Q) (mc_confidence toy 0 one_window n_samples_default)
  /\ (TF_AVAILABLE with_tensorflow = true -> forall w, model trained = Some w ->
      mc_confidence toy 0 one_window n_samples_default
      = mc_confidence toy w one_window n_samples_default).
Proof.
  apply (predict_confidence_range toy with_tensorflow trained one_window true
           (match fst (predict toy with_tensorflow one_window true trained) with
            | Ok (p, _) => p
            | Raise _ => []
            end)).
  vm_compute. reflexivity.
Defined.

Lemma train_early_stopping_witness :
  best_at (Keras.val_loss toy_run) 4
  /\ model (snd (train toy with_tensorflow disk ten_windows ten_targets None 100 32
                   None fresh))
     = Some (Keras.weights toy_run)
  /\ (length (Keras.val_loss toy_run) <= 20)%nat
  /\ Keras.epoch_weights toy_run !! 4%nat = Some (Keras.weights toy_run).
Proof.
  destruct (train_early_stopping toy with_tensorflow disk fresh 0 ten_windows
              ten_targets None 100 32 None eq_refl eq_refl ltac:(lia) I eq_refl)
    as (_ & Hmodel & _ & _ & Hfifth).
  assert (Hbest : best_at (Keras.val_loss toy_run) 4)
    by (apply best_atb_sound; vm_compute; reflexivity).
  split; [exact Hbest|]. split; [exact Hmodel|]. exact (Hfifth Hbest).
Defined.

(** The run of the witness, evaluated: 20 epochs, and the weights of the
    fifth. *)
Example early_stopping_run :
  length (Keras.val_loss toy_run) = 20%nat
  /\ Keras.weights toy_run = 5
  /\ Keras.epoch_weights toy_run !! 4%nat = Some 5
  /\ last (Keras.epoch_weights toy_run) = Some 20.
Proof. vm_compute. repeat split. Qed.

Lemma train_without_backend_witness :
  toy_simulated_training = _simulate_training without_tensorflow fresh_simulated
  /\ (exists history,
        fst toy_simulated_training = Ok history
        /\ history !! "loss" = Some [0.1%Q]
        /\ history !! "val_loss" = Some [0.12%Q])
  /\ model_metadata (snd toy_simulated_training) !! "mode" = Some (JString "simulated")
  /\ model_metadata (snd toy_simulated_training) !! "mae" = Some (JFloat 2.5)
  /\ model_metadata (snd toy_simulated_training) !! "trained_at"
     = Some (JString (now_isoformat without_tensorflow))
  /\ is_trained (snd toy_simulated_training) = true.
Proof.
  apply (train_without_backend toy without_tensorflow fresh_simulated disk [] [] None
           100 32 None).
  left. reflexivity.
Defined.

Lemma predict_return_confidence_flag_witness :
  (exists preds conf,
     fst (predict toy without_tensorflow one_window false fresh_simulated)
     = Ok (preds, Some conf)
     /\ length conf = length one_window
     /\ Forall (fun c => (c == 0.75)%Q) conf)
  /\ (exists preds,
       fst (predict toy with_tensorflow one_window false trained) = Ok (preds, None)).
Proof.
  destruct (predict_return_confidence_flag toy with_tensorflow trained one_window)
    as (_ & Hlearned).
  destruct (predict_return_confidence_flag toy without_tensorflow fresh_simulated
              one_window) as (Hsim & _).
  split.
  - destruct (Hsim (or_introl eq_refl)) as (_ & Hconf).
    apply (Hconf [2%Q]). repeat constructor.
  - destruct (fst (predict toy with_tensorflow one_window false trained))
      as [[preds conf]|e] eqn:Hp; [|vm_compute in Hp; discriminate].
    exists preds.
    assert (Hnone : conf = None)
      by (refine (Hlearned eq_refl _ preds conf eq_refl); discriminate).
    rewrite Hnone. reflexivity.
Defined.

(** ** Further worked examples *)

Lemma save_load_round_trip_witness :
  load_model toy with_tensorflow flood_bundle flood_h5 fresh_simulated
  = (Ok tt,
     set_model_metadata (model_metadata trained)
       (set_scaler (Some (MinMaxScaler.Fitted [(0, 1); (0, 1)]%Q))
          (set_is_trained true (set_model (Some 0) fresh_simulated))))
  /\ load_model strict with_tensorflow flood_bundle flood_h5 fresh_simulated
     = (Raise ValueError, fresh_simulated).
Proof.
  split.
  - apply (save_load_round_trip toy with_tensorflow disk no_files flood_bundle flood_h5
             trained fresh_simulated 0 (MinMaxScaler.Fitted [(0, 1); (0, 1)]%Q));
      first [reflexivity | vm_compute; discriminate].
  - apply (save_load_round_trip strict with_tensorflow disk no_files flood_bundle
             flood_h5 trained fresh_simulated 0
             (MinMaxScaler.Fitted [(0, 1); (0, 1)]%Q));
      first [reflexivity | vm_compute; discriminate].
Defined.

Lemma save_model_collision_witness :
  flood_collision = <[flood_keras := JsonDocument (model_metadata trained)]> no_files
  /\ forall other,
       fst (load_model toy with_tensorflow flood_collision flood_keras other)
       = Raise ValueError.
Proof.
  apply (save_model_collision toy with_tensorflow disk no_files flood_collision
           flood_keras trained 0); reflexivity.
Defined.

Lemma simulated_bundle_not_reloaded_witness :
  __init__ toy without_tensorflow
    (snd (save_model toy without_tensorflow disk flood_h5 fresh_simulated no_files))
    7 2 [64; 32] 0.2 (Some flood_h5)
  = (Ok tt, fresh_simulated).
Proof.
  apply (simulated_bundle_not_reloaded toy without_tensorflow disk no_files flood_h5
           fresh_simulated 7 2 [64; 32] 0.2);
    first [reflexivity | vm_compute; discriminate].
Defined.

Lemma construct_from_bundle_witness :
  (forall w', Keras.load toy 0 = Ok w' ->
     __init__ toy with_tensorflow flood_bundle 30 2 [16] 0.5 (Some flood_h5)
     = (Ok tt,
        {| sequence_length := 30; n_features := 2; lstm_units := [16];
           dropout_rate := 0.5; model := Some w';
           scaler := Some (MinMaxScaler.Fitted [(0, 1); (0, 1)]%Q);
           is_trained := true; training_history := None;
           model_metadata := model_metadata trained |}))
  /\ (forall e, Keras.load toy 0 = Raise e ->
        fst (__init__ toy with_tensorflow flood_bundle 30 2 [16] 0.5 (Some flood_h5))
        = Raise e).
Proof.
  apply (construct_from_bundle toy with_tensorflow disk no_files flood_bundle flood_h5
           trained 0 (MinMaxScaler.Fitted [(0, 1); (0, 1)]%Q) 30 2 [16] 0.5);
    first [reflexivity | vm_compute; discriminate].
Defined.

Lemma validation_split_partition_witness :
  length (fst (fst (validation_split ten_windows ten_targets None))) = 9%nat
  /\ fst (snd (validation_split ten_windows ten_targets None)) = [[[0; 9]%Q]].
Proof.
  destruct (validation_split_partition ten_windows ten_targets) as (_ & _ & Hlen & _).
  split; [|reflexivity]. apply Nat2Z.inj. rewrite Hlen. reflexivity.
Defined.

Lemma predict_lengths_witness :
  length (fst toy_prediction) = length one_window
  /\ forall c, snd toy_prediction = Some c -> length c = length one_window.
Proof.
  apply (predict_lengths toy with_tensorflow trained one_window true). reflexivity.
Defined.

Lemma predict_unfitted_witness :
  predict toy with_tensorflow week_window true fresh = (Raise NotFittedError, fresh)
  /\ predict strict with_tensorflow week_window true fresh = (Raise NotFittedError, fresh)
  /\ predict strict with_tensorflow one_window true fresh = (Raise ValueError, fresh).
Proof.
  split; [|split].
  - apply (predict_unfitted toy with_tensorflow fresh 0 week_window true); reflexivity.
  - apply (predict_unfitted strict with_tensorflow fresh 0 week_window true); reflexivity.
  - apply (predict_unfitted strict with_tensorflow fresh 0 one_window true); reflexivity.
Defined.

Lemma predict_original_units_witness :
  exists preds conf,
    fst (predict toy with_tensorflow one_window false prepared_once) = Ok (preds, conf)
    /\ forall j, (j < length one_window)%nat ->
         exists p,
           preds !! j = Some p
           /\ (~ (3 == 1)%Q -> (p == 2 * (3 - 1) + 1)%Q)
           /\ ((3 == 1)%Q -> (p == 2 + 1)%Q).
Proof.
  apply (predict_original_units toy with_tensorflow prepared_once 0 one_window false
           (0, 10)%Q 1%Q 3%Q); first [reflexivity | discriminate].
Defined.

Lemma confidence_saturates_witness :
  exists c,
    toy_confidence !! 0%nat = Some c
    /\ ((mc_variance toy 0%Z one_window 10 0 <= 1 # 19)%Q -> (c == 0.95)%Q)
    /\ ((1 <= mc_variance toy 0%Z one_window 10 0)%Q -> (c == 0.5)%Q)
    /\ ((1 # 19 <= mc_variance toy 0%Z one_window 10 0 <= 1)%Q
        -> (c == 1 / (1 + mc_variance toy 0%Z one_window 10 0))%Q)
    /\ ((forall k, (k < 10)%nat ->
           (Keras.call_training toy k 0%Z one_window 0
            == Keras.call_training toy 0 0%Z one_window 0)%Q) ->
        (c == 0.95)%Q).
Proof.
  apply (confidence_saturates toy trained 0 one_window 10 0 toy_confidence);
    first [reflexivity | simpl; lia].
Defined.

Lemma train_history_epochs_witness :
  (exists history losses maes val_losses val_maes,
     fst short_training = Ok history
     /\ training_history (snd short_training) = Some history
     /\ history !! "loss" = Some losses
     /\ history !! "mae" = Some maes
     /\ history !! "val_loss" = Some val_losses
     /\ history !! "val_mae" = Some val_maes
     /\ length maes = length losses
     /\ length val_losses = length losses
     /\ length val_maes = length losses
     /\ (1 <= length losses <= Z.to_nat 3)%nat
     /\ model_metadata (snd short_training) !! "epochs"
        = Some (JInt (Z.of_nat (length losses)))
     /\ (3 <= 16 -> length losses = Z.to_nat 3))
  /\ no_training
     = (Raise KeyError, set_training_history (Some ∅) (set_is_trained true fresh)).
Proof.
  split.
  - apply (train_history_epochs toy with_tensorflow disk fresh 0 ten_windows ten_targets
             None 3 32 (Some flood_h5)); [reflexivity | reflexivity | | reflexivity | lia].
    right. repeat split.
  - apply (train_history_epochs toy with_tensorflow disk fresh 0 ten_windows ten_targets
             None 0 32 None); [reflexivity | reflexivity | exact I | reflexivity | lia].
Defined.

Lemma train_checkpoint_directory_witness :
  Py.dirname "best.h5" = EmptyString
  /\ Py.dirname flood_h5 = "models"
  /\ train toy with_tensorflow disk ten_windows ten_targets None 3 32 (Some "best.h5")
       fresh
     = (Raise FileNotFoundError, fresh).
Proof.
  split; [reflexivity|]. split; [reflexivity|].
  apply (train_checkpoint_directory toy with_tensorflow disk fresh 0 ten_windows
           ten_targets None 3 32 "best.h5"); first [reflexivity | discriminate].
Defined.

Lemma prepare_sequences_negative_length_witness :
  fst (prepare_sequences [0; 5; 10]%Q [1; 2; 3]%Q true backwards) = Raise IndexError.
Proof.
  apply (prepare_sequences_negative_length backwards [0; 5; 10]%Q [1; 2; 3]%Q true);
    [reflexivity | discriminate | by left | vm_compute; reflexivity].
Defined.

Module BackendExamples.
Import SimpleBackend Payload Samples.

Lemma calculate_risk_bounds_witness :
  exists level score flood fire quake storm,
    heatwave_report = [("overall_risk", Str level);
                       ("risk_score", Number score);
                       ("flood_risk", Number flood);
                       ("fire_risk", Number fire);
                       ("earthquake_risk", Number quake);
                       ("storm_risk", Number storm);
                       ("confidence", Number 0.85)]
    /\ (3 <= score <= 10)%Q
    /\ (2 <= flood <= 6)%Q
    /\ (2 <= fire <= 7)%Q
    /\ (1 <= quake <= 3)%Q
    /\ (2 <= storm <= 10)%Q.
Proof.
  apply (RiskFacts.calculate_risk_bounds 2 heatwave heatwave_report);
    [split; discriminate | reflexivity].
Defined.

Lemma calculate_risk_level_witness :
  entry "overall_risk" heatwave_report = Some (Str "critical").
Proof.
  apply (RiskFacts.calculate_risk_level 2 heatwave heatwave_report 10.0); reflexivity.
Defined.

Lemma calculate_risk_low_iff_witness :
  (exists result,
     calculate_risk 2 mild = Done result
     /\ entry "overall_risk" result = Some (Str "low"))
  <-> (10 <= 20 <= 30 /\ 5 <= 15 /\ 30 <= 60 <= 80 /\ 1000 <= 1013)%Q.
Proof.
  apply (RiskFacts.calculate_risk_low_iff 2 mild 20 60 5 1013); reflexivity.
Defined.

Lemma calculate_risk_fire_or_flood_witness :
  ~ ((2 < 2.0)%Q /\ (2 < 7.0)%Q).
Proof.
  apply (RiskFacts.calculate_risk_fire_or_flood 2 heatwave heatwave_report 2.0 7.0);
    reflexivity.
Defined.

Lemma calculate_risk_failures_witness :
  calculate_risk 2 listed = Fail AttributeError
  /\ calculate_risk 2 textual = Fail TypeError
  /\ exists result, calculate_risk 2 mild = Done result.
Proof.
  split; [|split].
  - apply (proj1 (RiskFacts.calculate_risk_failures 2 listed)). reflexivity.
  - apply (proj1 (proj2 (RiskFacts.calculate_risk_failures 2 textual))); reflexivity.
  - apply (proj2 (proj2 (RiskFacts.calculate_risk_failures 2 mild))); reflexivity.
Defined.

Lemma missing_readings_defaults_witness :
  get_weather clock true 28.6 77.2 (Responded 200 (Some (Object bare)))
  = Returned [("success", Bool true);
              ("is_real", Bool true);
              ("source", Str "OpenWeatherMap");
              ("location", location 28.6 77.2);
              ("weather",
               Object [("temperature", Number 0);
                       ("feels_like", Number 0);
                       ("humidity", Number 0);
                       ("pressure", Number 0);
                       ("wind_speed", Number 0);
                       ("wind_direction", Number 0);
                       ("description", Str "Unknown");
                       ("clouds", Number 0);
                       ("visibility", Number 10000)]);
              ("timestamp", Str (timestamp clock))]
  /\ calculate_risk 2 (Object bare)
     = Done [("overall_risk", Str "low");
             ("risk_score", Number 3.0);
             ("flood_risk", Number 2.0);
             ("fire_risk", Number 2.0);
             ("earthquake_risk", Number (round1 2));
             ("storm_risk", Number 2.0);
             ("confidence", Number 0.85)].
Proof.
  apply (RouteFacts.missing_readings_defaults clock true 2 28.6 77.2 bare); reflexivity.
Defined.

Lemma predict_disaster_risk_fallback_witness :
  predict_disaster_risk clock 2 28.6 77.2 (Responded 200 (Some (Object [])))
  = fallback_reply clock 28.6 77.2.
Proof.
  apply (RouteFacts.predict_disaster_risk_fallback clock 2 28.6 77.2
           (Responded 200 (Some (Object [])))).
  intros data [= <-]. reflexivity.
Defined.

Lemma predict_disaster_risk_scored_witness :
  (sections_ok heatwave && readings_numeric heatwave = false ->
   predict_disaster_risk clock 2 28.6 77.2 (Responded 200 (Some heatwave))
   = HTTPException 500)
  /\ (sections_ok heatwave && readings_numeric heatwave = true ->
      exists risk body,
        calculate_risk 2 heatwave = Done risk
        /\ predict_disaster_risk clock 2 28.6 77.2 (Responded 200 (Some heatwave))
           = Returned body
        /\ entry "is_real" body = Some (Bool true)
        /\ entry "model_version" body = Some (Str "RuleBased-v1")
        /\ forall key v, entry key risk = Some v -> entry key body = Some v).
Proof.
  apply (RouteFacts.predict_disaster_risk_scored clock 2 28.6 77.2 heatwave). reflexivity.
Defined.

Lemma get_weather_conditions_witness :
  (entry "weather" no_conditions = Some (Array []) ->
   get_weather clock true 28.6 77.2 (Responded 200 (Some (Object no_conditions)))
   = Uncaught IndexError)
  /\ (entry "weather" no_conditions = None ->
      section_ok (Object no_conditions) "clouds" = true ->
      exists body weather,
        get_weather clock true 28.6 77.2 (Responded 200 (Some (Object no_conditions)))
        = Returned body
        /\ entry "weather" body = Some (Object weather)
        /\ entry "description" weather = Some (Str "Unknown")).
Proof.
  apply (RouteFacts.get_weather_conditions clock true 28.6 77.2 no_conditions);
    reflexivity.
Defined.

Lemma get_active_alerts_bad_magnitude_witness :
  get_active_alerts clock 28.6 77.2 unrated_feed = failed_alerts clock TypeError.
Proof.
  apply (RouteFacts.get_active_alerts_bad_magnitude clock 28.6 77.2 unrated_feed
           (quake_of unrated_feature)); [right; left; reflexivity | reflexivity].
Defined.

Lemma recent_quakes_stop_witness :
  recent_quakes (Responded 200 (Some (Object broken_feed)))
  = map quake_of [complete_feature].
Proof.
  apply (RouteFacts.recent_quakes_stop broken_feed [complete_feature]
           [unrated_feature] Null);
    [reflexivity | by repeat constructor | reflexivity | simpl; lia].
Defined.

Lemma get_earthquakes_count_witness :
  exists features count,
    get counted_feed "features" (Array []) = Done features
    /\ entry "earthquakes"
         [("success", Bool true); ("is_real", Bool true); ("source", Str "USGS");
          ("earthquakes", Array [complete_feature; unrated_feature]);
          ("count", Number (inject_Z 2));
          ("query_params",
           Object [("latitude", Number 28.6); ("longitude", Number 77.2);
                   ("days", Number (inject_Z 7)); ("min_magnitude", Number 2.5)]);
          ("timestamp", Str (timestamp clock))]
       = Some features
    /\ len features = Done count
    /\ entry "count"
         [("success", Bool true); ("is_real", Bool true); ("source", Str "USGS");
          ("earthquakes", Array [complete_feature; unrated_feature]);
          ("count", Number (inject_Z 2));
          ("query_params",
           Object [("latitude", Number 28.6); ("longitude", Number 77.2);
                   ("days", Number (inject_Z 7)); ("min_magnitude", Number 2.5)]);
          ("timestamp", Str (timestamp clock))]
       = Some (Number (inject_Z count)).
Proof.
  apply (proj1 (RouteFacts.get_earthquakes_count clock true 28.6 77.2 7 2.5 counted_feed)).
  reflexivity.
Defined.

End BackendExamples.
